(** * An emulator for the documented NMOS 6502 instructions, and its disassembler

    Shallow embedding of [6502.c] (registers, flags, stack, one-instruction
    interpreter [cpu_execute]) and of [dis-6502.c] (the line printer [dis]),
    followed by the properties checked against them.

    Conventions.  A C value of type [uint8_t] or [uint16_t] is a [Z]; every
    conversion the C code performs (assignment to a narrower object, passing
    an [int] to a [uint8_t] or [uint16_t] parameter, the casts to [int8_t]
    and [int16_t]) is written out with [to_u8], [to_u16], [to_s8], [to_s16].
    The two file-scope objects [cpu] and [mem] are the fields of one record
    [machine], threaded through a state monad. *)

From Stdlib Require Import ZArith List Bool Lia String Ascii.
Import ListNotations.
Local Open Scope Z_scope.

(** ** Integer conversions of the C code *)

Definition to_u8 (v : Z) : Z := v mod 256.
Definition to_u16 (v : Z) : Z := v mod 65536.

(** [(int8_t) v]: the low eight bits read as a two's complement number. *)
Definition to_s8 (v : Z) : Z :=
  let r := v mod 256 in if r <? 128 then r else r - 256.

(** [(int16_t) v]. *)
Definition to_s16 (v : Z) : Z :=
  let r := v mod 65536 in if r <? 32768 then r else r - 65536.

(** A C scalar used as a condition. *)
Definition truthy (v : Z) : bool := negb (v =? 0).

(** [!v] and [!!v]. *)
Definition lnot_c (v : Z) : Z := if truthy v then 0 else 1.
Definition bool_c (v : Z) : Z := if truthy v then 1 else 0.

(** ** Status flags *)

Definition F_N : Z := Z.shiftl 1 7.
Definition F_V : Z := Z.shiftl 1 6.
Definition F_5 : Z := Z.shiftl 1 5.
Definition F_B : Z := Z.shiftl 1 4.
Definition F_D : Z := Z.shiftl 1 3.
Definition F_I : Z := Z.shiftl 1 2.
Definition F_Z : Z := Z.shiftl 1 1.
Definition F_C : Z := Z.shiftl 1 0.

Definition F_PHYSICAL : Z :=
  Z.lor (Z.lor (Z.lor (Z.lor (Z.lor F_N F_V) F_D) F_I) F_Z) F_C.

(** ** Machine state *)

(** Who issued a bus access.  [rd8] and [wr8] are the only way the C code
    touches [mem]; the tag records whether the call came from [cpu_push8] /
    [cpu_pop8] or from anywhere else.  It has no influence on execution. *)
Inductive port := Bus | Stk.

Inductive access :=
| Rd (p : port) (addr : Z)
| Wr (p : port) (addr : Z) (v : Z).

Definition access_port (e : access) : port :=
  match e with Rd p _ => p | Wr p _ _ => p end.

Definition access_addr (e : access) : Z :=
  match e with Rd _ ad => ad | Wr _ ad _ => ad end.

(** [cpu_a] .. [cpu_pc] are the members of [struct cpu]; [mem] is the 64 KiB
    array; [log] lists the bus accesses made so far, newest first (the
    "event log" the source reserves a place for). *)
Record machine := mkMachine {
  cpu_a : Z;
  cpu_x : Z;
  cpu_y : Z;
  cpu_flags : Z;
  cpu_sp : Z;
  cpu_pc : Z;
  mem : Z -> Z;
  log : list access
}.

(** ** The state monad the interpreter runs in *)

Definition M (A : Type) : Type := machine -> A * machine.

Definition ret {A} (v : A) : M A := fun s => (v, s).

Definition bind {A B} (m : M A) (f : A -> M B) : M B :=
  fun s => let (v, s') := m s in f v s'.

Declare Scope m_scope.
Delimit Scope m_scope with M.
Notation "x <- m ;; k" := (bind m (fun x => k))
  (at level 61, m at next level, right associativity) : m_scope.
Notation "m ;; k" := (bind m (fun _ => k))
  (at level 61, right associativity) : m_scope.
Local Open Scope m_scope.

(** Reading a member of [cpu]. *)
Definition reg (f : machine -> Z) : M Z := fun s => (f s, s).

(** Assigning to a member of [cpu]; the stored value is converted to the
    member's type. *)
Definition set_a (v : Z) : M unit := fun s =>
  (tt, mkMachine (to_u8 v) (cpu_x s) (cpu_y s) (cpu_flags s) (cpu_sp s)
         (cpu_pc s) (mem s) (log s)).
Definition set_x (v : Z) : M unit := fun s =>
  (tt, mkMachine (cpu_a s) (to_u8 v) (cpu_y s) (cpu_flags s) (cpu_sp s)
         (cpu_pc s) (mem s) (log s)).
Definition set_y (v : Z) : M unit := fun s =>
  (tt, mkMachine (cpu_a s) (cpu_x s) (to_u8 v) (cpu_flags s) (cpu_sp s)
         (cpu_pc s) (mem s) (log s)).
Definition set_flags (v : Z) : M unit := fun s =>
  (tt, mkMachine (cpu_a s) (cpu_x s) (cpu_y s) (to_u8 v) (cpu_sp s)
         (cpu_pc s) (mem s) (log s)).
Definition set_sp (v : Z) : M unit := fun s =>
  (tt, mkMachine (cpu_a s) (cpu_x s) (cpu_y s) (cpu_flags s) (to_u8 v)
         (cpu_pc s) (mem s) (log s)).
Definition set_pc (v : Z) : M unit := fun s =>
  (tt, mkMachine (cpu_a s) (cpu_x s) (cpu_y s) (cpu_flags s) (cpu_sp s)
         (to_u16 v) (mem s) (log s)).

(** ** Memory bus: [rd8], [wr8] *)

Definition upd (m : Z -> Z) (addr v : Z) : Z -> Z :=
  fun i => if i =? addr then v else m i.

(** [uint8_t rd8(uint16_t addr) { return mem[addr]; }] *)
Definition rd8_from (p : port) (addr : Z) : M Z := fun s =>
  let ad := to_u16 addr in
  (mem s ad,
   mkMachine (cpu_a s) (cpu_x s) (cpu_y s) (cpu_flags s) (cpu_sp s)
     (cpu_pc s) (mem s) (Rd p ad :: log s)).

(** [void wr8(uint16_t addr, uint8_t x) { mem[addr] = x; }] *)
Definition wr8_from (p : port) (addr v : Z) : M unit := fun s =>
  let ad := to_u16 addr in
  (tt,
   mkMachine (cpu_a s) (cpu_x s) (cpu_y s) (cpu_flags s) (cpu_sp s)
     (cpu_pc s) (upd (mem s) ad (to_u8 v)) (Wr p ad (to_u8 v) :: log s)).

Definition rd8 : Z -> M Z := rd8_from Bus.
Definition wr8 : Z -> Z -> M unit := wr8_from Bus.

(** ** Reset *)

(** [cpu_init]: registers cleared, [flags = F_I], [sp = 0xFD], [pc] loaded
    from the reset vector. *)
Definition cpu_init : M unit :=
  set_a 0 ;; set_x 0 ;; set_y 0 ;;
  set_flags F_I ;;
  set_sp 0xFD ;;
  lo <- rd8 0xFFFC ;;
  hi <- rd8 0xFFFD ;;
  set_pc (lo + Z.shiftl hi 8).

(** ** Stack and fetch helpers *)

(** [wr8(0x0100 + cpu.sp, x); cpu.sp--;] *)
Definition cpu_push8 (v : Z) : M unit :=
  sp0 <- reg cpu_sp ;;
  wr8_from Stk (0x0100 + sp0) (to_u8 v) ;;
  sp1 <- reg cpu_sp ;;
  set_sp (sp1 - 1).

(** [cpu.sp++; return rd8(0x0100 + cpu.sp);] *)
Definition cpu_pop8 : M Z :=
  sp0 <- reg cpu_sp ;;
  set_sp (sp0 + 1) ;;
  sp1 <- reg cpu_sp ;;
  rd8_from Stk (0x0100 + sp1).

(** [return rd8(cpu.pc++);] *)
Definition cpu_fetch8 : M Z :=
  p <- reg cpu_pc ;;
  set_pc (p + 1) ;;
  rd8 p.

(** [addr = rd8(cpu.pc++); addr = addr + (rd8(cpu.pc++) << 8); return addr;] *)
Definition cpu_fetch16 : M Z :=
  lo <- cpu_fetch8 ;;
  hi <- cpu_fetch8 ;;
  ret (to_u16 (to_u16 lo + Z.shiftl hi 8)).

(** "indexed indirect" [(ind,X)]: the pointer is read from zero page at
    [(operand + X) & 0xFF]; [zpaddr] is a [uint8_t], so its increment wraps
    inside zero page. *)
Definition cpu_ind_x : M Z :=
  d <- cpu_fetch8 ;;
  xr <- reg cpu_x ;;
  let zpaddr := to_u8 (Z.land (d + xr) 0xFF) in
  lo <- rd8 zpaddr ;;
  let zpaddr' := to_u8 (zpaddr + 1) in
  hi <- rd8 zpaddr' ;;
  ret (to_u16 (to_u16 lo + Z.shiftl hi 8)).

(** "indirect indexed" [(ind),Y]. *)
Definition cpu_ind_y : M Z :=
  d <- cpu_fetch8 ;;
  let zpaddr := to_u8 d in
  lo <- rd8 zpaddr ;;
  let zpaddr' := to_u8 (zpaddr + 1) in
  hi <- rd8 zpaddr' ;;
  let addr := to_u16 (to_u16 lo + Z.shiftl hi 8) in
  yr <- reg cpu_y ;;
  ret (to_u16 (addr + yr)).

(** ** Flag helpers and the ALU *)

(** [c ? t : 0] on a C scalar condition. *)
Definition sel (c : Z) (t e : Z) : Z := if truthy c then t else e.

(** [cpu_flags_nz(uint8_t x)]: most writes to A/X/Y. *)
Definition cpu_flags_nz (v : Z) : M unit :=
  let v := to_u8 v in
  f <- reg cpu_flags ;;
  set_flags
    (Z.lor (Z.lor (Z.land f (Z.lnot (Z.lor F_N F_Z)))
                  (sel (Z.land v 0x80) F_N 0))
           (sel v 0 F_Z)).

(** [cpu_flags_nzc(uint16_t x)]: for CMP/CPX/CPY; the carry is negated. *)
Definition cpu_flags_nzc (v : Z) : M unit :=
  let v := to_u16 v in
  f <- reg cpu_flags ;;
  set_flags
    (Z.lor (Z.lor (Z.lor (Z.land f (Z.lnot (Z.lor (Z.lor F_N F_Z) F_C)))
                         (sel (Z.land v 0x80) F_N 0))
                  (sel (Z.land v 0xFF) 0 F_Z))
           (sel (Z.shiftr v 8) 0 F_C)).

(** [cpu_bit(uint8_t x)]. *)
Definition cpu_bit (v : Z) : M unit :=
  let v := to_u8 v in
  f <- reg cpu_flags ;;
  ar <- reg cpu_a ;;
  set_flags
    (Z.lor (Z.lor (Z.lor (Z.land f (Z.lnot (Z.lor (Z.lor F_N F_Z) F_V)))
                         (sel (Z.land v 0x80) F_N 0))
                  (sel (Z.land ar v) 0 F_Z))
           (sel (Z.land v 0x40) F_V 0)).

(** The flag word [cpu_adc] and [cpu_sbc] build from the new accumulator
    [a'], the carry condition [cy] and the 16-bit signed sum [s]. *)
Definition arith_flags (f a' cy s : Z) : Z :=
  Z.lor (Z.lor (Z.lor (Z.lor
    (Z.land f (Z.lnot (Z.lor (Z.lor (Z.lor F_N F_Z) F_V) F_C)))
    (sel (Z.land a' 0x80) F_N 0))
    (sel a' 0 F_Z))
    cy)
    (if (127 <? s) || (s <? -128) then F_V else 0).

(** [cpu_adc(uint8_t x)]:
    [u = a + x + !!(flags & F_C)] as [uint16_t],
    [s = (int8_t) a + (int8_t) x + !!(flags & F_C)] as [int16_t];
    carry when [u >> 8] is non-zero. *)
Definition cpu_adc (v : Z) : M unit :=
  let v := to_u8 v in
  ar <- reg cpu_a ;;
  f <- reg cpu_flags ;;
  let u := to_u16 (ar + v + bool_c (Z.land f F_C)) in
  let s := to_s16 (to_s8 ar + to_s8 v + bool_c (Z.land f F_C)) in
  set_a u ;;
  a' <- reg cpu_a ;;
  f' <- reg cpu_flags ;;
  set_flags (arith_flags f' a' (sel (Z.shiftr u 8) F_C 0) s).

(** [cpu_sbc(uint8_t x)]:
    [u = a - x - !(flags & F_C)] as [uint16_t],
    [s = (int8_t) a - (int8_t) x - !(flags & F_C)] as [int16_t];
    carry when [u >> 8] is zero. *)
Definition cpu_sbc (v : Z) : M unit :=
  let v := to_u8 v in
  ar <- reg cpu_a ;;
  f <- reg cpu_flags ;;
  let u := to_u16 (ar - v - lnot_c (Z.land f F_C)) in
  let s := to_s16 (to_s8 ar - to_s8 v - lnot_c (Z.land f F_C)) in
  set_a u ;;
  a' <- reg cpu_a ;;
  f' <- reg cpu_flags ;;
  set_flags (arith_flags f' a' (sel (Z.shiftr u 8) 0 F_C) s).

(** [flags = (flags & ~F_C) | (c ? F_C : 0)], used by the shifts and rotates. *)
Definition set_carry_if (c : Z) : M unit :=
  f <- reg cpu_flags ;;
  set_flags (Z.lor (Z.land f (Z.lnot F_C)) (sel c F_C 0)).

(** [cpu_rol(uint8_t x)]: 9-bit rotate left through carry. *)
Definition cpu_rol (v : Z) : M Z :=
  let v := to_u8 v in
  let cy := bool_c (Z.land v 0x80) in
  f <- reg cpu_flags ;;
  let v' := to_u8 (Z.lor (Z.shiftl v 1) (bool_c (Z.land f F_C))) in
  set_carry_if cy ;;
  cpu_flags_nz v' ;;
  ret v'.

(** [cpu_ror(uint8_t x)]: 9-bit rotate right through carry. *)
Definition cpu_ror (v : Z) : M Z :=
  let v := to_u8 v in
  let cy := bool_c (Z.land v 0x01) in
  f <- reg cpu_flags ;;
  let v' := to_u8 (Z.lor (sel (Z.land f F_C) 0x80 0x00) (Z.shiftr v 1)) in
  set_carry_if cy ;;
  cpu_flags_nz v' ;;
  ret v'.

(** ** Operand expressions of the [switch] in [cpu_execute]

    The source writes these inline in each [case]; they are named here once.
    Each yields an address, which [rd8]/[wr8] (or the assignment to the
    [uint16_t] local [addr]) then converts to 16 bits. *)

(** [(cpu_fetch8() + cpu.x) & 0xFF] *)
Definition zpg_x : M Z :=
  d <- cpu_fetch8 ;; xr <- reg cpu_x ;; ret (Z.land (d + xr) 0xFF).

(** [(cpu_fetch8() + cpu.y) & 0xFF] *)
Definition zpg_y : M Z :=
  d <- cpu_fetch8 ;; yr <- reg cpu_y ;; ret (Z.land (d + yr) 0xFF).

(** [cpu_fetch16() + cpu.x] *)
Definition abs_x : M Z :=
  w <- cpu_fetch16 ;; xr <- reg cpu_x ;; ret (w + xr).

(** [cpu_fetch16() + cpu.y] *)
Definition abs_y : M Z :=
  w <- cpu_fetch16 ;; yr <- reg cpu_y ;; ret (w + yr).

(** [rd8(ea)] *)
Definition at_ (ea : M Z) : M Z := addr <- ea ;; rd8 addr.

(** ** Bodies shared by several [case]s *)

(** [cpu.a |= v; cpu_flags_nz(cpu.a);] and its [&=], [^=] siblings. *)
Definition logic (op : Z -> Z -> Z) (src : M Z) : M unit :=
  v <- src ;;
  ar <- reg cpu_a ;;
  set_a (op ar v) ;;
  a' <- reg cpu_a ;;
  cpu_flags_nz a'.

Definition ORA := logic Z.lor.
Definition AND := logic Z.land.
Definition EOR := logic Z.lxor.

(** [addr = ea; tmp8 = rd8(addr); flags = (flags & ~F_C) | ((tmp8 & 0x80) ?
    F_C : 0); tmp8 = tmp8 << 1; wr8(addr, tmp8); cpu_flags_nz(tmp8);] *)
Definition ASL_mem (ea : M Z) : M unit :=
  e <- ea ;;
  let addr := to_u16 e in
  tmp8 <- rd8 addr ;;
  set_carry_if (Z.land tmp8 0x80) ;;
  let tmp8' := to_u8 (Z.shiftl tmp8 1) in
  wr8 addr tmp8' ;;
  cpu_flags_nz tmp8'.

Definition ASL_A : M unit :=
  ar <- reg cpu_a ;;
  set_carry_if (Z.land ar 0x80) ;;
  ar <- reg cpu_a ;;
  set_a (Z.shiftl ar 1) ;;
  a' <- reg cpu_a ;;
  cpu_flags_nz a'.

(** As [ASL_mem] with [tmp8 & 0x01] and [tmp8 >> 1]. *)
Definition LSR_mem (ea : M Z) : M unit :=
  e <- ea ;;
  let addr := to_u16 e in
  tmp8 <- rd8 addr ;;
  set_carry_if (Z.land tmp8 0x01) ;;
  let tmp8' := to_u8 (Z.shiftr tmp8 1) in
  wr8 addr tmp8' ;;
  cpu_flags_nz tmp8'.

Definition LSR_A : M unit :=
  ar <- reg cpu_a ;;
  set_carry_if (Z.land ar 0x01) ;;
  ar <- reg cpu_a ;;
  set_a (Z.shiftr ar 1) ;;
  a' <- reg cpu_a ;;
  cpu_flags_nz a'.

(** [addr = ea; wr8(addr, cpu_rol(rd8(addr)));] *)
Definition ROL_mem (ea : M Z) : M unit :=
  e <- ea ;;
  let addr := to_u16 e in
  v <- rd8 addr ;;
  r <- cpu_rol v ;;
  wr8 addr r.

Definition ROR_mem (ea : M Z) : M unit :=
  e <- ea ;;
  let addr := to_u16 e in
  v <- rd8 addr ;;
  r <- cpu_ror v ;;
  wr8 addr r.

(** [cpu.a = cpu_rol(cpu.a);] *)
Definition ROL_A : M unit := ar <- reg cpu_a ;; r <- cpu_rol ar ;; set_a r.
Definition ROR_A : M unit := ar <- reg cpu_a ;; r <- cpu_ror ar ;; set_a r.

(** [addr = ea; tmp8 = rd8(addr); tmp8--; wr8(addr, tmp8);
    cpu_flags_nz(tmp8);] and the [tmp8++] sibling ([d] is -1 or 1). *)
Definition INCDEC_mem (d : Z) (ea : M Z) : M unit :=
  e <- ea ;;
  let addr := to_u16 e in
  tmp8 <- rd8 addr ;;
  let tmp8' := to_u8 (tmp8 + d) in
  wr8 addr tmp8' ;;
  cpu_flags_nz tmp8'.

(** [cpu_adc(src);], [cpu_sbc(src);], [cpu_bit(src);] *)
Definition ADC (src : M Z) : M unit := v <- src ;; cpu_adc v.
Definition SBC (src : M Z) : M unit := v <- src ;; cpu_sbc v.
Definition BIT (src : M Z) : M unit := v <- src ;; cpu_bit v.

(** [wr8(ea, cpu.r);] *)
Definition ST (r : machine -> Z) (ea : M Z) : M unit :=
  addr <- ea ;; v <- reg r ;; wr8 addr v.

(** [cpu.r = src; cpu_flags_nz(cpu.r);] -- loads, transfers, INX and the
    like. *)
Definition LD (set_r : Z -> M unit) (r : machine -> Z) (src : M Z) : M unit :=
  v <- src ;; set_r v ;; v' <- reg r ;; cpu_flags_nz v'.

(** [cpu_flags_nzc((uint16_t)cpu.r - (uint16_t)src);] *)
Definition CP (r : machine -> Z) (src : M Z) : M unit :=
  rv <- reg r ;; v <- src ;; cpu_flags_nzc (rv - v).

(** [addr = (int16_t)(int8_t) cpu_fetch8(); if (cond) cpu.pc = cpu.pc + addr;]
    where [cond] is [(cpu.flags & mask) == 0] when [want] is [false] and
    [cpu.flags & mask] when it is [true]. *)
Definition branch (mask : Z) (want : bool) : M unit :=
  d <- cpu_fetch8 ;;
  let addr := to_u16 (to_s16 (to_s8 d)) in
  f <- reg cpu_flags ;;
  if Bool.eqb (truthy (Z.land f mask)) want
  then (p <- reg cpu_pc ;; set_pc (p + addr))
  else ret tt.

(** [cpu.flags &= ~mask;] and [cpu.flags |= mask;] *)
Definition clear_flag (mask : Z) : M unit :=
  f <- reg cpu_flags ;; set_flags (Z.land f (Z.lnot mask)).
Definition raise_flag (mask : Z) : M unit :=
  f <- reg cpu_flags ;; set_flags (Z.lor f mask).

(** [cpu.r--; cpu_flags_nz(cpu.r);] and [cpu.r++; ...] ([d] is -1 or 1). *)
Definition step_reg (set_r : Z -> M unit) (r : machine -> Z) (d : Z) : M unit :=
  v <- reg r ;; set_r (v + d) ;; v' <- reg r ;; cpu_flags_nz v'.

(** ** Bodies that occur once *)

Definition BRK : M unit :=
  p <- reg cpu_pc ;;
  cpu_push8 (Z.shiftr p 8) ;;
  p <- reg cpu_pc ;;
  cpu_push8 (Z.land p 0xFF) ;;
  f <- reg cpu_flags ;;
  cpu_push8 (Z.lor (Z.lor f F_B) F_5) ;;
  lo <- rd8 0xFFFE ;;
  hi <- rd8 0xFFFF ;;
  let addr := to_u16 (to_u16 lo + Z.shiftl hi 8) in
  raise_flag F_I ;;
  set_pc addr.

Definition PHP : M unit :=
  f <- reg cpu_flags ;; cpu_push8 (Z.lor (Z.lor f F_B) F_5).

Definition PLP : M unit :=
  v <- cpu_pop8 ;; set_flags (Z.land v F_PHYSICAL).

Definition PHA : M unit := ar <- reg cpu_a ;; cpu_push8 ar.

(** [cpu.a = cpu_pop8();] *)
Definition PLA : M unit := v <- cpu_pop8 ;; set_a v.

(** The target address is fetched around the push of the return address. *)
Definition JSR : M unit :=
  lo <- cpu_fetch8 ;;
  p <- reg cpu_pc ;;
  cpu_push8 (Z.shiftr p 8) ;;
  p <- reg cpu_pc ;;
  cpu_push8 (Z.land p 0xFF) ;;
  hi <- cpu_fetch8 ;;
  let addr := to_u16 (Z.lor (to_u16 lo) (Z.shiftl hi 8)) in
  set_pc addr.

Definition RTI : M unit :=
  v <- cpu_pop8 ;;
  set_flags (Z.land v F_PHYSICAL) ;;
  lo <- cpu_pop8 ;;
  hi <- cpu_pop8 ;;
  let addr := to_u16 (to_u16 lo + Z.shiftl hi 8) in
  set_pc addr.

Definition RTS : M unit :=
  lo <- cpu_pop8 ;;
  hi <- cpu_pop8 ;;
  let addr := to_u16 (Z.lor (to_u16 lo) (Z.shiftl hi 8)) in
  set_pc (addr + 1).

Definition JMP_abs : M unit := w <- cpu_fetch16 ;; set_pc w.

(** [addr = cpu_fetch16(); cpu.pc = rd8(addr);
     cpu.pc = cpu.pc + (rd8(addr+1) << 8);] *)
Definition JMP_ind : M unit :=
  addr <- cpu_fetch16 ;;
  lo <- rd8 addr ;;
  set_pc lo ;;
  hi <- rd8 (addr + 1) ;;
  p <- reg cpu_pc ;;
  set_pc (p + Z.shiftl hi 8).

(** [cpu.sp = cpu.x;] -- no flags affected. *)
Definition TXS : M unit := xr <- reg cpu_x ;; set_sp xr.

(** [case 0xA9: cpu.a = cpu_fetch8(); break;] *)
Definition LDA_imm : M unit := v <- cpu_fetch8 ;; set_a v.

(** [case 0x70: addr = (int16_t)(int8_t) rd8(cpu.pc++);
     if (cpu.flags & F_N) cpu.pc = cpu.pc + addr;] *)
Definition BVS : M unit :=
  p <- reg cpu_pc ;;
  set_pc (p + 1) ;;
  d <- rd8 p ;;
  let addr := to_u16 (to_s16 (to_s8 d)) in
  f <- reg cpu_flags ;;
  if truthy (Z.land f F_N)
  then (p <- reg cpu_pc ;; set_pc (p + addr))
  else ret tt.

(** ** The [switch] of [cpu_execute]

    One line per [case], in source order; [None] is the [default:] arm, which
    reports the opcode and exits. *)
Definition exec_op (opcode : Z) : option (M unit) :=
  match opcode with
  | 0x00 => Some BRK
  | 0x01 => Some (ORA (at_ cpu_ind_x))
  | 0x05 => Some (ORA (at_ cpu_fetch8))
  | 0x06 => Some (ASL_mem cpu_fetch8)
  | 0x08 => Some PHP
  | 0x09 => Some (ORA cpu_fetch8)
  | 0x0A => Some ASL_A
  | 0x0D => Some (ORA (at_ cpu_fetch16))
  | 0x0E => Some (ASL_mem cpu_fetch16)

  | 0x10 => Some (branch F_N false)
  | 0x11 => Some (ORA (at_ cpu_ind_y))
  | 0x15 => Some (ORA (at_ zpg_x))
  | 0x16 => Some (ASL_mem zpg_x)
  | 0x18 => Some (clear_flag F_C)
  | 0x19 => Some (ORA (at_ abs_y))
  | 0x1D => Some (ORA (at_ abs_x))
  | 0x1E => Some (ASL_mem abs_x)

  | 0x20 => Some JSR
  | 0x21 => Some (AND (at_ cpu_ind_x))
  | 0x24 => Some (BIT (at_ cpu_fetch8))
  | 0x25 => Some (AND (at_ cpu_fetch8))
  | 0x26 => Some (ROL_mem cpu_fetch8)
  | 0x28 => Some PLP
  | 0x29 => Some (AND cpu_fetch8)
  | 0x2A => Some ROL_A
  | 0x2C => Some (BIT (at_ cpu_fetch16))
  | 0x2D => Some (AND (at_ cpu_fetch16))
  | 0x2E => Some (ROL_mem cpu_fetch16)

  | 0x30 => Some (branch F_N true)
  | 0x31 => Some (AND (at_ cpu_ind_y))
  | 0x35 => Some (AND (at_ zpg_x))
  | 0x36 => Some (ROL_mem zpg_x)
  | 0x38 => Some (raise_flag F_C)
  | 0x39 => Some (AND (at_ abs_y))
  | 0x3D => Some (AND (at_ abs_x))
  | 0x3E => Some (ROL_mem abs_x)

  | 0x40 => Some RTI
  | 0x41 => Some (EOR (at_ cpu_ind_x))
  | 0x45 => Some (EOR (at_ cpu_fetch8))
  | 0x46 => Some (LSR_mem cpu_fetch8)
  | 0x48 => Some PHA
  | 0x49 => Some (EOR cpu_fetch8)
  | 0x4A => Some LSR_A
  | 0x4C => Some JMP_abs
  | 0x4D => Some (EOR (at_ cpu_fetch16))
  | 0x4E => Some (LSR_mem cpu_fetch16)

  | 0x50 => Some (branch F_V false)
  | 0x51 => Some (EOR (at_ cpu_ind_y))
  | 0x55 => Some (EOR (at_ zpg_x))
  | 0x56 => Some (LSR_mem zpg_x)
  | 0x58 => Some (clear_flag F_I)
  | 0x59 => Some (EOR (at_ abs_y))
  | 0x5D => Some (EOR (at_ abs_x))
  | 0x5E => Some (LSR_mem abs_x)

  | 0x60 => Some RTS
  | 0x61 => Some (ADC (at_ cpu_ind_x))
  | 0x65 => Some (ADC (at_ cpu_fetch8))
  | 0x66 => Some (ROR_mem cpu_fetch8)
  | 0x68 => Some PLA
  | 0x69 => Some (ADC cpu_fetch8)
  | 0x6A => Some ROR_A
  | 0x6C => Some JMP_ind
  | 0x6D => Some (ADC (at_ cpu_fetch16))
  | 0x6E => Some (ROR_mem cpu_fetch16)

  | 0x70 => Some BVS
  | 0x71 => Some (ADC (at_ cpu_ind_y))
  | 0x75 => Some (ADC (at_ zpg_x))
  | 0x76 => Some (ROR_mem zpg_x)
  | 0x78 => Some (raise_flag F_I)
  | 0x79 => Some (ADC (at_ abs_y))
  | 0x7D => Some (ADC (at_ abs_x))
  | 0x7E => Some (ROR_mem abs_x)

  | 0x81 => Some (ST cpu_a cpu_ind_x)
  | 0x84 => Some (ST cpu_y cpu_fetch8)
  | 0x85 => Some (ST cpu_a cpu_fetch8)
  | 0x86 => Some (ST cpu_x cpu_fetch8)
  | 0x88 => Some (step_reg set_y cpu_y (-1))
  | 0x8A => Some (LD set_a cpu_a (reg cpu_x))
  | 0x8C => Some (ST cpu_y cpu_fetch16)
  | 0x8D => Some (ST cpu_a cpu_fetch16)
  | 0x8E => Some (ST cpu_x cpu_fetch16)

  | 0x90 => Some (branch F_C false)
  | 0x91 => Some (ST cpu_a cpu_ind_y)
  | 0x94 => Some (ST cpu_y zpg_x)
  | 0x95 => Some (ST cpu_a zpg_x)
  | 0x96 => Some (ST cpu_x zpg_y)
  | 0x98 => Some (LD set_a cpu_a (reg cpu_y))
  | 0x99 => Some (ST cpu_a abs_y)
  | 0x9A => Some TXS
  | 0x9D => Some (ST cpu_a abs_x)

  | 0xA0 => Some (LD set_y cpu_y cpu_fetch8)
  | 0xA1 => Some (LD set_a cpu_a (at_ cpu_ind_x))
  | 0xA2 => Some (LD set_x cpu_x cpu_fetch8)
  | 0xA4 => Some (LD set_y cpu_y (at_ cpu_fetch8))
  | 0xA5 => Some (LD set_a cpu_a (at_ cpu_fetch8))
  | 0xA6 => Some (LD set_x cpu_x (at_ cpu_fetch8))
  | 0xA8 => Some (LD set_y cpu_y (reg cpu_a))
  | 0xA9 => Some LDA_imm
  | 0xAA => Some (LD set_x cpu_x (reg cpu_a))
  | 0xAB                                  (* falls into the next case *)
  | 0xAC => Some (LD set_y cpu_y (at_ cpu_fetch16))
  | 0xAD => Some (LD set_a cpu_a (at_ cpu_fetch16))
  | 0xAE => Some (LD set_x cpu_x (at_ cpu_fetch16))

  | 0xB0 => Some (branch F_C true)
  | 0xB1 => Some (LD set_a cpu_a (at_ cpu_ind_y))
  | 0xB4 => Some (LD set_y cpu_y (at_ zpg_x))
  | 0xB5 => Some (LD set_a cpu_a (at_ zpg_x))
  | 0xB6 => Some (LD set_x cpu_x (at_ zpg_y))
  | 0xB8 => Some (clear_flag F_V)
  | 0xB9 => Some (LD set_a cpu_a (at_ abs_y))
  | 0xBA => Some (LD set_x cpu_x (reg cpu_sp))
  | 0xBC => Some (LD set_y cpu_y (at_ abs_x))
  | 0xBD => Some (LD set_a cpu_a (at_ abs_x))
  | 0xBE => Some (LD set_x cpu_x (at_ abs_y))

  | 0xC0 => Some (CP cpu_y cpu_fetch8)
  | 0xC1 => Some (CP cpu_a (at_ cpu_ind_x))
  | 0xC4 => Some (CP cpu_y (at_ cpu_fetch8))
  | 0xC5 => Some (CP cpu_a (at_ cpu_fetch8))
  | 0xC6 => Some (INCDEC_mem (-1) cpu_fetch8)
  | 0xC8 => Some (step_reg set_y cpu_y 1)
  | 0xC9 => Some (CP cpu_a cpu_fetch8)
  | 0xCA => Some (step_reg set_x cpu_x (-1))
  | 0xCC => Some (CP cpu_y (at_ cpu_fetch16))
  | 0xCD => Some (CP cpu_a (at_ cpu_fetch16))
  | 0xCE => Some (INCDEC_mem (-1) cpu_fetch16)

  | 0xD0 => Some (branch F_Z false)
  | 0xD1 => Some (CP cpu_a (at_ cpu_ind_y))
  | 0xD5 => Some (CP cpu_a (at_ zpg_x))
  | 0xD6 => Some (INCDEC_mem (-1) zpg_x)
  | 0xD8 => Some (clear_flag F_C)         (* CLD: [cpu.flags &= ~F_C;] *)
  | 0xD9 => Some (CP cpu_a (at_ abs_y))
  | 0xDD => Some (CP cpu_a (at_ abs_x))
  | 0xDE => Some (INCDEC_mem (-1) abs_x)

  | 0xE0 => Some (CP cpu_x cpu_fetch8)
  | 0xE1 => Some (SBC (at_ cpu_ind_x))
  | 0xE4 => Some (CP cpu_x (at_ cpu_fetch8))
  | 0xE5 => Some (SBC (at_ cpu_fetch8))
  | 0xE6 => Some (INCDEC_mem 1 cpu_fetch8)
  | 0xE8 => Some (step_reg set_x cpu_x 1)
  | 0xE9 => Some (SBC cpu_fetch8)
  | 0xEA => Some (ret tt)
  | 0xEC => Some (CP cpu_x cpu_fetch8)    (* CPX abs: operand is [cpu_fetch8()] *)
  | 0xED => Some (SBC (at_ cpu_fetch16))
  | 0xEE => Some (INCDEC_mem 1 cpu_fetch16)

  | 0xF0 => Some (branch F_Z true)
  | 0xF1 => Some (SBC (at_ cpu_ind_y))
  | 0xF5 => Some (SBC (at_ zpg_x))
  | 0xF6 => Some (INCDEC_mem 1 zpg_x)
  | 0xF8 => Some (raise_flag F_D)
  | 0xF9 => Some (SBC (at_ abs_y))
  | 0xFD => Some (SBC (at_ abs_x))
  | 0xFE => Some (INCDEC_mem 1 abs_x)

  | _ => None
  end.

(** [cpu_execute]: run one instruction.  [None] when the opcode has no
    [case]: the program prints "Undefined opcode" and exits. *)
Definition cpu_execute (s : machine) : option machine :=
  let (opcode, s1) := cpu_fetch8 s in
  match exec_op opcode with
  | Some body => Some (snd (body s1))
  | None => None
  end.

(** ** The documented opcode set

    The 151 opcode bytes the specification lists as the documented NMOS set,
    row by row. *)
Definition documented : list Z :=
  [ 0x00; 0x01; 0x05; 0x06; 0x08; 0x09; 0x0A; 0x0D; 0x0E;
    0x10; 0x11; 0x15; 0x16; 0x18; 0x19; 0x1D; 0x1E;
    0x20; 0x21; 0x24; 0x25; 0x26; 0x28; 0x29; 0x2A; 0x2C; 0x2D; 0x2E;
    0x30; 0x31; 0x35; 0x36; 0x38; 0x39; 0x3D; 0x3E;
    0x40; 0x41; 0x45; 0x46; 0x48; 0x49; 0x4A; 0x4C; 0x4D; 0x4E;
    0x50; 0x51; 0x55; 0x56; 0x58; 0x59; 0x5D; 0x5E;
    0x60; 0x61; 0x65; 0x66; 0x68; 0x69; 0x6A; 0x6C; 0x6D; 0x6E;
    0x70; 0x71; 0x75; 0x76; 0x78; 0x79; 0x7D; 0x7E;
    0x81; 0x84; 0x85; 0x86; 0x88; 0x8A; 0x8C; 0x8D; 0x8E;
    0x90; 0x91; 0x94; 0x95; 0x96; 0x98; 0x99; 0x9A; 0x9D;
    0xA0; 0xA1; 0xA2; 0xA4; 0xA5; 0xA6; 0xA8; 0xA9; 0xAA; 0xAC; 0xAD; 0xAE;
    0xB0; 0xB1; 0xB4; 0xB5; 0xB6; 0xB8; 0xB9; 0xBA; 0xBC; 0xBD; 0xBE;
    0xC0; 0xC1; 0xC4; 0xC5; 0xC6; 0xC8; 0xC9; 0xCA; 0xCC; 0xCD; 0xCE;
    0xD0; 0xD1; 0xD5; 0xD6; 0xD8; 0xD9; 0xDD; 0xDE;
    0xE0; 0xE1; 0xE4; 0xE5; 0xE6; 0xE8; 0xE9; 0xEA; 0xEC; 0xED; 0xEE;
    0xF0; 0xF1; 0xF5; 0xF6; 0xF8; 0xF9; 0xFD; 0xFE ].

Definition is_documented (op : Z) : bool := existsb (Z.eqb op) documented.

(** Whether the [switch] has a [case] for the opcode. *)
Definition decodes (op : Z) : bool :=
  match exec_op op with Some _ => true | None => false end.

(** The 256 values of an opcode byte. *)
Definition all_bytes : list Z := map Z.of_nat (seq 0 256).

(** ** Observations used in the statements *)

(** [cpu.flags & mask] as a condition. *)
Definition flag (mask : Z) (s : machine) : bool :=
  truthy (Z.land (cpu_flags s) mask).

(** The byte at the program counter: the opcode the next step decodes. *)
Definition opcode_at (s : machine) : Z := mem s (to_u16 (cpu_pc s)).

(** The accesses a step added to the log. *)
Definition issued (s s' : machine) (new : list access) : Prop :=
  log s' = new ++ log s.

(** An access made through the stack helpers lies in page one. *)
Definition in_stack_page (e : access) : Prop :=
  access_port e = Stk -> 0x0100 <= access_addr e <= 0x01FF.

(** Memory images for concrete runs: the listed bytes, zero elsewhere. *)
Fixpoint mem_of (l : list (Z * Z)) : Z -> Z :=
  match l with
  | [] => fun _ => 0
  | (k, v) :: r => fun i => if i =? k then v else mem_of r i
  end.

(** A machine with the given registers over a memory image, empty log. *)
Definition machine_of (a x y f sp pc : Z) (l : list (Z * Z)) : machine :=
  mkMachine a x y f sp pc (mem_of l) [].

(** The state [cpu_init] produces over a memory image whose other contents
    are zero. *)
Definition reset_on (l : list (Z * Z)) : machine :=
  snd (cpu_init (machine_of 0 0 0 0 0 0 l)).

(** ** The disassembler, [dis-6502.c] *)

Local Open Scope string_scope.

Definition tab : string := String "009"%char EmptyString.
Definition nl : string := String "010"%char EmptyString.

(** One upper-case hexadecimal digit, as [%X] prints it. *)
Definition hex_digit (d : Z) : ascii :=
  match d with
  | 0 => "0" | 1 => "1" | 2 => "2" | 3 => "3" | 4 => "4"
  | 5 => "5" | 6 => "6" | 7 => "7" | 8 => "8" | 9 => "9"
  | 10 => "A" | 11 => "B" | 12 => "C" | 13 => "D" | 14 => "E"
  | _ => "F"
  end%char.

(** [%02X] of a [uint8_t] and [%04X] of a [uint16_t]; the arguments' types
    bound the values, so the minimum width is the width. *)
Definition hex2 (v : Z) : string :=
  let v := to_u8 v in
  String (hex_digit (Z.shiftr v 4))
    (String (hex_digit (Z.land v 0xF)) EmptyString).

Definition hex4 (v : Z) : string :=
  let v := to_u16 v in
  hex2 (Z.shiftr v 8) ++ hex2 (Z.land v 0xFF).

(** [static const char mne_s[]] *)
Definition mne_s : string := "BRKORAANDTXATAXPHPPLPCLCJSRRTI".

(** [static const uint8_t mne_idx[256] = { 0, 3, 3, 6, -1, };] -- the
    entries not listed are zero, and [-1] is stored as [0xFF]. *)
Definition mne_idx (op : Z) : Z :=
  nth (Z.to_nat op) [0; 3; 3; 6; to_u8 (-1)]%Z 0%Z.

(** [static const uint8_t addrmode[128] = { 0x0A, 0x00, 0x07, };] *)
Definition addrmode (i : Z) : Z :=
  nth (Z.to_nat i) [0x0A; 0x00; 0x07]%Z 0%Z.

(** [p[k]] for [p = mne_s + idx]. *)
Definition mne_char (idx k : Z) : ascii :=
  match String.get (Z.to_nat (idx + k)) mne_s with
  | Some c => c
  | None => "000"%char
  end.

(** [printf("%c%c%c", p[0], p[1], p[2])] *)
Definition mnemonic (idx : Z) : string :=
  String (mne_char idx 0)
    (String (mne_char idx 1) (String (mne_char idx 2) EmptyString)).

(** The addressing-mode nibble of an opcode: high nibble of
    [addrmode[op >> 1]] for an even opcode, low nibble for an odd one. *)
Definition mode_of (op : Z) : Z :=
  let am := addrmode (Z.shiftr op 1) in
  if truthy (Z.land op 1) then Z.land am 0xF else to_u8 (Z.shiftr am 4).

(** The [switch (am)] that prints the operand. *)
Definition operand (am b1 word target : Z) : string :=
  match am with
  | 1 => "A"
  | 2 => "#$" ++ hex2 b1
  | 3 => "$" ++ hex4 word
  | 4 => "$" ++ hex2 b1
  | 5 => "$" ++ hex4 target ++ tab ++ "; +" ++ hex2 b1
  | 6 => "$" ++ hex4 word ++ ",X"
  | 7 => "$" ++ hex4 word ++ ",Y"
  | 8 => "$" ++ hex2 b1 ++ ",X"
  | 9 => "$" ++ hex2 b1 ++ ",Y"
  | 10 => "($" ++ hex4 word ++ ",X)"
  | 11 => "($" ++ hex4 word ++ ",Y)"
  | 12 => "($" ++ hex4 word ++ ")"
  | _ => ""
  end%Z.

(** [void dis(uint8_t instr[3], uint16_t addr)]: the text written to
    standard output, one [printf] after the other. *)
Definition dis (instr : list Z) (addr : Z) : string :=
  let i0 := to_u8 (nth 0 instr 0%Z) in
  let i1 := to_u8 (nth 1 instr 0%Z) in
  let i2 := to_u8 (nth 2 instr 0%Z) in
  let addr := to_u16 addr in
  let out := hex4 addr ++ ":" ++ tab in
  if (mne_idx i0 =? 0xFF)%Z then
    out ++ (tab ++ "DB" ++ tab ++ "$" ++ hex2 i0 ++ tab
            ++ "; illegal instruction" ++ nl)
  else
    let out := out ++ (tab ++ mnemonic (mne_idx i0)) in
    let am := mode_of i0 in
    let out := if truthy am then out ++ tab else out in
    let word := to_u16 (Z.shiftl i2 8 + i1) in
    let target := to_u16 (addr + to_s16 (to_s8 i1)) in
    let out := out ++ operand am i1 word target in
    out ++ nl.

Local Close Scope string_scope.


(** ** Predicates of the statements *)

(** Bits 5 and B of the live flags are clear. *)
Definition stack_bits_clear (s : machine) : Prop :=
  Z.land (cpu_flags s) (Z.lor F_5 F_B) = 0.

(** The same, bit by bit. *)
Definition bits45_clear (f : Z) : Prop :=
  Z.testbit f 4 = false /\ Z.testbit f 5 = false.

(** The invariant carried through a step for the flags. *)
Definition flags_inv (s : machine) : Prop := bits45_clear (cpu_flags s).

(** The invariant carried through a step for the stack: the stack pointer
    is a byte, and the accesses added to the log [l0] the step started from
    are in page one when they come from the stack helpers. *)
Definition stack_inv (l0 : list access) (s : machine) : Prop :=
  0 <= cpu_sp s < 256 /\
  exists new, log s = new ++ l0 /\ Forall in_stack_page new.

(** Running [m] from a state in [P] ends in a state in [P]. *)
Definition pres {A} (P : machine -> Prop) (m : M A) : Prop :=
  forall s, P s -> P (snd (m s)).

(** [~x] stored in a [uint8_t]. *)
Definition complement8 (v : Z) : Z := to_u8 (Z.lnot v).

(** ** Observing a step *)

(** The registers after a step: [(a, x, y, flags, sp, pc)]. *)
Definition regs (o : option machine) : option (Z * Z * Z * Z * Z * Z) :=
  option_map
    (fun s => (cpu_a s, cpu_x s, cpu_y s, cpu_flags s, cpu_sp s, cpu_pc s)) o.

(** The flags N, V, D, I, Z, C after a step, in that order. *)
Definition flags_after (o : option machine) : option (list bool) :=
  option_map
    (fun s => [flag F_N s; flag F_V s; flag F_D s; flag F_I s;
               flag F_Z s; flag F_C s]) o.

(** The bus accesses of a step that started with an empty log, oldest
    first. *)
Definition trace (o : option machine) : option (list access) :=
  option_map (fun s => rev (log s)) o.

(** Memory bytes after a step. *)
Definition peek (o : option machine) (addrs : list Z) : option (list Z) :=
  option_map (fun s => map (mem s) addrs) o.

(** ** Predicates of the further properties *)

(** Every member of [cpu] and every cell of [mem] holds a value of its C
    type. *)
Definition well_formed (s : machine) : Prop :=
  0 <= cpu_a s < 256 /\ 0 <= cpu_x s < 256 /\ 0 <= cpu_y s < 256 /\
  0 <= cpu_flags s < 256 /\ 0 <= cpu_sp s < 256 /\
  0 <= cpu_pc s < 65536 /\
  forall addr, 0 <= mem s addr < 256.

(** The state [cpu_fetch8] leaves when it reads the opcode. *)
Definition after_fetch (s : machine) : machine :=
  mkMachine (cpu_a s) (cpu_x s) (cpu_y s) (cpu_flags s) (cpu_sp s)
    (to_u16 (cpu_pc s + 1)) (mem s) (Rd Bus (to_u16 (cpu_pc s)) :: log s).

(** Membership of an opcode in a list of opcodes. *)
Definition among (l : list Z) (op : Z) : bool := existsb (Z.eqb op) l.

(** An access that is a read. *)
Definition is_read (e : access) : Prop :=
  match e with Rd _ _ => True | Wr _ _ _ => False end.

(** The [case]s that call [cpu_push8] or [cpu_pop8], and TXS. *)
Definition sp_opcodes : list Z :=
  [0x00; 0x08; 0x20; 0x28; 0x40; 0x48; 0x60; 0x68; 0x9A].

(** The [case]s that call [wr8] or [cpu_push8]: stores, read-modify-write
    on memory, PHP, PHA, JSR and BRK. *)
Definition writing_opcodes : list Z :=
  [0x00; 0x08; 0x20; 0x48;
   0x81; 0x84; 0x85; 0x86; 0x8C; 0x8D; 0x8E;
   0x91; 0x94; 0x95; 0x96; 0x99; 0x9D;
   0x06; 0x0E; 0x16; 0x1E; 0x26; 0x2E; 0x36; 0x3E;
   0x46; 0x4E; 0x56; 0x5E; 0x66; 0x6E; 0x76; 0x7E;
   0xC6; 0xCE; 0xD6; 0xDE; 0xE6; 0xEE; 0xF6; 0xFE].

(** STA, STX and STY in all their addressing modes. *)
Definition store_opcodes : list Z :=
  [0x81; 0x84; 0x85; 0x86; 0x8C; 0x8D; 0x8E;
   0x91; 0x94; 0x95; 0x96; 0x99; 0x9D].

(** The [case]s that assign the D or I bit: BRK, PLP, RTI, CLI, SEI, SED;
    0xD8 is listed with them. *)
Definition di_opcodes : list Z :=
  [0x00; 0x28; 0x40; 0x58; 0x78; 0xD8; 0xF8].

(** The [case]s that assign the V bit: ADC, SBC, BIT, CLV, PLP and RTI. *)
Definition v_opcodes : list Z :=
  [0x61; 0x65; 0x69; 0x6D; 0x71; 0x75; 0x79; 0x7D;
   0xE1; 0xE5; 0xE9; 0xED; 0xF1; 0xF5; 0xF9; 0xFD;
   0x24; 0x2C; 0xB8; 0x28; 0x40].

(** The registers other than the program counter. *)
Definition data_regs (s : machine) : Z * Z * Z * Z * Z :=
  (cpu_a s, cpu_x s, cpu_y s, cpu_flags s, cpu_sp s).

(** Invariants that say what a step has left alone so far: the stack
    pointer, memory (with only reads added to the log [l0]), the registers
    other than PC, and single bits of the flags. *)
Definition sp_is (sp0 : Z) (s : machine) : Prop := cpu_sp s = sp0.

Definition reads_only (m0 : Z -> Z) (l0 : list access) (s : machine) : Prop :=
  mem s = m0 /\ exists new, log s = new ++ l0 /\ Forall is_read new.

Definition regs_are (r0 : Z * Z * Z * Z * Z) (s : machine) : Prop :=
  data_regs s = r0.

Definition di_are (d i : bool) (s : machine) : Prop :=
  Z.testbit (cpu_flags s) 3 = d /\ Z.testbit (cpu_flags s) 2 = i.

Definition v_is (v : bool) (s : machine) : Prop :=
  Z.testbit (cpu_flags s) 6 = v.

(** The carry flag as a number, [!!(cpu.flags & F_C)]. *)
Definition carry (s : machine) : Z := bool_c (Z.land (cpu_flags s) F_C).

(** The flag bits no instruction result touches but N, Z and C (resp. N and
    Z): equal in two states. *)
Definition same_flags_but (mask : Z) (s s' : machine) : Prop :=
  Z.land (cpu_flags s') (Z.lnot mask) = Z.land (cpu_flags s) (Z.lnot mask).

(** A machine with the given flags and nothing else of interest: the ALU
    helpers read no other part of the state. *)
Definition flags_only (f : Z) : machine :=
  mkMachine 0 0 0 f 0 0 (fun _ => 0) [].

(** The number of newline characters in a text. *)
Fixpoint count_nl (t : string) : nat :=
  match t with
  | EmptyString => 0%nat
  | String c r => ((if Ascii.eqb c "010" then 1 else 0) + count_nl r)%nat
  end.

(** A machine with the given accumulator and flags and nothing else of
    interest: the accumulator shifts read no other part of the state. *)
Definition alu_state (a f : Z) : machine :=
  mkMachine a 0 0 f 0 0 (fun _ => 0) [].

(** ** The table generator, [gen-6502.c] *)

Local Open Scope string_scope.

(** The double-quote character the generator prints around a mnemonic. *)
Definition dquote : string := String "034"%char EmptyString.

(** [%X] of a [uint8_t]: upper-case hexadecimal without padding. *)
Definition hexX (v : Z) : string :=
  let v := to_u8 v in
  if (v <? 16)%Z then String (hex_digit v) EmptyString else hex2 v.

(** [%2d] of the mode numbers 1 .. 12: decimal, right-aligned in two
    columns. *)
Definition dec2 (n : Z) : string :=
  if (n <? 10)%Z then String " "%char (String (hex_digit n) EmptyString)
  else String (hex_digit (n / 10)) (String (hex_digit (n mod 10)) EmptyString).

(** [",\n"] after every sixteenth entry, [", "] otherwise. *)
Definition row_sep (i : Z) : string :=
  if (i mod 16 =? 15)%Z then "," ++ nl else ", ".

(** The body of the first loop of [main], for entry [i] of [mne]. *)
Definition gen_mne_entry (mne : Z -> Z -> ascii) (i : Z) : string :=
  (if Ascii.eqb (mne i 0%Z) "000"
   then dquote ++ dquote ++ "   "
   else dquote
        ++ String (mne i 0%Z) (String (mne i 1%Z) (String (mne i 2%Z) ""))
        ++ dquote)
  ++ row_sep i
  ++ (if (i mod 16 =? 7)%Z then "  " else "").

(** [printf("#define\t%s\t%2d\n", name, value)] *)
Definition gen_define (name : string) (value : Z) : string :=
  "#define" ++ tab ++ name ++ tab ++ dec2 value ++ nl.

(** The body of the second loop of [main]: entries [2 i] and [2 i + 1] of
    [addrmode] as one literal. *)
Definition gen_addrmode_entry (am : Z -> Z) (i : Z) : string :=
  "0x" ++ hexX (am (2 * i)%Z) ++ hexX (am (2 * i + 1)%Z) ++ row_sep i.

(** The indices [0 .. n - 1] of a loop. *)
Definition upto (n : nat) : list Z := map Z.of_nat (seq 0 n).

(** What [main] writes, for the contents of the arrays [mne] and
    [addrmode]. *)
Definition gen_main (mne : Z -> Z -> ascii) (am : Z -> Z) : string :=
  "static const char mne[48][3] = {" ++ nl
  ++ String.concat "" (map (gen_mne_entry mne) (upto 48))
  ++ "};" ++ nl
  ++ nl ++ nl
  ++ gen_define "A" 1 ++ gen_define "IMM" 2 ++ gen_define "ABS" 3
  ++ gen_define "ZPG" 4 ++ gen_define "REL" 5 ++ gen_define "AX" 6
  ++ gen_define "AY" 7 ++ gen_define "ZX" 8 ++ gen_define "ZY" 9
  ++ gen_define "IX" 10 ++ gen_define "IY" 11 ++ gen_define "IND" 12
  ++ nl ++ nl
  ++ "static const uint8_t addrmode[128] = {" ++ nl
  ++ String.concat "" (map (gen_addrmode_entry am) (upto 128))
  ++ "};" ++ nl.

Local Close Scope string_scope.

(** [uint8_t addrmode[256]] as [gen-6502.c] initialises it: sixteen
    entries, the rest zero. *)
Definition gen_addrmode (i : Z) : Z :=
  nth (Z.to_nat i) [0; 10; 0; 0; 0; 4; 4; 0; 0; 2; 1; 0; 0; 3; 3; 0] 0.

(** The unpacking [dis] applies to a byte of its table for opcode [op]:
    [if (op & 1) am = am & 0xF; else am = am >> 4;]. *)
Definition unpack_mode (b op : Z) : Z :=
  if truthy (Z.land op 1) then Z.land b 0xF else to_u8 (Z.shiftr b 4).

(** * Properties *)

(** ** Arithmetic of the conversions *)

Lemma to_u8_range v : 0 <= to_u8 v < 256.
Proof. unfold to_u8. apply Z.mod_pos_bound. lia. Qed.

Lemma to_u16_range v : 0 <= to_u16 v < 65536.
Proof. unfold to_u16. apply Z.mod_pos_bound. lia. Qed.

Lemma to_u8_small v : 0 <= v < 256 -> to_u8 v = v.
Proof. intros H. unfold to_u8. apply Z.mod_small. exact H. Qed.

Lemma to_u16_small v : 0 <= v < 65536 -> to_u16 v = v.
Proof. intros H. unfold to_u16. apply Z.mod_small. exact H. Qed.

Lemma to_u8_testbit v k : 0 <= k < 8 -> Z.testbit (to_u8 v) k = Z.testbit v k.
Proof.
  intros H. unfold to_u8. change 256 with (2 ^ 8).
  apply Z.mod_pow2_bits_low. lia.
Qed.

(** A one-bit mask tests exactly that bit. *)
Lemma truthy_land_bit p k :
  0 <= k -> truthy (Z.land p (Z.shiftl 1 k)) = Z.testbit p k.
Proof.
  intros Hk. unfold truthy.
  rewrite Z.shiftl_1_l.
  destruct (Z.testbit p k) eqn:E.
  - apply negb_true_iff, Z.eqb_neq. intros H0.
    assert (Z.testbit (Z.land p (2 ^ k)) k = false) as Hb
      by (rewrite H0; apply Z.bits_0).
    rewrite Z.land_spec, E, Z.pow2_bits_true in Hb by lia. discriminate.
  - apply negb_false_iff, Z.eqb_eq, Z.bits_inj'. intros n Hn.
    rewrite Z.land_spec, Z.bits_0, Z.pow2_bits_eqb by lia.
    destruct (Z.eqb_spec k n) as [->|]; [rewrite E | rewrite andb_false_r];
      reflexivity.
Qed.

(** ** Reasoning through the monad *)

Section Preservation.

Variable P : machine -> Prop.

Lemma pres_ret {A} (v : A) : pres P (ret v).
Proof. intros s H. exact H. Qed.

Lemma pres_bind {A B} (m : M A) (f : A -> M B) :
  pres P m -> (forall v, pres P (f v)) -> pres P (bind m f).
Proof.
  intros Hm Hf s Hs. unfold bind.
  specialize (Hm s Hs). destruct (m s) as [v s1]. apply Hf, Hm.
Qed.

(** After reading a register the continuation may use that the state it
    was read from is in [P]. *)
Lemma pres_bind_reg {B} (r : machine -> Z) (f : Z -> M B) :
  (forall s0, P s0 -> pres P (f (r s0))) -> pres P (bind (reg r) f).
Proof. intros Hf s Hs. unfold bind, reg. apply (Hf s Hs), Hs. Qed.

Lemma pres_reg (r : machine -> Z) : pres P (reg r).
Proof. intros s H. exact H. Qed.

Lemma pres_if {A} (c : bool) (m1 m2 : M A) :
  pres P m1 -> pres P m2 -> pres P (if c then m1 else m2).
Proof. destruct c; auto. Qed.

(** One step keeps [P] when the fetch and every [case] body do. *)
Lemma pres_cpu_execute :
  pres P cpu_fetch8 ->
  (forall op body, exec_op op = Some body -> pres P body) ->
  forall s s', P s -> cpu_execute s = Some s' -> P s'.
Proof.
  intros Hf Hb s s' Hs. unfold cpu_execute.
  specialize (Hf s Hs). destruct (cpu_fetch8 s) as [op s1]. simpl in Hf.
  destruct (exec_op op) as [body|] eqn:E; [|discriminate].
  intros H. injection H as <-. exact (Hb op body E s1 Hf).
Qed.

End Preservation.

(** Expands the bodies of the [switch] down to register accesses and bus
    calls. *)
Ltac expand_bodies :=
  cbv beta iota zeta delta
    [BRK PHP PLP PHA PLA JSR RTI RTS JMP_abs JMP_ind TXS LDA_imm BVS
     ORA AND EOR logic ASL_mem ASL_A LSR_mem LSR_A ROL_mem ROR_mem ROL_A ROR_A
     INCDEC_mem ADC SBC BIT ST LD CP branch clear_flag raise_flag step_reg
     zpg_x zpg_y abs_x abs_y at_ cpu_ind_x cpu_ind_y cpu_fetch16 cpu_fetch8
     cpu_push8 cpu_pop8 cpu_flags_nz cpu_flags_nzc cpu_bit cpu_adc cpu_sbc
     set_carry_if cpu_rol cpu_ror rd8 wr8].

(** Walks a body by its syntax, leaving the obligations of the primitives
    to [prim]. *)
Ltac pres_walk prim :=
  repeat lazymatch goal with
    | |- pres _ (ret _) => apply pres_ret
    | |- pres _ (reg _) => apply pres_reg
    | |- pres _ (bind (reg _) _) => apply pres_bind_reg; intros ? ?
    | |- pres _ (bind _ _) => apply pres_bind; [ | intros ? ]
    | |- pres _ (if _ then _ else _) => apply pres_if
    | |- pres _ _ => prim
    end.

(** Splits an opcode into the cases the [switch] distinguishes. *)
Ltac opcode_cases op :=
  let p := fresh "p" in
  destruct op as [|p|p];
  [ | do 9 (try destruct p as [p|p|]) | ].

(** Opcodes that are not a byte reach [default:]. *)
Lemma exec_op_outside op : ~ (0 <= op < 256) -> exec_op op = None.
Proof.
  intros H. opcode_cases op; try reflexivity; exfalso; apply H; lia.
Qed.

Lemma all_bytes_In op : 0 <= op < 256 -> In op all_bytes.
Proof.
  intros H. unfold all_bytes. apply in_map_iff. exists (Z.to_nat op).
  split; [lia | apply in_seq; lia].
Qed.

(** ** The stack-only bits of the status byte *)

Lemma stack_bits_clear_iff s :
  stack_bits_clear s <-> bits45_clear (cpu_flags s).
Proof.
  unfold stack_bits_clear, bits45_clear.
  change (Z.lor F_5 F_B) with (Z.lor (2 ^ 5) (2 ^ 4)).
  split.
  - intros H. split.
    + assert (Z.testbit (Z.land (cpu_flags s) (Z.lor (2 ^ 5) (2 ^ 4))) 4 = false)
        as Hb by (rewrite H; apply Z.bits_0).
      rewrite Z.land_spec in Hb. change (Z.testbit (Z.lor (2 ^ 5) (2 ^ 4)) 4)
        with true in Hb. rewrite andb_true_r in Hb. exact Hb.
    + assert (Z.testbit (Z.land (cpu_flags s) (Z.lor (2 ^ 5) (2 ^ 4))) 5 = false)
        as Hb by (rewrite H; apply Z.bits_0).
      rewrite Z.land_spec in Hb. change (Z.testbit (Z.lor (2 ^ 5) (2 ^ 4)) 5)
        with true in Hb. rewrite andb_true_r in Hb. exact Hb.
  - intros [H4 H5]. apply Z.bits_inj'. intros n Hn.
    rewrite Z.land_spec, Z.lor_spec, !Z.pow2_bits_eqb, Z.bits_0 by lia.
    destruct (Z.eqb_spec 5 n) as [<-|]; [rewrite H5; reflexivity|].
    destruct (Z.eqb_spec 4 n) as [<-|]; [rewrite H4; reflexivity|].
    apply andb_false_r.
Qed.

(** Solves [bits45_clear (to_u8 e)] for the flag words the code builds,
    from the facts about the flags they start from. *)
Ltac flag_bits :=
  unfold bits45_clear in *; split;
  rewrite to_u8_testbit by lia;
  unfold arith_flags, sel;
  repeat match goal with
         | |- context [if ?c then _ else _] => destruct c
         end;
  rewrite ?Z.lor_spec, ?Z.land_spec, ?Z.lnot_spec by lia;
  repeat match goal with
         | H : _ /\ _ |- _ => destruct H
         end;
  repeat match goal with
         | H : Z.testbit _ _ = false |- _ => rewrite H
         end;
  rewrite ?andb_false_l, ?orb_false_l;
  try reflexivity;
  try (apply andb_false_r).

Section FlagsInvariant.

Lemma flags_set_a v : pres flags_inv (set_a v).
Proof. intros s H. exact H. Qed.
Lemma flags_set_x v : pres flags_inv (set_x v).
Proof. intros s H. exact H. Qed.
Lemma flags_set_y v : pres flags_inv (set_y v).
Proof. intros s H. exact H. Qed.
Lemma flags_set_sp v : pres flags_inv (set_sp v).
Proof. intros s H. exact H. Qed.
Lemma flags_set_pc v : pres flags_inv (set_pc v).
Proof. intros s H. exact H. Qed.
Lemma flags_rd8 p addr : pres flags_inv (rd8_from p addr).
Proof. intros s H. exact H. Qed.
Lemma flags_wr8 p addr v : pres flags_inv (wr8_from p addr v).
Proof. intros s H. exact H. Qed.
Lemma flags_set_flags v : bits45_clear (to_u8 v) -> pres flags_inv (set_flags v).
Proof. intros Hv s H. exact Hv. Qed.

Ltac flags_prim :=
  lazymatch goal with
  | |- pres _ (set_a _) => apply flags_set_a
  | |- pres _ (set_x _) => apply flags_set_x
  | |- pres _ (set_y _) => apply flags_set_y
  | |- pres _ (set_sp _) => apply flags_set_sp
  | |- pres _ (set_pc _) => apply flags_set_pc
  | |- pres _ (rd8_from _ _) => apply flags_rd8
  | |- pres _ (wr8_from _ _ _) => apply flags_wr8
  | |- pres _ (set_flags _) => apply flags_set_flags; flag_bits
  end.

Lemma flags_exec_op op body : exec_op op = Some body -> pres flags_inv body.
Proof.
  intros H.
  opcode_cases op; unfold exec_op in H; try discriminate H;
    injection H as <-; expand_bodies; unfold flags_inv in *;
    pres_walk ltac:(idtac; flags_prim).
Qed.

Lemma flags_cpu_fetch8 : pres flags_inv cpu_fetch8.
Proof. expand_bodies. pres_walk ltac:(idtac; flags_prim). Qed.

Lemma flags_cpu_init : forall s, flags_inv (snd (cpu_init s)).
Proof. intros s. split; reflexivity. Qed.

End FlagsInvariant.

(** ** Stack accesses stay in page one *)

Section StackInvariant.

(** The log the step started from. *)
Variable l0 : list access.

Lemma stack_set_a v : pres (stack_inv l0) (set_a v).
Proof. intros s H. exact H. Qed.
Lemma stack_set_x v : pres (stack_inv l0) (set_x v).
Proof. intros s H. exact H. Qed.
Lemma stack_set_y v : pres (stack_inv l0) (set_y v).
Proof. intros s H. exact H. Qed.
Lemma stack_set_flags v : pres (stack_inv l0) (set_flags v).
Proof. intros s H. exact H. Qed.
Lemma stack_set_pc v : pres (stack_inv l0) (set_pc v).
Proof. intros s H. exact H. Qed.

Lemma stack_set_sp v : pres (stack_inv l0) (set_sp v).
Proof. intros s [_ H]. split; [apply to_u8_range | exact H]. Qed.

Lemma stack_rd8_bus addr : pres (stack_inv l0) (rd8_from Bus addr).
Proof.
  intros s [Hsp (new & Hl & Hn)]. split; [exact Hsp|].
  exists (Rd Bus (to_u16 addr) :: new). simpl. rewrite Hl. split; [reflexivity|].
  constructor; [discriminate | exact Hn].
Qed.

Lemma stack_wr8_bus addr v : pres (stack_inv l0) (wr8_from Bus addr v).
Proof.
  intros s [Hsp (new & Hl & Hn)]. split; [exact Hsp|].
  exists (Wr Bus (to_u16 addr) (to_u8 v) :: new). simpl. rewrite Hl.
  split; [reflexivity|]. constructor; [discriminate | exact Hn].
Qed.

Lemma stack_rd8_stk addr :
  0x0100 <= to_u16 addr <= 0x01FF -> pres (stack_inv l0) (rd8_from Stk addr).
Proof.
  intros Ha s [Hsp (new & Hl & Hn)]. split; [exact Hsp|].
  exists (Rd Stk (to_u16 addr) :: new). simpl. rewrite Hl. split; [reflexivity|].
  constructor; [intros _; exact Ha | exact Hn].
Qed.

Lemma stack_wr8_stk addr v :
  0x0100 <= to_u16 addr <= 0x01FF -> pres (stack_inv l0) (wr8_from Stk addr v).
Proof.
  intros Ha s [Hsp (new & Hl & Hn)]. split; [exact Hsp|].
  exists (Wr Stk (to_u16 addr) (to_u8 v) :: new). simpl. rewrite Hl.
  split; [reflexivity|]. constructor; [intros _; exact Ha | exact Hn].
Qed.

(** [0x0100 + cpu.sp] for a stack pointer read from a state in [stack_inv]. *)
Ltac page_addr :=
  repeat match goal with
         | H : _ /\ _ |- _ => destruct H
         end;
  rewrite to_u16_small by lia; lia.

Ltac stack_prim :=
  lazymatch goal with
  | |- pres _ (set_a _) => apply stack_set_a
  | |- pres _ (set_x _) => apply stack_set_x
  | |- pres _ (set_y _) => apply stack_set_y
  | |- pres _ (set_flags _) => apply stack_set_flags
  | |- pres _ (set_sp _) => apply stack_set_sp
  | |- pres _ (set_pc _) => apply stack_set_pc
  | |- pres _ (rd8_from Bus _) => apply stack_rd8_bus
  | |- pres _ (wr8_from Bus _ _) => apply stack_wr8_bus
  | |- pres _ (rd8_from Stk _) => apply stack_rd8_stk; page_addr
  | |- pres _ (wr8_from Stk _ _) => apply stack_wr8_stk; page_addr
  end.

Lemma stack_exec_op op body : exec_op op = Some body -> pres (stack_inv l0) body.
Proof.
  intros H.
  opcode_cases op; unfold exec_op in H; try discriminate H;
    injection H as <-; expand_bodies; unfold stack_inv in *;
    pres_walk ltac:(idtac; stack_prim).
Qed.

Lemma stack_cpu_fetch8 : pres (stack_inv l0) cpu_fetch8.
Proof. expand_bodies. pres_walk ltac:(idtac; stack_prim). Qed.

End StackInvariant.

(** Every documented opcode has a [case]. *)
Lemma documented_decodes op :
  is_documented op = true -> exists body, exec_op op = Some body.
Proof.
  intros H. unfold is_documented in H.
  apply existsb_exists in H. destruct H as (k & Hin & Heq).
  apply Z.eqb_eq in Heq. subst k.
  assert (forallb decodes documented = true) as Hall by (vm_compute; reflexivity).
  rewrite forallb_forall in Hall. specialize (Hall op Hin).
  unfold decodes in Hall. destruct (exec_op op) as [body|]; [|discriminate].
  exists body. reflexivity.
Qed.

(** A step from a state whose opcode is documented returns. *)
Lemma documented_steps s :
  is_documented (opcode_at s) = true -> exists s', cpu_execute s = Some s'.
Proof.
  intros H. destruct (documented_decodes _ H) as [body Hb].
  unfold cpu_execute, cpu_fetch8, bind, reg, set_pc, rd8, rd8_from.
  simpl. unfold opcode_at in Hb. rewrite Hb. eexists. reflexivity.
Qed.

(** ** Subtraction as addition of the complement *)

Lemma complement8_eq v : 0 <= v < 256 -> complement8 v = 255 - v.
Proof.
  intros H. unfold complement8, Z.lnot, to_u8.
  replace (Z.pred (- v)) with (255 - v + (-1) * 256) by lia.
  rewrite Z.mod_add by lia. apply Z.mod_small. lia.
Qed.

Lemma to_s8_small v : 0 <= v < 256 -> to_s8 v = if v <? 128 then v else v - 256.
Proof. intros H. unfold to_s8. rewrite Z.mod_small by lia. reflexivity. Qed.

Lemma to_s8_range v : -128 <= to_s8 v <= 127.
Proof.
  unfold to_s8. pose proof (Z.mod_pos_bound v 256 ltac:(lia)).
  destruct (Z.ltb_spec (v mod 256) 128); lia.
Qed.

Lemma to_s16_small v : -32768 <= v < 32768 -> to_s16 v = v.
Proof.
  intros H. unfold to_s16. cbv zeta.
  destruct (Z_lt_le_dec v 0).
  - assert (v mod 65536 = v + 65536) as E.
    { replace v with (v + 65536 + (-1) * 65536) at 1 by lia.
      rewrite Z.mod_add by lia. apply Z.mod_small. lia. }
    rewrite E. destruct (Z.ltb_spec (v + 65536) 32768); lia.
  - rewrite Z.mod_small by lia.
    destruct (Z.ltb_spec v 32768); lia.
Qed.

Lemma to_s8_complement v :
  0 <= v < 256 -> to_s8 (255 - v) = - to_s8 v - 1.
Proof.
  intros H. rewrite !to_s8_small by lia.
  destruct (Z.ltb_spec (255 - v) 128), (Z.ltb_spec v 128); lia.
Qed.

(** The borrow of [a - v - nc], for bytes [a], [v] and [nc] in 0..1: the
    16-bit difference has a zero high byte exactly when it did not wrap. *)
Lemma sub_high_byte a v nc :
  0 <= a < 256 -> 0 <= v < 256 -> 0 <= nc <= 1 ->
  (Z.shiftr (to_u16 (a - v - nc)) 8 =? 0) = (0 <=? a - v - nc).
Proof.
  intros Ha Hv Hn. rewrite Z.shiftr_div_pow2 by lia. unfold to_u16.
  change (2 ^ 8) with 256.
  destruct (Z.leb_spec 0 (a - v - nc)).
  - rewrite Z.mod_small by lia. rewrite Z.div_small by lia. reflexivity.
  - replace (a - v - nc) with (a - v - nc + 65536 + (-1) * 65536) by lia.
    rewrite Z.mod_add by lia. rewrite Z.mod_small by lia.
    apply Z.eqb_neq. intros H0.
    pose proof (Z.div_mod (a - v - nc + 65536) 256 ltac:(lia)) as Hd.
    pose proof (Z.mod_pos_bound (a - v - nc + 65536) 256 ltac:(lia)).
    lia.
Qed.

(** The carry of [a + w + c]. *)
Lemma add_high_byte a w c :
  0 <= a < 256 -> 0 <= w < 256 -> 0 <= c <= 1 ->
  (Z.shiftr (to_u16 (a + w + c)) 8 =? 0) = (a + w + c <? 256).
Proof.
  intros Ha Hw Hc. rewrite Z.shiftr_div_pow2 by lia. unfold to_u16.
  change (2 ^ 8) with 256. rewrite Z.mod_small by lia.
  destruct (Z.ltb_spec (a + w + c) 256).
  - rewrite Z.div_small by lia. reflexivity.
  - apply Z.eqb_neq. intros H0.
    pose proof (Z.div_mod (a + w + c) 256 ltac:(lia)) as Hd.
    pose proof (Z.mod_pos_bound (a + w + c) 256 ltac:(lia)).
    lia.
Qed.

Lemma bool_c_lnot_c t : bool_c t = 1 - lnot_c t.
Proof. unfold bool_c, lnot_c. destruct (truthy t); reflexivity. Qed.

Lemma lnot_c_range t : 0 <= lnot_c t <= 1.
Proof. unfold lnot_c. destruct (truthy t); lia. Qed.

(** What [cpu_adc] and [cpu_sbc] leave behind, in closed form. *)
Lemma cpu_adc_unfold v s :
  let c := bool_c (Z.land (cpu_flags s) F_C) in
  let u := to_u16 (cpu_a s + to_u8 v + c) in
  let sg := to_s16 (to_s8 (cpu_a s) + to_s8 (to_u8 v) + c) in
  cpu_adc v s =
  (tt, mkMachine (to_u8 u) (cpu_x s) (cpu_y s)
         (to_u8 (arith_flags (cpu_flags s) (to_u8 u)
                   (sel (Z.shiftr u 8) F_C 0) sg))
         (cpu_sp s) (cpu_pc s) (mem s) (log s)).
Proof. reflexivity. Qed.

Lemma cpu_sbc_unfold v s :
  let nc := lnot_c (Z.land (cpu_flags s) F_C) in
  let u := to_u16 (cpu_a s - to_u8 v - nc) in
  let sg := to_s16 (to_s8 (cpu_a s) - to_s8 (to_u8 v) - nc) in
  cpu_sbc v s =
  (tt, mkMachine (to_u8 u) (cpu_x s) (cpu_y s)
         (to_u8 (arith_flags (cpu_flags s) (to_u8 u)
                   (sel (Z.shiftr u 8) 0 F_C) sg))
         (cpu_sp s) (cpu_pc s) (mem s) (log s)).
Proof. reflexivity. Qed.

Lemma sel_eqb c t e : sel c t e = if c =? 0 then e else t.
Proof. unfold sel, truthy. destruct (c =? 0); reflexivity. Qed.

Lemma sbc_adc_same_state v s :
  0 <= cpu_a s < 256 -> 0 <= v < 256 ->
  cpu_sbc v s = cpu_adc (complement8 v) s.
Proof.
  intros Ha Hv.
  rewrite cpu_sbc_unfold, cpu_adc_unfold. cbv zeta.
  rewrite complement8_eq by lia.
  rewrite (to_u8_small v) by lia. rewrite (to_u8_small (255 - v)) by lia.
  rewrite to_s8_complement by lia.
  rewrite bool_c_lnot_c.
  pose proof (lnot_c_range (Z.land (cpu_flags s) F_C)) as Hn.
  set (nc := lnot_c (Z.land (cpu_flags s) F_C)) in *.
  assert (to_u8 (to_u16 (cpu_a s - v - nc))
          = to_u8 (to_u16 (cpu_a s + (255 - v) + (1 - nc)))) as Ea.
  { unfold to_u8, to_u16.
    replace (cpu_a s + (255 - v) + (1 - nc)) with (cpu_a s - v - nc + 256) by lia.
    rewrite (Z.mod_small (cpu_a s - v - nc + 256)) by lia.
    destruct (Z_lt_le_dec (cpu_a s - v - nc) 0).
    - replace (cpu_a s - v - nc)
        with (cpu_a s - v - nc + 65536 + (-1) * 65536) at 1 by lia.
      rewrite Z.mod_add by lia. rewrite (Z.mod_small _ 65536) by lia.
      replace (cpu_a s - v - nc + 65536)
        with (cpu_a s - v - nc + 256 + 255 * 256) by lia.
      rewrite Z.mod_add by lia. reflexivity.
    - rewrite (Z.mod_small _ 65536) by lia.
      replace (cpu_a s - v - nc + 256)
        with (cpu_a s - v - nc + 1 * 256) by lia.
      rewrite Z.mod_add by lia. reflexivity. }
  assert (sel (Z.shiftr (to_u16 (cpu_a s - v - nc)) 8) 0 F_C
          = sel (Z.shiftr (to_u16 (cpu_a s + (255 - v) + (1 - nc))) 8) F_C 0)
    as Ec.
  { rewrite !sel_eqb, sub_high_byte, add_high_byte by lia.
    destruct (Z.leb_spec 0 (cpu_a s - v - nc)),
             (Z.ltb_spec (cpu_a s + (255 - v) + (1 - nc)) 256);
      try reflexivity; lia. }
  assert (to_s8 (cpu_a s) - to_s8 v - nc
          = to_s8 (cpu_a s) + (- to_s8 v - 1) + (1 - nc)) as Es by lia.
  rewrite Ea, Ec, Es. reflexivity.
Qed.

(** Reads one bit of a flag word built by [arith_flags]. *)
Ltac arith_bit :=
  rewrite to_u8_testbit by lia;
  unfold arith_flags; rewrite !sel_eqb; unfold truthy;
  repeat match goal with
         | |- context [if ?c then _ else _] => destruct c
         end;
  rewrite ?Z.lor_spec, ?Z.land_spec, ?Z.lnot_spec by lia;
  repeat match goal with
         | |- context [Z.testbit ?f ?k] =>
             lazymatch f with
             | cpu_flags _ => destruct (Z.testbit f k)
             end
         end;
  reflexivity.

Lemma flag_bit mask k s :
  mask = Z.shiftl 1 k -> 0 <= k ->
  flag mask s = Z.testbit (cpu_flags s) k.
Proof. intros -> Hk. unfold flag. apply truthy_land_bit. exact Hk. Qed.

Lemma land_0xFF v : Z.land v 0xFF = to_u8 v.
Proof.
  unfold to_u8. change 0xFF with (Z.ones 8). rewrite Z.land_ones by lia.
  reflexivity.
Qed.

Lemma truthy_bit7 v : truthy (Z.land v 0x80) = Z.testbit v 7.
Proof. change 0x80 with (Z.shiftl 1 7). apply truthy_land_bit. lia. Qed.

(** The flags [cpu_sbc] leaves, read one at a time. *)
Lemma cpu_sbc_flags v s :
  let nc := lnot_c (Z.land (cpu_flags s) F_C) in
  let u := to_u16 (cpu_a s - to_u8 v - nc) in
  let sg := to_s16 (to_s8 (cpu_a s) - to_s8 (to_u8 v) - nc) in
  let s' := snd (cpu_sbc v s) in
  flag F_C s' = (Z.shiftr u 8 =? 0) /\
  flag F_V s' = ((127 <? sg) || (sg <? -128)) /\
  flag F_N s' = Z.testbit (cpu_a s') 7 /\
  flag F_Z s' = (cpu_a s' =? 0) /\
  flag F_D s' = flag F_D s /\
  flag F_I s' = flag F_I s.
Proof.
  cbv zeta. rewrite cpu_sbc_unfold. cbv zeta. simpl snd.
  rewrite (flag_bit F_C 0), (flag_bit F_V 6), (flag_bit F_N 7),
    (flag_bit F_Z 1), !(flag_bit F_D 3), !(flag_bit F_I 2)
    by (reflexivity || lia).
  simpl cpu_flags. simpl cpu_a.
  set (a' := to_u8 (to_u16 _)). set (sg := to_s16 _).
  rewrite <- (truthy_bit7 a').
  repeat split.
  - arith_bit.
  - arith_bit.
  - arith_bit.
  - arith_bit.
  - arith_bit.
  - arith_bit.
Qed.

(** ** Branches *)

Lemma to_u16_idem v : to_u16 (to_u16 v) = to_u16 v.
Proof. unfold to_u16. apply Z.mod_mod. lia. Qed.

Lemma to_u16_add_l a b : to_u16 (to_u16 a + b) = to_u16 (a + b).
Proof. unfold to_u16. apply Z.add_mod_idemp_l. lia. Qed.

Lemma to_u16_add_r a b : to_u16 (a + to_u16 b) = to_u16 (a + b).
Proof. unfold to_u16. apply Z.add_mod_idemp_r. lia. Qed.

(** A step whose [case] runs as [branch mask want]: the flags and everything
    but the program counter and the log stay, and the program counter ends at
    the fall-through address [pc + 2], plus the sign-extended operand when
    the masked flag has the wanted value. *)
Lemma branch_step s op body mask want :
  exec_op op = Some body ->
  (forall s1, body s1 = branch mask want s1) ->
  opcode_at s = op ->
  exists s',
    cpu_execute s = Some s' /\
    (cpu_a s', cpu_x s', cpu_y s', cpu_flags s', cpu_sp s')
      = (cpu_a s, cpu_x s, cpu_y s, cpu_flags s, cpu_sp s) /\
    mem s' = mem s /\
    cpu_pc s' =
      if Bool.eqb (flag mask s) want
      then to_u16 (cpu_pc s + 2 + to_s8 (mem s (to_u16 (cpu_pc s + 1))))
      else to_u16 (cpu_pc s + 2).
Proof.
  intros Hop Hbody Hat. unfold cpu_execute.
  change (cpu_fetch8 s) with
    (opcode_at s,
     mkMachine (cpu_a s) (cpu_x s) (cpu_y s) (cpu_flags s) (cpu_sp s)
       (to_u16 (cpu_pc s + 1)) (mem s)
       (Rd Bus (to_u16 (cpu_pc s)) :: log s)).
  rewrite Hat, Hop, Hbody. eexists. split; [reflexivity|].
  unfold branch, cpu_fetch8, bind, reg, set_pc, rd8, rd8_from, ret, flag.
  cbn [snd fst cpu_a cpu_x cpu_y cpu_flags cpu_sp cpu_pc mem log].
  rewrite to_u16_idem.
  destruct (Bool.eqb (truthy (Z.land (cpu_flags s) mask)) want);
    cbn [snd fst cpu_a cpu_x cpu_y cpu_flags cpu_sp cpu_pc mem log].
  - repeat split.
    pose proof (to_s8_range (mem s (to_u16 (cpu_pc s + 1)))) as Hr.
    rewrite to_s16_small by lia.
    rewrite to_u16_add_r, to_u16_add_l, <- !Z.add_assoc, to_u16_add_l.
    f_equal. lia.
  - repeat split. rewrite to_u16_add_l. f_equal. lia.
Qed.

(** The [case] of 0x70 runs as [branch F_N true]. *)
Lemma BVS_branches_on_N s : BVS s = branch F_N true s.
Proof.
  unfold BVS, branch, cpu_fetch8, bind, reg, set_pc, rd8, rd8_from, ret.
  cbn [snd fst cpu_a cpu_x cpu_y cpu_flags cpu_sp cpu_pc mem log].
  destruct (truthy (Z.land (cpu_flags s) F_N)); reflexivity.
Qed.

(** The flag each branch [case] tests, and the value that takes the
    branch. *)
Lemma branch_cases_follow_flag s op mask want :
  In (op, mask, want)
     [(0x10, F_N, false); (0x30, F_N, true);
      (0x50, F_V, false); (0x70, F_N, true);
      (0x90, F_C, false); (0xB0, F_C, true);
      (0xD0, F_Z, false); (0xF0, F_Z, true)] ->
  opcode_at s = op ->
  exists s',
    cpu_execute s = Some s' /\
    cpu_flags s' = cpu_flags s /\
    cpu_pc s' =
      if Bool.eqb (flag mask s) want
      then to_u16 (cpu_pc s + 2 + to_s8 (mem s (to_u16 (cpu_pc s + 1))))
      else to_u16 (cpu_pc s + 2).
Proof.
  intros Hin Hat.
  assert (exists body, exec_op op = Some body /\
                       forall s1, body s1 = branch mask want s1) as (body & Hb & He).
  { simpl in Hin.
    repeat (destruct Hin as [Hin|Hin];
            [injection Hin as <- <- <-; eexists; split; [reflexivity|];
             first [intros; reflexivity | exact BVS_branches_on_N] | ]).
    contradiction. }
  destruct (branch_step s op body mask want Hb He Hat) as (s' & E & Hr & _ & Hpc).
  exists s'. split; [exact E|]. split; [|exact Hpc].
  injection Hr as _ _ _ Hf _. exact Hf.
Qed.

(** * The claims *)

(** C1.  Each branch opcode ends with the program counter at the
    fall-through address or at fall-through plus the sign-extended offset,
    chosen by the flag its mnemonic names.  Opcode 0x70 (BVS) does not: with
    offset 0x10 at 0x8000 it falls through to 0x8002 when only V is set and
    branches to 0x8012 when only N is set, so the choice follows N, not V. *)
Theorem bvs_follows_negative_flag :
  let prog := [(0x8000, 0x70); (0x8001, 0x10)] in
  let v_set := machine_of 0 0 0 F_V 0xFD 0x8000 prog in
  let n_set := machine_of 0 0 0 F_N 0xFD 0x8000 prog in
  flag F_V v_set = true /\
  regs (cpu_execute v_set) = Some (0, 0, 0, F_V, 0xFD, 0x8002) /\
  flag F_V n_set = false /\
  regs (cpu_execute n_set) = Some (0, 0, 0, F_N, 0xFD, 0x8012).
Proof. repeat split. Qed.

(** C2.  Loads set N and Z from the loaded value.  Opcode 0xA9 (LDA
    immediate) does not touch the flags: after reset on the image
    [0x8000: A9 00] with the reset vector at 0x8000, one step leaves A = 0 and
    PC = 0x8002 but Z clear (the flags are still [F_I]); the same image with
    0xA2 (LDX immediate) sets Z. *)
Theorem lda_immediate_leaves_flags :
  let vec := [(0xFFFC, 0x00); (0xFFFD, 0x80)] in
  let lda := reset_on ((0x8000, 0xA9) :: (0x8001, 0x00) :: vec) in
  let ldx := reset_on ((0x8000, 0xA2) :: (0x8001, 0x00) :: vec) in
  regs (cpu_execute lda) = Some (0x00, 0, 0, F_I, 0xFD, 0x8002) /\
  flags_after (cpu_execute lda)
    = Some [false; false; false; true; false; false] /\
  flags_after (cpu_execute ldx)
    = Some [false; false; false; true; true; false].
Proof. repeat split. Qed.

(** C3.  For an accumulator and an operand that are bytes, [cpu_sbc] of the
    operand and [cpu_adc] of its bitwise complement leave the same machine
    state.  With [u = A - x - (1 - C)] as a 16-bit unsigned number and
    [sg = sext A - sext x - (1 - C)], SBC stores [u & 0xFF] in A, sets C
    exactly when [u >> 8] is zero, V exactly when [sg] lies outside
    [-128, 127], N from bit 7 and Z from zero-ness of the new A, and leaves
    everything else as it was. *)
Theorem sbc_is_adc_of_complement (s : machine) (v : Z) :
  0 <= cpu_a s < 256 -> 0 <= v < 256 ->
  cpu_sbc v s = cpu_adc (complement8 v) s /\
  let c := bool_c (Z.land (cpu_flags s) F_C) in
  let u := to_u16 (cpu_a s - v - (1 - c)) in
  let sg := to_s8 (cpu_a s) - to_s8 v - (1 - c) in
  let s' := snd (cpu_sbc v s) in
  cpu_a s' = Z.land u 0xFF /\
  flag F_C s' = (Z.shiftr u 8 =? 0) /\
  flag F_V s' = negb ((-128 <=? sg) && (sg <=? 127)) /\
  flag F_N s' = Z.testbit (cpu_a s') 7 /\
  flag F_Z s' = (cpu_a s' =? 0) /\
  flag F_D s' = flag F_D s /\ flag F_I s' = flag F_I s /\
  (cpu_x s', cpu_y s', cpu_sp s', cpu_pc s', log s')
    = (cpu_x s, cpu_y s, cpu_sp s, cpu_pc s, log s) /\
  mem s' = mem s.
Proof.
  intros Ha Hv. split; [apply sbc_adc_same_state; assumption|].
  cbv zeta.
  pose proof (cpu_sbc_flags v s) as Hf. cbv zeta in Hf.
  rewrite (to_u8_small v) in Hf by lia.
  rewrite bool_c_lnot_c.
  pose proof (lnot_c_range (Z.land (cpu_flags s) F_C)) as Hn.
  set (nc := lnot_c (Z.land (cpu_flags s) F_C)) in *.
  replace (1 - (1 - nc)) with nc by lia.
  pose proof (to_s8_range (cpu_a s)). pose proof (to_s8_range v).
  rewrite to_s16_small in Hf by lia.
  destruct Hf as (HC & HV & HN & HZ & HD & HI).
  repeat split; try assumption.
  - rewrite land_0xFF, cpu_sbc_unfold. cbn [snd cpu_a].
    rewrite (to_u8_small v) by lia. reflexivity.
  - rewrite HV.
    destruct (Z.ltb_spec 127 (to_s8 (cpu_a s) - to_s8 v - nc)),
             (Z.ltb_spec (to_s8 (cpu_a s) - to_s8 v - nc) (-128)),
             (Z.leb_spec (-128) (to_s8 (cpu_a s) - to_s8 v - nc)),
             (Z.leb_spec (to_s8 (cpu_a s) - to_s8 v - nc) 127);
      try reflexivity; lia.
Qed.

Lemma sbc_is_adc_of_complement_witness :
  let s := machine_of 0x50 0 0 F_C 0xFD 0x8000 [] in
  (0 <= cpu_a s < 256) /\ (0 <= 0xF0 < 256) /\
  cpu_sbc 0xF0 s = cpu_adc (complement8 0xF0) s.
Proof.
  cbv zeta. split; [simpl; lia|]. split; [lia|].
  apply (sbc_is_adc_of_complement (machine_of 0x50 0 0 F_C 0xFD 0x8000 []) 0xF0);
    simpl; lia.
Defined.

(** C4.  CPX absolute (0xEC) should fetch a two-byte address, compare X with
    the byte stored there and advance PC by 3.  The [case] compares X with
    the byte after the opcode instead: with X = 0x10 and [EC 34 12] at 0x8000,
    where 0x1234 holds 0x10, it reads only 0x8000 and 0x8001, sets N and
    clears Z and C (0x10 - 0x34), and stops at 0x8002.  CPY absolute (0xCC)
    on the same bytes with Y = 0x10 reads 0x1234, sets Z and C and stops at
    0x8003. *)
Theorem cpx_absolute_compares_operand_byte :
  let img := [(0x8001, 0x34); (0x8002, 0x12); (0x1234, 0x10)] in
  let cpx := machine_of 0 0x10 0 0 0xFD 0x8000 ((0x8000, 0xEC) :: img) in
  let cpy := machine_of 0 0 0x10 0 0xFD 0x8000 ((0x8000, 0xCC) :: img) in
  regs (cpu_execute cpx) = Some (0, 0x10, 0, F_N, 0xFD, 0x8002) /\
  trace (cpu_execute cpx) = Some [Rd Bus 0x8000; Rd Bus 0x8001] /\
  regs (cpu_execute cpy) = Some (0, 0, 0x10, Z.lor F_Z F_C, 0xFD, 0x8003) /\
  trace (cpu_execute cpy)
    = Some [Rd Bus 0x8000; Rd Bus 0x8001; Rd Bus 0x8002; Rd Bus 0x1234].
Proof. repeat split. Qed.

(** C5.  BRK at address [p] should push [p + 2], high byte first, then the
    flags with bits 5 and B set, set I and load PC from 0xFFFE/0xFFFF, with SP
    three lower.  The [case] pushes the program counter as the opcode fetch
    left it, [p + 1]: from PC = 0x8000 and SP = 0xFD the stack receives 0x80,
    0x01 and 0x30, where 0x80, 0x02, 0x30 is due.  The rest is as claimed:
    I set, PC from the vector, SP = 0xFA. *)
Theorem brk_pushes_address_after_opcode :
  let s :=
    machine_of 0 0 0 0 0xFD 0x8000
      [(0x8000, 0x00); (0xFFFE, 0x34); (0xFFFF, 0x12)] in
  regs (cpu_execute s) = Some (0, 0, 0, F_I, 0xFA, 0x1234) /\
  peek (cpu_execute s) [0x01FD; 0x01FC; 0x01FB] = Some [0x80; 0x01; 0x30] /\
  trace (cpu_execute s)
    = Some [Rd Bus 0x8000; Wr Stk 0x01FD 0x80; Wr Stk 0x01FC 0x01;
            Wr Stk 0x01FB 0x30; Rd Bus 0xFFFE; Rd Bus 0xFFFF].
Proof. repeat split. Qed.

(** The [switch] has a [case] for the documented opcodes and for 0xAB, and
    for nothing else. *)
Lemma decodes_spec op : decodes op = is_documented op || (op =? 0xAB).
Proof.
  assert (forall k, In k documented -> 0 <= k < 256) as Hdoc.
  { assert (forallb (fun k => (0 <=? k) && (k <? 256)) documented = true)
      as Hall by (vm_compute; reflexivity).
    rewrite forallb_forall in Hall. intros k Hk.
    specialize (Hall k Hk). apply andb_true_iff in Hall.
    destruct Hall as [H1 H2]. apply Z.leb_le in H1. apply Z.ltb_lt in H2. lia. }
  destruct (Z_lt_le_dec op 0) as [Hneg|Hpos];
    [|destruct (Z_lt_le_dec op 256) as [Hlt|Hge]].
  - unfold decodes. rewrite exec_op_outside by lia.
    destruct (Z.eqb_spec op 0xAB); [lia|]. rewrite orb_false_r.
    symmetry. apply not_true_is_false. intros H.
    apply existsb_exists in H. destruct H as (k & Hin & Heq).
    apply Z.eqb_eq in Heq. subst k. specialize (Hdoc op Hin). lia.
  - assert (forallb (fun k => Bool.eqb (decodes k)
                                 (is_documented k || (k =? 0xAB)))
              all_bytes = true) as Hall by (vm_compute; reflexivity).
    rewrite forallb_forall in Hall.
    specialize (Hall op (all_bytes_In op ltac:(lia))).
    apply eqb_prop in Hall. exact Hall.
  - unfold decodes. rewrite exec_op_outside by lia.
    destruct (Z.eqb_spec op 0xAB); [lia|]. rewrite orb_false_r.
    symmetry. apply not_true_is_false. intros H.
    apply existsb_exists in H. destruct H as (k & Hin & Heq).
    apply Z.eqb_eq in Heq. subst k. specialize (Hdoc op Hin). lia.
Qed.

(** C6.  A step should fail to decode exactly the opcode bytes outside the
    documented set.  It does so for every byte but one: 0xAB, which is not
    documented, shares the [case] of 0xAC and runs as LDY absolute (here
    loading 0x80 from 0x1234 into Y and setting N).  For all other values the
    [switch] has a [case] exactly when the opcode is documented. *)
Theorem opcode_AB_runs_as_ldy_absolute :
  let s :=
    machine_of 0 0 0 0 0xFD 0x8000
      [(0x8000, 0xAB); (0x8001, 0x34); (0x8002, 0x12); (0x1234, 0x80)] in
  is_documented 0xAB = false /\
  regs (cpu_execute s) = Some (0, 0, 0x80, F_N, 0xFD, 0x8003) /\
  trace (cpu_execute s)
    = Some [Rd Bus 0x8000; Rd Bus 0x8001; Rd Bus 0x8002; Rd Bus 0x1234] /\
  (forall op, decodes op = is_documented op || (op =? 0xAB)).
Proof.
  cbv zeta. split; [reflexivity|]. split; [reflexivity|].
  split; [reflexivity | exact decodes_spec].
Qed.

(** C7.  CLD (0xD8) should clear D and nothing else.  The [case] clears C:
    from flags D and C set it leaves D set and C clear; PC advances by one
    and nothing is written. *)
Theorem cld_clears_carry :
  let s := machine_of 0 0 0 (Z.lor F_D F_C) 0xFD 0x8000 [(0x8000, 0xD8)] in
  flags_after (Some s) = Some [false; false; true; false; false; true] /\
  flags_after (cpu_execute s)
    = Some [false; false; true; false; false; false] /\
  regs (cpu_execute s) = Some (0, 0, 0, F_D, 0xFD, 0x8001) /\
  trace (cpu_execute s) = Some [Rd Bus 0x8000].
Proof. repeat split. Qed.

(** C8.  Bits 5 and B of the live flags are clear after [cpu_init], and a
    step from a state where they are clear ends in a state where they are
    clear -- for every opcode the [switch] accepts, PLP and RTI included;
    from a documented opcode the step does return. *)
Theorem stack_only_bits_stay_clear (s : machine) :
  stack_bits_clear (snd (cpu_init s)) /\
  (stack_bits_clear s ->
   (forall s', cpu_execute s = Some s' -> stack_bits_clear s') /\
   (is_documented (opcode_at s) = true ->
    exists s', cpu_execute s = Some s' /\ stack_bits_clear s')).
Proof.
  split.
  - apply stack_bits_clear_iff. apply flags_cpu_init.
  - intros Hs.
    assert (forall s', cpu_execute s = Some s' -> stack_bits_clear s') as Hstep.
    { intros s' E. apply stack_bits_clear_iff.
      apply (pres_cpu_execute flags_inv
               flags_cpu_fetch8 flags_exec_op s s');
        [apply stack_bits_clear_iff; exact Hs | exact E]. }
    split; [exact Hstep|].
    intros Hd. destruct (documented_steps s Hd) as [s' E].
    exists s'. split; [exact E | apply Hstep, E].
Qed.

Lemma stack_only_bits_stay_clear_witness :
  let s :=
    machine_of 0 0 0 0 0xFC 0x8000 [(0x8000, 0x28); (0x01FD, 0xFF)] in
  stack_bits_clear s /\ is_documented (opcode_at s) = true /\
  exists s', cpu_execute s = Some s' /\ stack_bits_clear s'.
Proof.
  cbv zeta. split; [reflexivity|]. split; [reflexivity|].
  apply (proj2 (stack_only_bits_stay_clear
                  (machine_of 0 0 0 0 0xFC 0x8000
                     [(0x8000, 0x28); (0x01FD, 0xFF)])));
    reflexivity.
Defined.

(** [cpu_push8] and [cpu_pop8] from a byte-sized stack pointer, in closed
    form. *)
Lemma cpu_push8_unfold v s :
  0 <= cpu_sp s < 256 ->
  cpu_push8 v s =
  (tt, mkMachine (cpu_a s) (cpu_x s) (cpu_y s) (cpu_flags s)
         (to_u8 (cpu_sp s - 1)) (cpu_pc s)
         (upd (mem s) (0x0100 + cpu_sp s) (to_u8 v))
         (Wr Stk (0x0100 + cpu_sp s) (to_u8 v) :: log s)).
Proof.
  intros H. unfold cpu_push8, bind, reg, wr8_from, set_sp.
  cbn [snd fst log mem cpu_sp cpu_a cpu_x cpu_y cpu_flags cpu_pc].
  rewrite (to_u16_small (256 + cpu_sp s)) by lia.
  rewrite (to_u8_small (to_u8 v)) by apply to_u8_range.
  reflexivity.
Qed.

Lemma cpu_pop8_unfold s :
  0 <= cpu_sp s < 256 ->
  cpu_pop8 s =
  (mem s (0x0100 + to_u8 (cpu_sp s + 1)),
   mkMachine (cpu_a s) (cpu_x s) (cpu_y s) (cpu_flags s)
     (to_u8 (cpu_sp s + 1)) (cpu_pc s) (mem s)
     (Rd Stk (0x0100 + to_u8 (cpu_sp s + 1)) :: log s)).
Proof.
  intros H. unfold cpu_pop8, bind, reg, rd8_from, set_sp.
  cbn [snd fst log mem cpu_sp cpu_a cpu_x cpu_y cpu_flags cpu_pc].
  pose proof (to_u8_range (cpu_sp s + 1)) as Hr.
  rewrite (to_u16_small (256 + to_u8 (cpu_sp s + 1))) by lia.
  reflexivity.
Qed.

(** C10.  The stack pointer is a byte and wraps: from a byte-sized SP,
    [cpu_push8] writes at [0x0100 + SP] and leaves [(SP - 1) mod 256],
    [cpu_pop8] leaves [(SP + 1) mod 256] and reads at 0x0100 plus that; so a
    push at SP = 0x00 writes 0x0100 and leaves 0xFF, and a pop at SP = 0xFF
    reads 0x0100 and leaves 0x00.  Every access a step makes through the stack
    helpers lies in [0x0100, 0x01FF]. *)
Theorem stack_accesses_in_page_one (s : machine) :
  0 <= cpu_sp s < 256 ->
  (forall v,
     let s' := snd (cpu_push8 v s) in
     issued s s' [Wr Stk (0x0100 + cpu_sp s) (to_u8 v)] /\
     mem s' (0x0100 + cpu_sp s) = to_u8 v /\
     cpu_sp s' = (cpu_sp s - 1) mod 256) /\
  (let sp' := (cpu_sp s + 1) mod 256 in
   issued s (snd (cpu_pop8 s)) [Rd Stk (0x0100 + sp')] /\
   fst (cpu_pop8 s) = mem s (0x0100 + sp') /\
   cpu_sp (snd (cpu_pop8 s)) = sp') /\
  (forall v,
     let s0 := snd (set_sp 0x00 s) in
     issued s0 (snd (cpu_push8 v s0)) [Wr Stk 0x0100 (to_u8 v)] /\
     cpu_sp (snd (cpu_push8 v s0)) = 0xFF) /\
  (let s0 := snd (set_sp 0xFF s) in
   issued s0 (snd (cpu_pop8 s0)) [Rd Stk 0x0100] /\
   fst (cpu_pop8 s0) = mem s 0x0100 /\
   cpu_sp (snd (cpu_pop8 s0)) = 0x00) /\
  (forall s', cpu_execute s = Some s' ->
     exists new, issued s s' new /\ Forall in_stack_page new) /\
  (is_documented (opcode_at s) = true ->
     exists s' new,
       cpu_execute s = Some s' /\ issued s s' new /\ Forall in_stack_page new).
Proof.
  intros Hsp.
  assert (forall s', cpu_execute s = Some s' ->
            exists new, issued s s' new /\ Forall in_stack_page new) as Hstep.
  { intros s' E.
    apply (pres_cpu_execute (stack_inv (log s))
             (stack_cpu_fetch8 (log s)) (stack_exec_op (log s)) s s');
      [ | exact E].
    split; [exact Hsp|]. exists []. split; [reflexivity | constructor]. }
  split; [|split; [|split; [|split; [|split]]]].
  - intros v. cbv zeta. rewrite cpu_push8_unfold by exact Hsp.
    unfold issued. cbn [snd log mem cpu_sp]. unfold upd.
    rewrite Z.eqb_refl. repeat split.
  - cbv zeta. rewrite cpu_pop8_unfold by exact Hsp.
    unfold issued. cbn [snd fst log mem cpu_sp]. repeat split.
  - intros v. cbv zeta.
    rewrite cpu_push8_unfold by (cbn [snd set_sp cpu_sp]; apply to_u8_range).
    unfold issued. repeat split.
  - cbv zeta.
    rewrite cpu_pop8_unfold by (cbn [snd set_sp cpu_sp]; apply to_u8_range).
    unfold issued. repeat split.
  - exact Hstep.
  - intros Hd. destruct (documented_steps s Hd) as [s' E].
    destruct (Hstep s' E) as (new & Hi & Hn).
    exists s', new. repeat split; assumption.
Qed.

Lemma stack_accesses_in_page_one_witness :
  let s :=
    machine_of 0 0 0 0 0x01 0x8000
      [(0x8000, 0x00); (0xFFFE, 0x34); (0xFFFF, 0x12)] in
  0 <= cpu_sp s < 256 /\ is_documented (opcode_at s) = true /\
  exists s' new,
    cpu_execute s = Some s' /\ issued s s' new /\ Forall in_stack_page new.
Proof.
  cbv zeta. split; [simpl; lia|]. split; [reflexivity|].
  apply (stack_accesses_in_page_one
           (machine_of 0 0 0 0 0x01 0x8000
              [(0x8000, 0x00); (0xFFFE, 0x34); (0xFFFF, 0x12)]));
    [simpl; lia | reflexivity].
Defined.

(** BRK with SP = 0x01 pushes at 0x0101, 0x0100 and, after the wrap, at
    0x01FF, and leaves SP = 0xFE. *)
Example brk_wraps_stack_pointer :
  let s :=
    machine_of 0 0 0 0 0x01 0x8000
      [(0x8000, 0x00); (0xFFFE, 0x34); (0xFFFF, 0x12)] in
  regs (cpu_execute s) = Some (0, 0, 0, F_I, 0xFE, 0x1234) /\
  trace (cpu_execute s)
    = Some [Rd Bus 0x8000; Wr Stk 0x0101 0x80; Wr Stk 0x0100 0x01;
            Wr Stk 0x01FF 0x30; Rd Bus 0xFFFE; Rd Bus 0xFFFF].
Proof. repeat split. Qed.

(** ** The shape of a disassembled line *)

Lemma hex4_length v : String.length (hex4 v) = 4%nat.
Proof. reflexivity. Qed.

Lemma mnemonic_length idx : String.length (mnemonic idx) = 3%nat.
Proof. reflexivity. Qed.

Lemma append_assoc (a b c : string) :
  ((a ++ b) ++ c = a ++ (b ++ c))%string.
Proof.
  induction a as [|ch a IH]; simpl; [reflexivity | rewrite IH; reflexivity].
Qed.

(** C9, on its two examples.  [mne_idx] and [addrmode] list entries for the
    opcodes 0 to 5 only: every other opcode reads index 0 and mode nibble 0,
    the entries of BRK, and the only mode nibbles that occur are 0, 10 (at
    opcode 1) and 7 (at opcode 5).  So for [20 00 90] and for [D0 FE 00] at
    0x8000 [dis] writes the address, a colon, two tabs, [BRK] and a newline.
    That is no
    [JSR $9000] and no [BNE $8000 ; +FE] line, whether the mnemonic follows
    one tab, as stated, or the two tabs that [dis] writes on every line. *)
Theorem dis_examples_print_brk :
  (dis [0x20; 0x00; 0x90] 0x8000 = "8000:" ++ tab ++ tab ++ "BRK" ++ nl /\
   dis [0xD0; 0xFE; 0x00] 0x8000 = "8000:" ++ tab ++ tab ++ "BRK" ++ nl /\
   (mne_idx 0x20, mode_of 0x20) = (0, 0)%Z /\
   (mne_idx 0xD0, mode_of 0xD0) = (0, 0)%Z /\
   mnemonic 0 = "BRK" /\
   filter (fun op => negb ((mne_idx op =? 0)%Z && (mode_of op =? 0)%Z))
          all_bytes = [1; 2; 3; 4; 5]%Z /\
   filter (fun op => negb (mode_of op =? 0)%Z) all_bytes = [1; 5]%Z /\
   (mode_of 1, mode_of 5) = (10, 7)%Z /\
   dis [0x20; 0x00; 0x90] 0x8000
     <> "8000:" ++ tab ++ "JSR" ++ tab ++ "$9000" ++ nl /\
   dis [0x20; 0x00; 0x90] 0x8000
     <> "8000:" ++ tab ++ tab ++ "JSR" ++ tab ++ "$9000" ++ nl /\
   dis [0xD0; 0xFE; 0x00] 0x8000
     <> "8000:" ++ tab ++ "BNE" ++ tab ++ "$8000" ++ tab ++ "; +FE" ++ nl /\
   dis [0xD0; 0xFE; 0x00] 0x8000
     <> "8000:" ++ tab ++ tab ++ "BNE" ++ tab ++ "$8000" ++ tab ++ "; +FE"
        ++ nl /\
   (forall instr addr,
      exists rest, dis instr addr = hex4 addr ++ ":" ++ tab ++ tab ++ rest)
  )%string.
Proof.
  split; [reflexivity|]. split; [reflexivity|].
  split; [reflexivity|]. split; [reflexivity|].
  split; [reflexivity|]. split; [vm_compute; reflexivity|].
  split; [vm_compute; reflexivity|]. split; [reflexivity|].
  split; [intros H; discriminate H|]. split; [intros H; discriminate H|].
  split; [intros H; discriminate H|]. split; [intros H; discriminate H|].
  intros instr addr. unfold dis.
  assert (Hh : hex4 (to_u16 addr) = hex4 addr)
    by (unfold hex4; rewrite to_u16_idem; reflexivity).
  rewrite Hh.
  destruct (mne_idx (to_u8 (nth 0 instr 0%Z)) =? 255)%Z.
  - eexists. rewrite !append_assoc. reflexivity.
  - destruct (truthy (mode_of (to_u8 (nth 0 instr 0%Z))));
      eexists; rewrite !append_assoc; reflexivity.
Qed.

(** * Further properties of the interpreter *)

(** ** One step, by its opcode *)

Lemma cpu_fetch8_eq s : cpu_fetch8 s = (opcode_at s, after_fetch s).
Proof. reflexivity. Qed.

(** A step runs the body of its opcode on the state after the fetch. *)
Lemma cpu_execute_at s op body :
  opcode_at s = op -> exec_op op = Some body ->
  cpu_execute s = Some (snd (body (after_fetch s))).
Proof.
  intros Hat Hop. unfold cpu_execute. rewrite cpu_fetch8_eq, Hat, Hop.
  reflexivity.
Qed.

(** One step keeps [P] when the fetch does and the body of the opcode at
    hand does. *)
Lemma pres_cpu_execute_at (P : machine -> Prop) s s' :
  pres P cpu_fetch8 ->
  (forall body, exec_op (opcode_at s) = Some body -> pres P body) ->
  P s -> cpu_execute s = Some s' -> P s'.
Proof.
  intros Hf Hb Hs. unfold cpu_execute. rewrite cpu_fetch8_eq.
  specialize (Hf s Hs). rewrite cpu_fetch8_eq in Hf. simpl in Hf.
  destruct (exec_op (opcode_at s)) as [body|] eqn:E; [|discriminate].
  intros H. injection H as <-. exact (Hb body eq_refl _ Hf).
Qed.

(** ** Values stay within their C types *)

Ltac wf_after v Hm :=
  pose proof (to_u8_range v); pose proof (to_u16_range v);
  unfold well_formed;
  cbn [snd cpu_a cpu_x cpu_y cpu_flags cpu_sp cpu_pc mem
       set_a set_x set_y set_flags set_sp set_pc];
  repeat apply conj; try lia; exact Hm.

Lemma wf_set_a v : pres well_formed (set_a v).
Proof. intros s (Ha & Hx & Hy & Hf & Hsp & Hpc & Hm). wf_after v Hm. Qed.
Lemma wf_set_x v : pres well_formed (set_x v).
Proof. intros s (Ha & Hx & Hy & Hf & Hsp & Hpc & Hm). wf_after v Hm. Qed.
Lemma wf_set_y v : pres well_formed (set_y v).
Proof. intros s (Ha & Hx & Hy & Hf & Hsp & Hpc & Hm). wf_after v Hm. Qed.
Lemma wf_set_flags v : pres well_formed (set_flags v).
Proof. intros s (Ha & Hx & Hy & Hf & Hsp & Hpc & Hm). wf_after v Hm. Qed.
Lemma wf_set_sp v : pres well_formed (set_sp v).
Proof. intros s (Ha & Hx & Hy & Hf & Hsp & Hpc & Hm). wf_after v Hm. Qed.
Lemma wf_set_pc v : pres well_formed (set_pc v).
Proof. intros s (Ha & Hx & Hy & Hf & Hsp & Hpc & Hm). wf_after v Hm. Qed.
Lemma wf_rd8 p addr : pres well_formed (rd8_from p addr).
Proof. intros s H. exact H. Qed.
Lemma wf_wr8 p addr v : pres well_formed (wr8_from p addr v).
Proof.
  intros s (Ha & Hx & Hy & Hf & Hsp & Hpc & Hm).
  unfold well_formed.
  cbn [snd cpu_a cpu_x cpu_y cpu_flags cpu_sp cpu_pc mem wr8_from].
  repeat apply conj; try lia.
  intros a. unfold upd. destruct (_ =? _); [apply to_u8_range | apply Hm].
Qed.

Ltac wf_prim :=
  lazymatch goal with
  | |- pres _ (set_a _) => apply wf_set_a
  | |- pres _ (set_x _) => apply wf_set_x
  | |- pres _ (set_y _) => apply wf_set_y
  | |- pres _ (set_flags _) => apply wf_set_flags
  | |- pres _ (set_sp _) => apply wf_set_sp
  | |- pres _ (set_pc _) => apply wf_set_pc
  | |- pres _ (rd8_from _ _) => apply wf_rd8
  | |- pres _ (wr8_from _ _ _) => apply wf_wr8
  end.

Lemma wf_exec_op op body : exec_op op = Some body -> pres well_formed body.
Proof.
  intros H.
  opcode_cases op; unfold exec_op in H; try discriminate H;
    injection H as <-; expand_bodies; pres_walk ltac:(idtac; wf_prim).
Qed.

Lemma wf_cpu_fetch8 : pres well_formed cpu_fetch8.
Proof. expand_bodies. pres_walk ltac:(idtac; wf_prim). Qed.

Lemma wf_cpu_init : pres well_formed cpu_init.
Proof. unfold cpu_init. expand_bodies. pres_walk ltac:(idtac; wf_prim). Qed.

(** X1.  From a state whose registers and memory cells hold values of their
    C types, [cpu_init] and every step that decodes end in such a state:
    A, X, Y, the flags and SP stay bytes, PC stays a 16-bit address and
    every memory cell stays a byte; a step from a documented opcode
    returns. *)
Theorem step_keeps_well_formed (s : machine) :
  well_formed s ->
  well_formed (snd (cpu_init s)) /\
  (forall s', cpu_execute s = Some s' -> well_formed s') /\
  (is_documented (opcode_at s) = true ->
   exists s', cpu_execute s = Some s' /\ well_formed s').
Proof.
  intros Hs.
  assert (forall s', cpu_execute s = Some s' -> well_formed s') as Hstep.
  { intros s' E.
    exact (pres_cpu_execute well_formed wf_cpu_fetch8 wf_exec_op s s' Hs E). }
  split; [apply wf_cpu_init; exact Hs|]. split; [exact Hstep|].
  intros Hd. destruct (documented_steps s Hd) as [s' E].
  exists s'. split; [exact E | exact (Hstep s' E)].
Qed.

Lemma mem_of_bytes l :
  Forall (fun kv => 0 <= snd kv < 256) l ->
  forall addr, 0 <= mem_of l addr < 256.
Proof.
  intros Hl addr. induction Hl as [|[k v] r Hkv Hr IH]; simpl; [lia|].
  destruct (_ =? _); [simpl in Hkv; lia | apply IH].
Qed.

Lemma machine_of_well_formed a x y f sp pc l :
  0 <= a < 256 -> 0 <= x < 256 -> 0 <= y < 256 -> 0 <= f < 256 ->
  0 <= sp < 256 -> 0 <= pc < 65536 ->
  Forall (fun kv => 0 <= snd kv < 256) l ->
  well_formed (machine_of a x y f sp pc l).
Proof.
  intros Ha Hx Hy Hf Hsp Hpc Hl. unfold well_formed, machine_of.
  cbn [cpu_a cpu_x cpu_y cpu_flags cpu_sp cpu_pc mem].
  repeat apply conj; try lia. apply mem_of_bytes, Hl.
Qed.

Lemma step_keeps_well_formed_witness :
  let s :=
    machine_of 0xFF 0 0 0 0xFD 0xFFFF [(0xFFFF, 0x0A)] in
  well_formed s /\ is_documented (opcode_at s) = true /\
  exists s', cpu_execute s = Some s' /\ well_formed s'.
Proof.
  cbv zeta.
  assert (well_formed (machine_of 0xFF 0 0 0 0xFD 0xFFFF [(0xFFFF, 0x0A)]))
    as Hw.
  { apply machine_of_well_formed; try lia.
    repeat constructor; simpl; lia. }
  split; [exact Hw|]. split; [reflexivity|].
  apply (proj2 (proj2 (step_keeps_well_formed _ Hw))). reflexivity.
Defined.

(** ** What a step leaves alone *)

(** Walks every [case] on one side of a list of opcodes; [Hl] says on which
    side of the list the opcode is. *)
Ltac walk_cases op H Hl prim :=
  opcode_cases op; unfold exec_op in H; try discriminate H;
  try (cbv in Hl; discriminate Hl);
  injection H as <-; expand_bodies; pres_walk prim.

Lemma among_In l op : among l op = true -> In op l.
Proof.
  unfold among. intros H. apply existsb_exists in H.
  destruct H as (k & Hin & Heq). apply Z.eqb_eq in Heq. subst k. exact Hin.
Qed.

(** A primitive that does not touch what the invariant reads. *)
Ltac untouched := intros ? ?; assumption.

Section KeepsStackPointer.

Variable sp0 : Z.

Ltac sp_prim :=
  lazymatch goal with
  | |- pres _ (set_a _) => untouched
  | |- pres _ (set_x _) => untouched
  | |- pres _ (set_y _) => untouched
  | |- pres _ (set_flags _) => untouched
  | |- pres _ (set_pc _) => untouched
  | |- pres _ (rd8_from _ _) => untouched
  | |- pres _ (wr8_from _ _ _) => untouched
  end.

Lemma sp_exec_op op body :
  among sp_opcodes op = false -> exec_op op = Some body ->
  pres (sp_is sp0) body.
Proof. intros Hl H. walk_cases op H Hl ltac:(idtac; sp_prim). Qed.

Lemma sp_cpu_fetch8 : pres (sp_is sp0) cpu_fetch8.
Proof. expand_bodies. pres_walk ltac:(idtac; sp_prim). Qed.

End KeepsStackPointer.

(** X2.  Only the stack instructions (BRK, PHP, JSR, PLP, RTI, PHA, RTS,
    PLA) and TXS change the stack pointer: a step from any other opcode
    leaves SP as it was. *)
Theorem step_keeps_stack_pointer (s s' : machine) :
  among sp_opcodes (opcode_at s) = false ->
  cpu_execute s = Some s' ->
  cpu_sp s' = cpu_sp s.
Proof.
  intros Hl E.
  apply (pres_cpu_execute_at (sp_is (cpu_sp s)) s s');
    [apply sp_cpu_fetch8 | | reflexivity | exact E].
  intros body Hb. exact (sp_exec_op (cpu_sp s) _ body Hl Hb).
Qed.

Lemma step_keeps_stack_pointer_witness :
  let s := machine_of 0 0 0 0 0x37 0x8000 [(0x8000, 0xBA)] in
  among sp_opcodes (opcode_at s) = false /\
  exists s', cpu_execute s = Some s' /\ cpu_sp s' = cpu_sp s /\
             cpu_x s' = 0x37.
Proof.
  cbv zeta. split; [reflexivity|]. eexists. split; [reflexivity|].
  split; [|reflexivity].
  apply (step_keeps_stack_pointer
           (machine_of 0 0 0 0 0x37 0x8000 [(0x8000, 0xBA)]));
    reflexivity.
Defined.

Section KeepsMemory.

Variable m0 : Z -> Z.
Variable l0 : list access.

Lemma reads_only_rd8 p addr : pres (reads_only m0 l0) (rd8_from p addr).
Proof.
  intros s [Hm (new & Hl & Hn)]. split; [exact Hm|].
  exists (Rd p (to_u16 addr) :: new). simpl. rewrite Hl.
  split; [reflexivity|]. constructor; [exact I | exact Hn].
Qed.

Ltac mem_prim :=
  lazymatch goal with
  | |- pres _ (set_a _) => untouched
  | |- pres _ (set_x _) => untouched
  | |- pres _ (set_y _) => untouched
  | |- pres _ (set_flags _) => untouched
  | |- pres _ (set_sp _) => untouched
  | |- pres _ (set_pc _) => untouched
  | |- pres _ (rd8_from _ _) => apply reads_only_rd8
  end.

Lemma reads_only_exec_op op body :
  among writing_opcodes op = false -> exec_op op = Some body ->
  pres (reads_only m0 l0) body.
Proof. intros Hl H. walk_cases op H Hl ltac:(idtac; mem_prim). Qed.

Lemma reads_only_cpu_fetch8 : pres (reads_only m0 l0) cpu_fetch8.
Proof. expand_bodies. pres_walk ltac:(idtac; mem_prim). Qed.

End KeepsMemory.

(** X3.  Only stores, read-modify-write instructions on memory, PHP, PHA,
    JSR and BRK write: a step from any other opcode issues reads only and
    leaves every memory cell as it was. *)
Theorem step_without_store_keeps_memory (s s' : machine) :
  among writing_opcodes (opcode_at s) = false ->
  cpu_execute s = Some s' ->
  mem s' = mem s /\
  exists new, issued s s' new /\ Forall is_read new.
Proof.
  intros Hl E.
  apply (pres_cpu_execute_at (reads_only (mem s) (log s)) s s');
    [apply reads_only_cpu_fetch8 | | | exact E].
  - intros body Hb. exact (reads_only_exec_op (mem s) (log s) _ body Hl Hb).
  - split; [reflexivity|]. exists []. split; [reflexivity | constructor].
Qed.

Lemma step_without_store_keeps_memory_witness :
  let s :=
    machine_of 0x0F 0 0x01 0 0xFD 0x8000
      [(0x8000, 0x31); (0x8001, 0x40); (0x0040, 0xFF); (0x0041, 0x12);
       (0x1300, 0x3C)] in
  among writing_opcodes (opcode_at s) = false /\
  exists s', cpu_execute s = Some s' /\ cpu_a s' = 0x0C /\ mem s' = mem s.
Proof.
  cbv zeta. split; [reflexivity|]. eexists. split; [reflexivity|].
  split; [reflexivity|].
  apply (step_without_store_keeps_memory
           (machine_of 0x0F 0 0x01 0 0xFD 0x8000
              [(0x8000, 0x31); (0x8001, 0x40); (0x0040, 0xFF); (0x0041, 0x12);
               (0x1300, 0x3C)]));
    reflexivity.
Defined.

Section KeepsRegisters.

Variable r0 : Z * Z * Z * Z * Z.

Ltac regs_prim :=
  lazymatch goal with
  | |- pres _ (set_pc _) => untouched
  | |- pres _ (rd8_from _ _) => untouched
  | |- pres _ (wr8_from _ _ _) => untouched
  end.

Lemma regs_exec_op op body :
  among store_opcodes op = true -> exec_op op = Some body ->
  pres (regs_are r0) body.
Proof. intros Hl H. walk_cases op H Hl ltac:(idtac; regs_prim). Qed.

Lemma regs_cpu_fetch8 : pres (regs_are r0) cpu_fetch8.
Proof. expand_bodies. pres_walk ltac:(idtac; regs_prim). Qed.

End KeepsRegisters.

(** X4.  STA, STX and STY, in every addressing mode, decode and leave A, X,
    Y, the flags and SP as they were. *)
Theorem stores_keep_registers (s : machine) :
  among store_opcodes (opcode_at s) = true ->
  exists s', cpu_execute s = Some s' /\ data_regs s' = data_regs s.
Proof.
  intros Hl.
  assert (is_documented (opcode_at s) = true) as Hd.
  { assert (forallb is_documented store_opcodes = true) as Hall
      by (vm_compute; reflexivity).
    rewrite forallb_forall in Hall. apply Hall, among_In, Hl. }
  destruct (documented_steps s Hd) as [s' E]. exists s'.
  split; [exact E|].
  apply (pres_cpu_execute_at (regs_are (data_regs s)) s s');
    [apply regs_cpu_fetch8 | | reflexivity | exact E].
  intros body Hb. exact (regs_exec_op (data_regs s) _ body Hl Hb).
Qed.

Lemma stores_keep_registers_witness :
  let s :=
    machine_of 0x5A 0xFF 0 0xC3 0xFD 0x8000
      [(0x8000, 0x9D); (0x8001, 0x01); (0x8002, 0xFF)] in
  among store_opcodes (opcode_at s) = true /\
  exists s', cpu_execute s = Some s' /\ data_regs s' = data_regs s.
Proof.
  cbv zeta. split; [reflexivity|].
  apply (stores_keep_registers
           (machine_of 0x5A 0xFF 0 0xC3 0xFD 0x8000
              [(0x8000, 0x9D); (0x8001, 0x01); (0x8002, 0xFF)])).
  reflexivity.
Defined.
(** Solves [Z.testbit (to_u8 e) k = b] for a flag word [e] the code builds
    from flags whose bit [k] is known to be [b]. *)
Ltac kept_bit :=
  rewrite to_u8_testbit by lia;
  unfold arith_flags, sel;
  repeat lazymatch goal with
         | |- context [if ?c then _ else _] => destruct c
         end;
  rewrite ?Z.lor_spec, ?Z.land_spec, ?Z.lnot_spec by lia;
  repeat match goal with
         | H : Z.testbit (cpu_flags _) _ = _ |- _ => rewrite H; clear H
         end;
  repeat lazymatch goal with
         | b : bool |- _ => destruct b
         end;
  reflexivity.

Lemma di_set_flags (d i : bool) v :
  Z.testbit (to_u8 v) 3 = d /\ Z.testbit (to_u8 v) 2 = i ->
  pres (di_are d i) (set_flags v).
Proof. intros Hv s H. exact Hv. Qed.

Ltac di_prim :=
  lazymatch goal with
  | |- pres _ (set_a _) => untouched
  | |- pres _ (set_x _) => untouched
  | |- pres _ (set_y _) => untouched
  | |- pres _ (set_sp _) => untouched
  | |- pres _ (set_pc _) => untouched
  | |- pres _ (rd8_from _ _) => untouched
  | |- pres _ (wr8_from _ _ _) => untouched
  | |- pres _ (set_flags _) =>
      apply di_set_flags; unfold di_are in *;
      repeat match goal with
             | H : _ /\ _ |- _ => destruct H
             end;
      split; kept_bit
  end.

Lemma di_exec_op (d i : bool) op body :
  among di_opcodes op = false -> exec_op op = Some body ->
  pres (di_are d i) body.
Proof. intros Hl H. walk_cases op H Hl ltac:(idtac; di_prim). Qed.

Lemma di_cpu_fetch8 (d i : bool) : pres (di_are d i) cpu_fetch8.
Proof. expand_bodies. pres_walk ltac:(idtac; di_prim). Qed.

(** X5.  The decimal and interrupt-disable flags are assigned only by BRK,
    PLP, RTI, CLI, SEI and SED (opcode 0xD8 is left out of the statement):
    a step from any other opcode leaves D and I as they were. *)
Theorem step_keeps_decimal_and_interrupt (s s' : machine) :
  among di_opcodes (opcode_at s) = false ->
  cpu_execute s = Some s' ->
  flag F_D s' = flag F_D s /\ flag F_I s' = flag F_I s.
Proof.
  intros Hl E.
  rewrite !(flag_bit F_D 3), !(flag_bit F_I 2) by (reflexivity || lia).
  apply (pres_cpu_execute_at
           (di_are (Z.testbit (cpu_flags s) 3) (Z.testbit (cpu_flags s) 2))
           s s');
    [apply di_cpu_fetch8 | | split; reflexivity | exact E].
  intros body Hb. exact (di_exec_op _ _ _ body Hl Hb).
Qed.

Lemma step_keeps_decimal_and_interrupt_witness :
  let s :=
    machine_of 0x7F 0 0 (Z.lor F_D F_I) 0xFD 0x8000
      [(0x8000, 0x69); (0x8001, 0x01)] in
  among di_opcodes (opcode_at s) = false /\
  exists s', cpu_execute s = Some s' /\
             flag F_D s' = flag F_D s /\ flag F_I s' = flag F_I s.
Proof.
  cbv zeta. split; [reflexivity|]. eexists. split; [reflexivity|].
  apply (step_keeps_decimal_and_interrupt
           (machine_of 0x7F 0 0 (Z.lor F_D F_I) 0xFD 0x8000
              [(0x8000, 0x69); (0x8001, 0x01)]));
    reflexivity.
Defined.

Lemma v_set_flags (v0 : bool) v :
  Z.testbit (to_u8 v) 6 = v0 -> pres (v_is v0) (set_flags v).
Proof. intros Hv s H. exact Hv. Qed.

Ltac v_prim :=
  lazymatch goal with
  | |- pres _ (set_a _) => untouched
  | |- pres _ (set_x _) => untouched
  | |- pres _ (set_y _) => untouched
  | |- pres _ (set_sp _) => untouched
  | |- pres _ (set_pc _) => untouched
  | |- pres _ (rd8_from _ _) => untouched
  | |- pres _ (wr8_from _ _ _) => untouched
  | |- pres _ (set_flags _) =>
      apply v_set_flags; unfold v_is in *; kept_bit
  end.

Lemma v_exec_op (v0 : bool) op body :
  among v_opcodes op = false -> exec_op op = Some body ->
  pres (v_is v0) body.
Proof. intros Hl H. walk_cases op H Hl ltac:(idtac; v_prim). Qed.

Lemma v_cpu_fetch8 (v0 : bool) : pres (v_is v0) cpu_fetch8.
Proof. expand_bodies. pres_walk ltac:(idtac; v_prim). Qed.

(** X6.  The overflow flag is assigned only by ADC, SBC, BIT, CLV, PLP and
    RTI: a step from any other opcode -- compares, shifts, rotates,
    increments, BRK included -- leaves V as it was. *)
Theorem step_keeps_overflow (s s' : machine) :
  among v_opcodes (opcode_at s) = false ->
  cpu_execute s = Some s' ->
  flag F_V s' = flag F_V s.
Proof.
  intros Hl E.
  rewrite !(flag_bit F_V 6) by (reflexivity || lia).
  apply (pres_cpu_execute_at (v_is (Z.testbit (cpu_flags s) 6)) s s');
    [apply v_cpu_fetch8 | | reflexivity | exact E].
  intros body Hb. exact (v_exec_op _ _ body Hl Hb).
Qed.

Lemma step_keeps_overflow_witness :
  let s :=
    machine_of 0x40 0 0 F_V 0xFD 0x8000 [(0x8000, 0xC9); (0x8001, 0xC0)] in
  among v_opcodes (opcode_at s) = false /\
  exists s', cpu_execute s = Some s' /\ flag F_V s' = flag F_V s /\
             flag F_N s' = true.
Proof.
  cbv zeta. split; [reflexivity|]. eexists. split; [reflexivity|].
  split; [|reflexivity].
  apply (step_keeps_overflow
           (machine_of 0x40 0 0 F_V 0xFD 0x8000
              [(0x8000, 0xC9); (0x8001, 0xC0)]));
    reflexivity.
Defined.

(** ** The arithmetic of the ALU helpers *)

(** Reads bit [k] of a flag word the code builds. *)
Ltac read_bit :=
  unfold arith_flags; rewrite ?sel_eqb; unfold truthy;
  repeat lazymatch goal with
         | |- context [if ?c then _ else _] => destruct c
         end;
  repeat (rewrite ?to_u8_testbit, ?Z.lor_spec, ?Z.land_spec, ?Z.lnot_spec
            by lia);
  repeat lazymatch goal with
         | |- context [Z.testbit (cpu_flags ?s) ?k] =>
             destruct (Z.testbit (cpu_flags s) k)
         end;
  reflexivity.

(** A property of bytes that holds on each of the 256 values holds on
    every byte; the same for pairs. *)
Lemma bytes_forall (P : Z -> bool) :
  forallb P all_bytes = true -> forall v, 0 <= v < 256 -> P v = true.
Proof.
  intros H v Hv. rewrite forallb_forall in H. apply H, all_bytes_In, Hv.
Qed.

Lemma bytes2_forall (P : Z -> Z -> bool) :
  forallb (fun a => forallb (P a) all_bytes) all_bytes = true ->
  forall a v, 0 <= a < 256 -> 0 <= v < 256 -> P a v = true.
Proof.
  intros H a v Ha Hv.
  apply (bytes_forall (P a)); [|exact Hv].
  apply (bytes_forall (fun a => forallb (P a) all_bytes) H a Ha).
Qed.

Lemma carry_range s : 0 <= carry s <= 1.
Proof. unfold carry, bool_c. destruct (truthy _); lia. Qed.

Lemma carry_flag s : carry s = if flag F_C s then 1 else 0.
Proof. reflexivity. Qed.

(** The flags [cpu_adc] leaves, read one at a time. *)
Lemma cpu_adc_flags v s :
  let u := to_u16 (cpu_a s + to_u8 v + carry s) in
  let sg := to_s16 (to_s8 (cpu_a s) + to_s8 (to_u8 v) + carry s) in
  let s' := snd (cpu_adc v s) in
  flag F_C s' = negb (Z.shiftr u 8 =? 0) /\
  flag F_V s' = ((127 <? sg) || (sg <? -128)) /\
  flag F_N s' = Z.testbit (cpu_a s') 7 /\
  flag F_Z s' = (cpu_a s' =? 0) /\
  flag F_D s' = flag F_D s /\
  flag F_I s' = flag F_I s.
Proof.
  cbv zeta. rewrite cpu_adc_unfold. cbv zeta. simpl snd. unfold carry.
  rewrite (flag_bit F_C 0), (flag_bit F_V 6), (flag_bit F_N 7),
    (flag_bit F_Z 1), !(flag_bit F_D 3), !(flag_bit F_I 2)
    by (reflexivity || lia).
  simpl cpu_flags. simpl cpu_a.
  set (a' := to_u8 (to_u16 _)). set (sg := to_s16 _).
  rewrite <- (truthy_bit7 a').
  repeat split; read_bit.
Qed.

(** Signed overflow of an 8-bit addition, by the signs of the operands and
    of the result. *)
Lemma overflow_by_signs a v c :
  0 <= a < 256 -> 0 <= v < 256 -> 0 <= c <= 1 ->
  let sg := to_s8 a + to_s8 v + c in
  let r := (a + v + c) mod 256 in
  ((127 <? sg) || (sg <? -128))
  = Z.testbit (Z.land (Z.lxor a r) (Z.lxor v r)) 7.
Proof.
  intros Ha Hv Hc. cbv zeta.
  assert (forall c0, In c0 [0; 1] ->
          forall a0 v0, 0 <= a0 < 256 -> 0 <= v0 < 256 ->
          Bool.eqb ((127 <? to_s8 a0 + to_s8 v0 + c0)
                    || (to_s8 a0 + to_s8 v0 + c0 <? -128))
                   (Z.testbit (Z.land (Z.lxor a0 ((a0 + v0 + c0) mod 256))
                                      (Z.lxor v0 ((a0 + v0 + c0) mod 256))) 7)
          = true) as Hall.
  { intros c0 Hc0. simpl in Hc0.
    destruct Hc0 as [<-|[<-|[]]]; apply bytes2_forall;
      vm_compute; reflexivity. }
  apply eqb_prop, Hall; [|exact Ha|exact Hv].
  simpl. lia.
Qed.

(** X7.  [cpu_adc] on byte operands is an exact 9-bit addition: the new A
    together with the new carry as bit 8 is A + operand + carry-in.  V is
    set exactly when the signed sum leaves [-128, 127], which is when both
    operands have the sign the result lacks; N and Z describe the new A; D
    and I, the other registers and memory are untouched. *)
Theorem adc_adds_with_carry (s : machine) (v : Z) :
  0 <= cpu_a s < 256 -> 0 <= v < 256 ->
  let s' := snd (cpu_adc v s) in
  let sg := to_s8 (cpu_a s) + to_s8 v + carry s in
  cpu_a s' + 256 * carry s' = cpu_a s + v + carry s /\
  0 <= cpu_a s' < 256 /\
  flag F_V s' = negb ((-128 <=? sg) && (sg <=? 127)) /\
  flag F_V s'
    = Z.testbit (Z.land (Z.lxor (cpu_a s) (cpu_a s'))
                        (Z.lxor v (cpu_a s'))) 7 /\
  flag F_N s' = Z.testbit (cpu_a s') 7 /\
  flag F_Z s' = (cpu_a s' =? 0) /\
  flag F_D s' = flag F_D s /\ flag F_I s' = flag F_I s /\
  (cpu_x s', cpu_y s', cpu_sp s', cpu_pc s', log s')
    = (cpu_x s, cpu_y s, cpu_sp s, cpu_pc s, log s) /\
  mem s' = mem s.
Proof.
  intros Ha Hv. cbv zeta.
  pose proof (cpu_adc_flags v s) as Hf. cbv zeta in Hf.
  rewrite (to_u8_small v) in Hf by lia.
  pose proof (carry_range s) as Hc.
  pose proof (to_s8_range (cpu_a s)). pose proof (to_s8_range v).
  rewrite to_s16_small in Hf by lia.
  destruct Hf as (HC & HV & HN & HZ & HD & HI).
  assert (cpu_a (snd (cpu_adc v s)) = (cpu_a s + v + carry s) mod 256) as Ea.
  { rewrite cpu_adc_unfold. cbn [snd cpu_a]. rewrite (to_u8_small v) by lia.
    change (bool_c (Z.land (cpu_flags s) F_C)) with (carry s).
    rewrite to_u16_small by lia. reflexivity. }
  assert (carry (snd (cpu_adc v s)) = (cpu_a s + v + carry s) / 256) as Ec.
  { rewrite carry_flag, HC. rewrite to_u16_small by lia.
    rewrite Z.shiftr_div_pow2 by lia. change (2 ^ 8) with 256.
    pose proof (Z.div_mod (cpu_a s + v + carry s) 256 ltac:(lia)).
    pose proof (Z.mod_pos_bound (cpu_a s + v + carry s) 256 ltac:(lia)).
    destruct (Z.eqb_spec ((cpu_a s + v + carry s) / 256) 0); simpl; lia. }
  split; [|split; [|split; [|split]]].
  - rewrite Ea, Ec.
    pose proof (Z.div_mod (cpu_a s + v + carry s) 256 ltac:(lia)). lia.
  - rewrite Ea. apply Z.mod_pos_bound. lia.
  - rewrite HV.
    destruct (Z.ltb_spec 127 (to_s8 (cpu_a s) + to_s8 v + carry s)),
             (Z.ltb_spec (to_s8 (cpu_a s) + to_s8 v + carry s) (-128)),
             (Z.leb_spec (-128) (to_s8 (cpu_a s) + to_s8 v + carry s)),
             (Z.leb_spec (to_s8 (cpu_a s) + to_s8 v + carry s) 127);
      try reflexivity; lia.
  - rewrite HV, Ea. apply overflow_by_signs; assumption.
  - repeat split; assumption.
Qed.

Lemma adc_adds_with_carry_witness :
  let s := machine_of 0x50 0 0 0 0xFD 0x8000 [] in
  0 <= cpu_a s < 256 /\ 0 <= 0x50 < 256 /\
  cpu_a (snd (cpu_adc 0x50 s)) + 256 * carry (snd (cpu_adc 0x50 s))
  = cpu_a s + 0x50 + carry s.
Proof.
  cbv zeta. split; [simpl; lia|]. split; [lia|].
  apply (adc_adds_with_carry (machine_of 0x50 0 0 0 0xFD 0x8000 []) 0x50);
    simpl; lia.
Defined.
(** ** Compare *)

Lemma cpu_flags_nzc_unfold w s :
  cpu_flags_nzc w s =
  (tt, mkMachine (cpu_a s) (cpu_x s) (cpu_y s)
         (to_u8
            (Z.lor (Z.lor (Z.lor
               (Z.land (cpu_flags s) (Z.lnot (Z.lor (Z.lor F_N F_Z) F_C)))
               (sel (Z.land (to_u16 w) 0x80) F_N 0))
               (sel (Z.land (to_u16 w) 0xFF) 0 F_Z))
               (sel (Z.shiftr (to_u16 w) 8) 0 F_C)))
         (cpu_sp s) (cpu_pc s) (mem s) (log s)).
Proof. reflexivity. Qed.

(** The flags [cpu_flags_nzc] leaves, read one at a time. *)
Lemma cpu_flags_nzc_flags w s :
  let s' := snd (cpu_flags_nzc w s) in
  flag F_N s' = negb (Z.land (to_u16 w) 0x80 =? 0) /\
  flag F_Z s' = (Z.land (to_u16 w) 0xFF =? 0) /\
  flag F_C s' = (Z.shiftr (to_u16 w) 8 =? 0) /\
  flag F_V s' = flag F_V s /\
  flag F_D s' = flag F_D s /\
  flag F_I s' = flag F_I s.
Proof.
  cbv zeta. rewrite cpu_flags_nzc_unfold. simpl snd.
  rewrite (flag_bit F_C 0), !(flag_bit F_V 6), (flag_bit F_N 7),
    (flag_bit F_Z 1), !(flag_bit F_D 3), !(flag_bit F_I 2)
    by (reflexivity || lia).
  simpl cpu_flags.
  repeat split; read_bit.
Qed.

(** The low byte of a 16-bit difference of bytes. *)
Lemma sub_low_byte a v nc :
  0 <= a < 256 -> 0 <= v < 256 -> 0 <= nc <= 1 ->
  to_u8 (to_u16 (a - v - nc)) = (a - v - nc) mod 256.
Proof.
  intros Ha Hv Hn. unfold to_u8, to_u16.
  destruct (Z_lt_le_dec (a - v - nc) 0).
  - replace (a - v - nc) with (a - v - nc + 65536 + (-1) * 65536) at 1 by lia.
    rewrite Z.mod_add by lia. rewrite (Z.mod_small _ 65536) by lia.
    replace (a - v - nc + 65536) with (a - v - nc + 256 * 256) by lia.
    rewrite Z.mod_add by lia. reflexivity.
  - rewrite (Z.mod_small _ 65536) by lia. reflexivity.
Qed.

(** X8.  Comparing byte [r] with byte [v] ([cpu_flags_nzc] on [r - v], as
    CMP, CPX and CPY call it) sets Z exactly when they are equal, C exactly
    when [v <= r] as unsigned numbers, and N to bit 7 of the difference
    modulo 256; V, D and I, every register and memory are untouched. *)
Theorem compare_orders_bytes (s : machine) (r v : Z) :
  0 <= r < 256 -> 0 <= v < 256 ->
  let s' := snd (cpu_flags_nzc (r - v) s) in
  flag F_Z s' = (r =? v) /\
  flag F_C s' = (v <=? r) /\
  flag F_N s' = Z.testbit ((r - v) mod 256) 7 /\
  flag F_V s' = flag F_V s /\ flag F_D s' = flag F_D s /\
  flag F_I s' = flag F_I s /\
  (cpu_a s', cpu_x s', cpu_y s', cpu_sp s', cpu_pc s', log s')
    = (cpu_a s, cpu_x s, cpu_y s, cpu_sp s, cpu_pc s, log s) /\
  mem s' = mem s.
Proof.
  intros Hr Hv. cbv zeta.
  destruct (cpu_flags_nzc_flags (r - v) s) as (HN & HZ & HC & HV & HD & HI).
  pose proof (sub_low_byte r v 0 Hr Hv ltac:(lia)) as Hlow.
  rewrite Z.sub_0_r in Hlow.
  split; [|split; [|split]].
  - rewrite HZ, land_0xFF, Hlow.
    pose proof (Z.mod_pos_bound (r - v) 256 ltac:(lia)).
    destruct (Z.eqb_spec r v) as [->|Hne].
    + rewrite Z.sub_diag. reflexivity.
    + apply Z.eqb_neq. intros H0.
      destruct (Z_lt_le_dec (r - v) 0).
      * replace (r - v) with (r - v + 256 + (-1) * 256) in H0 by lia.
        rewrite Z.mod_add, Z.mod_small in H0 by lia. lia.
      * rewrite Z.mod_small in H0 by lia. lia.
  - rewrite HC. pose proof (sub_high_byte r v 0 Hr Hv ltac:(lia)) as Hh.
    rewrite Z.sub_0_r in Hh. rewrite Hh.
    destruct (Z.leb_spec 0 (r - v)), (Z.leb_spec v r); try reflexivity; lia.
  - rewrite HN. change (negb (Z.land (to_u16 (r - v)) 128 =? 0))
      with (truthy (Z.land (to_u16 (r - v)) 0x80)).
    rewrite truthy_bit7, <- Hlow. rewrite to_u8_testbit by lia. reflexivity.
  - repeat split; assumption.
Qed.

Lemma compare_orders_bytes_witness :
  let s := machine_of 0 0 0 0 0xFD 0x8000 [] in
  0 <= 0x10 < 256 /\ 0 <= 0x34 < 256 /\
  flag F_C (snd (cpu_flags_nzc (0x10 - 0x34) s)) = (0x34 <=? 0x10).
Proof.
  cbv zeta. split; [lia|]. split; [lia|].
  apply (compare_orders_bytes (machine_of 0 0 0 0 0xFD 0x8000 []) 0x10 0x34);
    lia.
Defined.

(** The carry after [cpu.flags |= F_C] and after [cpu.flags &= ~F_C]. *)
Lemma carry_after_raise s : carry (snd (raise_flag F_C s)) = 1.
Proof.
  rewrite carry_flag, (flag_bit F_C 0) by (reflexivity || lia).
  cbn [snd raise_flag bind reg set_flags cpu_flags].
  replace (Z.testbit (to_u8 (Z.lor (cpu_flags s) F_C)) 0) with true;
    [reflexivity|].
  symmetry. rewrite to_u8_testbit, Z.lor_spec by lia.
  apply orb_true_r.
Qed.

Lemma carry_after_clear s : carry (snd (clear_flag F_C s)) = 0.
Proof.
  rewrite carry_flag, (flag_bit F_C 0) by (reflexivity || lia).
  cbn [snd clear_flag bind reg set_flags cpu_flags].
  replace (Z.testbit (to_u8 (Z.land (cpu_flags s) (Z.lnot F_C))) 0) with false;
    [reflexivity|].
  symmetry. rewrite to_u8_testbit, Z.land_spec by lia.
  apply andb_false_r.
Qed.

Lemma lnot_c_carry s : lnot_c (Z.land (cpu_flags s) F_C) = 1 - carry s.
Proof. unfold carry. rewrite bool_c_lnot_c. lia. Qed.

(** X9.  A compare sets N, Z and C as a subtraction with the carry set
    does: [cpu_flags_nzc] on [A - v] and [cpu_sbc v] after
    [cpu.flags |= F_C] agree on the three flags. *)
Theorem compare_matches_sbc_with_carry (s : machine) (v : Z) :
  0 <= cpu_a s < 256 -> 0 <= v < 256 ->
  let cmp := snd (cpu_flags_nzc (cpu_a s - v) s) in
  let sbc := snd (cpu_sbc v (snd (raise_flag F_C s))) in
  flag F_N cmp = flag F_N sbc /\
  flag F_Z cmp = flag F_Z sbc /\
  flag F_C cmp = flag F_C sbc.
Proof.
  intros Ha Hv. cbv zeta.
  destruct (cpu_flags_nzc_flags (cpu_a s - v) s) as (HN & HZ & HC & _).
  pose proof (cpu_sbc_flags v (snd (raise_flag F_C s))) as Hs.
  cbv zeta in Hs. destruct Hs as (SC & _ & SN & SZ & _).
  rewrite lnot_c_carry, carry_after_raise in SC.
  rewrite (to_u8_small v) in SC by lia.
  assert (cpu_a (snd (cpu_sbc v (snd (raise_flag F_C s))))
          = to_u8 (to_u16 (cpu_a s - v))) as Ea.
  { rewrite cpu_sbc_unfold. cbn [snd cpu_a].
    rewrite lnot_c_carry, carry_after_raise.
    rewrite (to_u8_small v) by lia.
    cbn [snd raise_flag bind reg set_flags cpu_a].
    f_equal. f_equal. lia. }
  change (cpu_a (snd (raise_flag F_C s))) with (cpu_a s) in SC.
  replace (cpu_a s - v - (1 - 1)) with (cpu_a s - v) in SC by lia.
  rewrite HN, HZ, HC, SN, SZ, SC, Ea.
  split; [|split; [|reflexivity]].
  - change (negb (Z.land (to_u16 (cpu_a s - v)) 128 =? 0))
      with (truthy (Z.land (to_u16 (cpu_a s - v)) 0x80)).
    rewrite truthy_bit7. rewrite to_u8_testbit by lia. reflexivity.
  - rewrite land_0xFF. reflexivity.
Qed.

Lemma compare_matches_sbc_with_carry_witness :
  let s := machine_of 0x10 0 0 0 0xFD 0x8000 [] in
  0 <= cpu_a s < 256 /\ 0 <= 0x34 < 256 /\
  flag F_C (snd (cpu_flags_nzc (cpu_a s - 0x34) s))
  = flag F_C (snd (cpu_sbc 0x34 (snd (raise_flag F_C s)))).
Proof.
  cbv zeta. split; [simpl; lia|]. split; [lia|].
  apply (compare_matches_sbc_with_carry
           (machine_of 0x10 0 0 0 0xFD 0x8000 []) 0x34);
    simpl; lia.
Defined.

(** ** Addition undone by subtraction *)

Lemma snd_bind {A B} (m : M A) (k : M B) s :
  snd ((m ;; k) s) = snd (k (snd (m s))).
Proof. unfold bind. destruct (m s). reflexivity. Qed.

Lemma cpu_adc_a v s :
  0 <= cpu_a s < 256 -> 0 <= v < 256 ->
  cpu_a (snd (cpu_adc v s)) = (cpu_a s + v + carry s) mod 256.
Proof.
  intros Ha Hv. pose proof (carry_range s).
  rewrite cpu_adc_unfold. cbn [snd cpu_a]. rewrite (to_u8_small v) by lia.
  change (bool_c (Z.land (cpu_flags s) F_C)) with (carry s).
  rewrite to_u16_small by lia. reflexivity.
Qed.

Lemma cpu_sbc_a v s :
  0 <= cpu_a s < 256 -> 0 <= v < 256 ->
  cpu_a (snd (cpu_sbc v s)) = (cpu_a s - v - (1 - carry s)) mod 256.
Proof.
  intros Ha Hv. pose proof (carry_range s).
  rewrite cpu_sbc_unfold. cbn [snd cpu_a]. rewrite (to_u8_small v) by lia.
  rewrite lnot_c_carry. apply sub_low_byte; lia.
Qed.

(** X10.  CLC, ADC v, SEC, SBC v in a row restore the accumulator: adding a
    byte without carry-in and subtracting it without borrow-in gives A back
    (the bodies [cpu.flags &= ~F_C; cpu_adc(v); cpu.flags |= F_C;
    cpu_sbc(v);]). *)
Theorem add_then_subtract_restores (s : machine) (v : Z) :
  0 <= cpu_a s < 256 -> 0 <= v < 256 ->
  cpu_a (snd ((clear_flag F_C ;; cpu_adc v ;; raise_flag F_C ;; cpu_sbc v) s))
  = cpu_a s.
Proof.
  intros Ha Hv. rewrite !snd_bind.
  set (s1 := snd (clear_flag F_C s)).
  set (s2 := snd (cpu_adc v s1)).
  assert (cpu_a s1 = cpu_a s) as E1 by reflexivity.
  assert (cpu_a s2 = (cpu_a s + v) mod 256) as E2.
  { unfold s2. rewrite cpu_adc_a by (rewrite ?E1; lia).
    unfold s1 at 2. rewrite carry_after_clear, E1. f_equal. lia. }
  pose proof (Z.mod_pos_bound (cpu_a s + v) 256 ltac:(lia)) as Hr.
  rewrite cpu_sbc_a;
    [ | change (cpu_a (snd (raise_flag F_C s2))) with (cpu_a s2); lia | lia].
  rewrite carry_after_raise.
  change (cpu_a (snd (raise_flag F_C s2))) with (cpu_a s2). rewrite E2.
  replace ((cpu_a s + v) mod 256 - v - (1 - 1))
    with ((cpu_a s + v) mod 256 - v) by lia.
  rewrite Zminus_mod_idemp_l.
  replace (cpu_a s + v - v) with (cpu_a s) by lia.
  apply Z.mod_small. lia.
Qed.

Lemma add_then_subtract_restores_witness :
  let s := machine_of 0xF0 0 0 F_C 0xFD 0x8000 [] in
  0 <= cpu_a s < 256 /\ 0 <= 0x25 < 256 /\
  cpu_a (snd ((clear_flag F_C ;; cpu_adc 0x25 ;; raise_flag F_C ;;
               cpu_sbc 0x25) s)) = cpu_a s.
Proof.
  cbv zeta. split; [simpl; lia|]. split; [lia|].
  apply (add_then_subtract_restores
           (machine_of 0xF0 0 0 F_C 0xFD 0x8000 []) 0x25);
    simpl; lia.
Defined.

(** ** Rotates *)

(** [cpu_rol] and [cpu_ror] read the flags and nothing else. *)
Lemma cpu_rol_flags_only v s :
  fst (cpu_rol v s) = fst (cpu_rol v (flags_only (cpu_flags s))) /\
  cpu_flags (snd (cpu_rol v s))
  = cpu_flags (snd (cpu_rol v (flags_only (cpu_flags s)))).
Proof. split; reflexivity. Qed.

Lemma cpu_ror_flags_only v s :
  fst (cpu_ror v s) = fst (cpu_ror v (flags_only (cpu_flags s))) /\
  cpu_flags (snd (cpu_ror v s))
  = cpu_flags (snd (cpu_ror v (flags_only (cpu_flags s)))).
Proof. split; reflexivity. Qed.

Lemma carry_flags_only s : carry s = carry (flags_only (cpu_flags s)).
Proof. reflexivity. Qed.

Lemma flag_flags_only mask s :
  flag mask s = flag mask (flags_only (cpu_flags s)).
Proof. reflexivity. Qed.

(** The 65536 pairs of a flag byte and an operand byte, checked one by
    one. *)
Lemma cpu_rol_checked f v :
  0 <= f < 256 -> 0 <= v < 256 ->
  (let s := flags_only f in
   let r := fst (cpu_rol v s) in
   let s' := snd (cpu_rol v s) in
   (r + 256 * carry s' =? 2 * v + carry s)
   && (0 <=? r) && (r <? 256)
   && Bool.eqb (flag F_N s') (Z.testbit r 7)
   && Bool.eqb (flag F_Z s') (r =? 0)
   && Bool.eqb (flag F_V s') (flag F_V s)
   && Bool.eqb (flag F_D s') (flag F_D s)
   && Bool.eqb (flag F_I s') (flag F_I s)) = true.
Proof.
  revert f v. apply bytes2_forall. vm_compute. reflexivity.
Qed.

Lemma cpu_ror_checked f v :
  0 <= f < 256 -> 0 <= v < 256 ->
  (let s := flags_only f in
   let r := fst (cpu_ror v s) in
   let s' := snd (cpu_ror v s) in
   (2 * r + carry s' =? v + 256 * carry s)
   && (0 <=? r) && (r <? 256)
   && Bool.eqb (flag F_N s') (Z.testbit r 7)
   && Bool.eqb (flag F_Z s') (r =? 0)
   && Bool.eqb (flag F_V s') (flag F_V s)
   && Bool.eqb (flag F_D s') (flag F_D s)
   && Bool.eqb (flag F_I s') (flag F_I s)) = true.
Proof.
  revert f v. apply bytes2_forall. vm_compute. reflexivity.
Qed.
(** Splits a checked conjunction of booleans into its facts. *)
Ltac unpack_checked H :=
  cbv zeta in H;
  repeat (apply andb_true_iff in H;
          let H' := fresh "Hk" in destruct H as [H H']);
  repeat match goal with
         | Hb : Bool.eqb _ _ = true |- _ => apply eqb_prop in Hb
         | Hb : (_ =? _) = true |- _ => apply Z.eqb_eq in Hb
         | Hb : (_ <=? _) = true |- _ => apply Z.leb_le in Hb
         | Hb : (_ <? _) = true |- _ => apply Z.ltb_lt in Hb
         end.

Lemma cpu_rol_arith v s :
  0 <= cpu_flags s < 256 -> 0 <= v < 256 ->
  let r := fst (cpu_rol v s) in
  let s' := snd (cpu_rol v s) in
  r + 256 * carry s' = 2 * v + carry s /\
  0 <= r < 256 /\
  flag F_N s' = Z.testbit r 7 /\ flag F_Z s' = (r =? 0) /\
  flag F_V s' = flag F_V s /\ flag F_D s' = flag F_D s /\
  flag F_I s' = flag F_I s.
Proof.
  intros Hf Hv. cbv zeta.
  pose proof (cpu_rol_checked (cpu_flags s) v Hf Hv) as H.
  destruct (cpu_rol_flags_only v s) as [Er Ef].
  rewrite (carry_flags_only s), (carry_flags_only (snd (cpu_rol v s))).
  rewrite !(flag_flags_only _ s), !(flag_flags_only _ (snd (cpu_rol v s))).
  rewrite Er, Ef.
  unpack_checked H.
  repeat apply conj; assumption.
Qed.

Lemma cpu_ror_arith v s :
  0 <= cpu_flags s < 256 -> 0 <= v < 256 ->
  let r := fst (cpu_ror v s) in
  let s' := snd (cpu_ror v s) in
  2 * r + carry s' = v + 256 * carry s /\
  0 <= r < 256 /\
  flag F_N s' = Z.testbit r 7 /\ flag F_Z s' = (r =? 0) /\
  flag F_V s' = flag F_V s /\ flag F_D s' = flag F_D s /\
  flag F_I s' = flag F_I s.
Proof.
  intros Hf Hv. cbv zeta.
  pose proof (cpu_ror_checked (cpu_flags s) v Hf Hv) as H.
  destruct (cpu_ror_flags_only v s) as [Er Ef].
  rewrite (carry_flags_only s), (carry_flags_only (snd (cpu_ror v s))).
  rewrite !(flag_flags_only _ s), !(flag_flags_only _ (snd (cpu_ror v s))).
  rewrite Er, Ef.
  unpack_checked H.
  repeat apply conj; assumption.
Qed.

Lemma cpu_rol_flags_byte v s : 0 <= cpu_flags (snd (cpu_rol v s)) < 256.
Proof.
  unfold cpu_rol, cpu_flags_nz, set_carry_if, bind, reg, set_flags, ret.
  cbn [snd fst cpu_flags]. apply to_u8_range.
Qed.

Lemma cpu_ror_flags_byte v s : 0 <= cpu_flags (snd (cpu_ror v s)) < 256.
Proof.
  unfold cpu_ror, cpu_flags_nz, set_carry_if, bind, reg, set_flags, ret.
  cbn [snd fst cpu_flags]. apply to_u8_range.
Qed.

(** X11.  [cpu_rol] and [cpu_ror] rotate nine bits through the carry: for a
    byte [v], rotating left gives [2 v + carry-in] split into the result
    byte and the new carry as bit 8; rotating right gives the result and
    the new carry as its lost bit 0, with the carry-in entering as bit 7.
    N and Z describe the result; V, D and I are untouched. *)
Theorem rotates_go_through_carry (s : machine) (v : Z) :
  0 <= cpu_flags s < 256 -> 0 <= v < 256 ->
  (let r := fst (cpu_rol v s) in
   let s' := snd (cpu_rol v s) in
   r + 256 * carry s' = 2 * v + carry s /\
   0 <= r < 256 /\
   flag F_N s' = Z.testbit r 7 /\ flag F_Z s' = (r =? 0) /\
   flag F_V s' = flag F_V s /\ flag F_D s' = flag F_D s /\
   flag F_I s' = flag F_I s) /\
  (let r := fst (cpu_ror v s) in
   let s' := snd (cpu_ror v s) in
   2 * r + carry s' = v + 256 * carry s /\
   0 <= r < 256 /\
   flag F_N s' = Z.testbit r 7 /\ flag F_Z s' = (r =? 0) /\
   flag F_V s' = flag F_V s /\ flag F_D s' = flag F_D s /\
   flag F_I s' = flag F_I s).
Proof.
  intros Hf Hv. split; [apply cpu_rol_arith | apply cpu_ror_arith]; assumption.
Qed.

Lemma rotates_go_through_carry_witness :
  let s := machine_of 0 0 0 F_C 0xFD 0x8000 [] in
  0 <= cpu_flags s < 256 /\ 0 <= 0x81 < 256 /\
  fst (cpu_rol 0x81 s) + 256 * carry (snd (cpu_rol 0x81 s))
  = 2 * 0x81 + carry s.
Proof.
  cbv zeta. split; [cbv; split; [discriminate | reflexivity]|].
  split; [lia|].
  apply (proj1 (rotates_go_through_carry
                  (machine_of 0 0 0 F_C 0xFD 0x8000 []) 0x81
                  ltac:(cbv; split; [discriminate | reflexivity])
                  ltac:(lia))).
Defined.

(** X12.  [cpu_ror] undoes [cpu_rol] and [cpu_rol] undoes [cpu_ror]: on a
    byte, either pair in a row returns the byte and leaves the carry as it
    was before the pair. *)
Theorem rotate_round_trip (s : machine) (v : Z) :
  0 <= cpu_flags s < 256 -> 0 <= v < 256 ->
  (let s1 := snd (cpu_rol v s) in
   let r1 := fst (cpu_rol v s) in
   fst (cpu_ror r1 s1) = v /\ carry (snd (cpu_ror r1 s1)) = carry s) /\
  (let s1 := snd (cpu_ror v s) in
   let r1 := fst (cpu_ror v s) in
   fst (cpu_rol r1 s1) = v /\ carry (snd (cpu_rol r1 s1)) = carry s).
Proof.
  intros Hf Hv. cbv zeta.
  pose proof (carry_range s) as Hc.
  split.
  - destruct (cpu_rol_arith v s Hf Hv) as (H1 & Hr1 & _).
    destruct (cpu_ror_arith (fst (cpu_rol v s)) (snd (cpu_rol v s))
                (cpu_rol_flags_byte v s) Hr1) as (H2 & Hr2 & _).
    pose proof (carry_range (snd (cpu_rol v s))).
    pose proof (carry_range
                  (snd (cpu_ror (fst (cpu_rol v s)) (snd (cpu_rol v s))))).
    split; lia.
  - destruct (cpu_ror_arith v s Hf Hv) as (H1 & Hr1 & _).
    destruct (cpu_rol_arith (fst (cpu_ror v s)) (snd (cpu_ror v s))
                (cpu_ror_flags_byte v s) Hr1) as (H2 & Hr2 & _).
    pose proof (carry_range (snd (cpu_ror v s))).
    pose proof (carry_range
                  (snd (cpu_rol (fst (cpu_ror v s)) (snd (cpu_ror v s))))).
    split; lia.
Qed.

Lemma rotate_round_trip_witness :
  let s := machine_of 0 0 0 F_C 0xFD 0x8000 [] in
  0 <= cpu_flags s < 256 /\ 0 <= 0x81 < 256 /\
  fst (cpu_ror (fst (cpu_rol 0x81 s)) (snd (cpu_rol 0x81 s))) = 0x81.
Proof.
  cbv zeta. split; [cbv; split; [discriminate | reflexivity]|].
  split; [lia|].
  apply (proj1 (rotate_round_trip
                  (machine_of 0 0 0 F_C 0xFD 0x8000 []) 0x81
                  ltac:(cbv; split; [discriminate | reflexivity])
                  ltac:(lia))).
Defined.
(** ** The stack discipline *)

(** Stack-pointer arithmetic modulo 256, checked on the 256 values. *)
Lemma sp_arith sp :
  0 <= sp < 256 ->
  to_u8 (to_u8 (sp - 1) + 1) = sp /\
  to_u8 (to_u8 (to_u8 (sp - 1) - 1) + 1) = to_u8 (sp - 1) /\
  to_u8 (to_u8 (to_u8 (to_u8 (sp - 1) - 1) - 1) + 1)
    = to_u8 (to_u8 (sp - 1) - 1) /\
  to_u8 (sp - 1) <> sp /\
  to_u8 (to_u8 (sp - 1) - 1) <> sp /\
  to_u8 (to_u8 (sp - 1) - 1) <> to_u8 (sp - 1).
Proof.
  intros Hsp.
  assert ((to_u8 (to_u8 (sp - 1) + 1) =? sp)
          && (to_u8 (to_u8 (to_u8 (sp - 1) - 1) + 1) =? to_u8 (sp - 1))
          && (to_u8 (to_u8 (to_u8 (to_u8 (sp - 1) - 1) - 1) + 1)
              =? to_u8 (to_u8 (sp - 1) - 1))
          && negb (to_u8 (sp - 1) =? sp)
          && negb (to_u8 (to_u8 (sp - 1) - 1) =? sp)
          && negb (to_u8 (to_u8 (sp - 1) - 1) =? to_u8 (sp - 1)) = true) as H.
  { revert sp Hsp. apply bytes_forall. vm_compute. reflexivity. }
  repeat (apply andb_true_iff in H; let H' := fresh "Hk" in destruct H as [H H']).
  repeat match goal with
         | Hb : negb _ = true |- _ =>
             apply negb_true_iff in Hb; apply Z.eqb_neq in Hb
         | Hb : (_ =? _) = true |- _ => apply Z.eqb_eq in Hb
         end.
  repeat apply conj; assumption.
Qed.

Lemma upd_same m addr v : upd m addr v addr = v.
Proof. unfold upd. rewrite Z.eqb_refl. reflexivity. Qed.

Lemma upd_other m addr v i : i <> addr -> upd m addr v i = m i.
Proof.
  intros H. unfold upd. destruct (Z.eqb_spec i addr); [contradiction|].
  reflexivity.
Qed.

(** X13.  The stack is last-in first-out at every stack pointer, across the
    wrap included: after [cpu_push8 a; cpu_push8 b] two [cpu_pop8] return
    [b], then [a] (as bytes), and leave SP where it started. *)
Theorem push_pop_is_lifo (s : machine) (a b : Z) :
  0 <= cpu_sp s < 256 ->
  let s2 := snd ((cpu_push8 a ;; cpu_push8 b) s) in
  let s3 := snd (cpu_pop8 s2) in
  let s4 := snd (cpu_pop8 s3) in
  fst (cpu_pop8 s2) = to_u8 b /\
  fst (cpu_pop8 s3) = to_u8 a /\
  cpu_sp s4 = cpu_sp s /\
  mem s4 = mem s2.
Proof.
  intros Hsp. cbv zeta. rewrite snd_bind.
  destruct (sp_arith (cpu_sp s) Hsp) as (E1 & E2 & _ & N1 & _).
  pose proof (to_u8_range (cpu_sp s - 1)) as R1.
  pose proof (to_u8_range (to_u8 (cpu_sp s - 1) - 1)) as R2.
  rewrite (cpu_push8_unfold a s Hsp). cbn [snd].
  rewrite cpu_push8_unfold by (cbn [cpu_sp]; exact R1).
  cbn [snd cpu_sp cpu_a cpu_x cpu_y cpu_flags cpu_pc mem log].
  rewrite cpu_pop8_unfold by (cbn [cpu_sp]; exact R2).
  cbn [snd fst cpu_sp cpu_a cpu_x cpu_y cpu_flags cpu_pc mem log].
  rewrite cpu_pop8_unfold by (cbn [cpu_sp]; rewrite E2; exact R1).
  cbn [snd fst cpu_sp cpu_a cpu_x cpu_y cpu_flags cpu_pc mem log].
  rewrite E2, E1.
  repeat apply conj.
  - apply upd_same.
  - rewrite upd_other by lia. apply upd_same.
  - reflexivity.
  - reflexivity.
Qed.

Lemma push_pop_is_lifo_witness :
  let s := machine_of 0 0 0 0 0x00 0x8000 [] in
  0 <= cpu_sp s < 256 /\
  fst (cpu_pop8 (snd ((cpu_push8 0x12 ;; cpu_push8 0x34) s))) = to_u8 0x34.
Proof.
  cbv zeta. split; [simpl; lia|].
  apply (push_pop_is_lifo (machine_of 0 0 0 0 0x00 0x8000 []) 0x12 0x34).
  simpl; lia.
Defined.
(** ** Push and pull instructions, one step each *)

Lemma after_fetch_sp s : cpu_sp (after_fetch s) = cpu_sp s.
Proof. reflexivity. Qed.

(** The state after PHA (0x48) and PHP (0x08): the byte pushed is A, resp.
    the flags with bits 5 and B set. *)
Lemma step_push s op body v :
  0 <= cpu_sp s < 256 ->
  opcode_at s = op -> exec_op op = Some body ->
  (forall t, body t = cpu_push8 (v t) t) ->
  cpu_execute s =
  Some (mkMachine (cpu_a s) (cpu_x s) (cpu_y s) (cpu_flags s)
          (to_u8 (cpu_sp s - 1)) (to_u16 (cpu_pc s + 1))
          (upd (mem s) (0x0100 + cpu_sp s) (to_u8 (v (after_fetch s))))
          (Wr Stk (0x0100 + cpu_sp s) (to_u8 (v (after_fetch s)))
             :: Rd Bus (to_u16 (cpu_pc s)) :: log s)).
Proof.
  intros Hsp Hat Hop Hbody.
  rewrite (cpu_execute_at s op body Hat Hop), Hbody.
  rewrite cpu_push8_unfold by exact Hsp. reflexivity.
Qed.

(** The state after a [case] that pops one byte and stores [g] of it with
    [set_r]: PLA (0x68) and PLP (0x28). *)
Lemma step_pull_value s op body (k : Z -> M unit) :
  0 <= cpu_sp s < 256 ->
  opcode_at s = op -> exec_op op = Some body ->
  (forall t, body t = (v <- cpu_pop8 ;; k v) t) ->
  cpu_execute s =
  Some (snd (k (mem s (0x0100 + to_u8 (cpu_sp s + 1)))
               (mkMachine (cpu_a s) (cpu_x s) (cpu_y s) (cpu_flags s)
                  (to_u8 (cpu_sp s + 1)) (to_u16 (cpu_pc s + 1)) (mem s)
                  (Rd Stk (0x0100 + to_u8 (cpu_sp s + 1))
                     :: Rd Bus (to_u16 (cpu_pc s)) :: log s)))).
Proof.
  intros Hsp Hat Hop Hbody.
  rewrite (cpu_execute_at s op body Hat Hop), Hbody.
  unfold bind. rewrite cpu_pop8_unfold by exact Hsp. reflexivity.
Qed.

(** X14.  PHA then PLA: when the opcode after a PHA is PLA, the two steps
    return, leave A (as a byte), X, Y and SP as they were, and advance PC by
    two. *)
Theorem pha_pla_round_trip (s s1 : machine) :
  0 <= cpu_sp s < 256 ->
  opcode_at s = 0x48 -> cpu_execute s = Some s1 -> opcode_at s1 = 0x68 ->
  exists s2,
    cpu_execute s1 = Some s2 /\
    cpu_a s2 = to_u8 (cpu_a s) /\
    (cpu_x s2, cpu_y s2, cpu_sp s2) = (cpu_x s, cpu_y s, cpu_sp s) /\
    cpu_pc s2 = to_u16 (cpu_pc s + 2).
Proof.
  intros Hsp Hat E1 Hat1.
  destruct (sp_arith (cpu_sp s) Hsp) as (B1 & _).
  rewrite (step_push s 0x48 PHA cpu_a Hsp Hat eq_refl
             (fun t => eq_refl)) in E1.
  injection E1 as <-.
  eexists. split.
  - apply (step_pull_value _ 0x68 PLA set_a);
      [ cbn [cpu_sp]; apply to_u8_range | exact Hat1 | reflexivity
      | intros t; reflexivity ].
  - cbn [snd set_a cpu_a cpu_x cpu_y cpu_sp cpu_pc mem].
    rewrite B1, upd_same.
    repeat apply conj.
    + apply to_u8_small, to_u8_range.
    + reflexivity.
    + rewrite to_u16_add_l. f_equal. lia.
Qed.

Lemma pha_pla_round_trip_witness :
  let s :=
    machine_of 0xA7 0 0 0 0x00 0x8000 [(0x8000, 0x48); (0x8001, 0x68)] in
  0 <= cpu_sp s < 256 /\ opcode_at s = 0x48 /\
  exists s1 s2,
    cpu_execute s = Some s1 /\ opcode_at s1 = 0x68 /\
    cpu_execute s1 = Some s2 /\ cpu_a s2 = to_u8 (cpu_a s).
Proof.
  cbv zeta. split; [simpl; lia|]. split; [reflexivity|].
  eexists.
  destruct (pha_pla_round_trip
              (machine_of 0xA7 0 0 0 0x00 0x8000
                 [(0x8000, 0x48); (0x8001, 0x68)])
              _ ltac:(simpl; lia) eq_refl eq_refl eq_refl)
    as (s2 & E2 & Ha & _).
  exists s2. repeat split; assumption.
Defined.

(** The flags pushed by PHP and masked by PLP come back, for a flag byte
    whose bits 5 and B are clear. *)
Lemma php_plp_flags f :
  0 <= f < 256 -> Z.land f (Z.lor F_5 F_B) = 0 ->
  to_u8 (Z.land (to_u8 (Z.lor (Z.lor f F_B) F_5)) F_PHYSICAL) = f.
Proof.
  intros Hf Hb.
  assert (implb (Z.land f (Z.lor F_5 F_B) =? 0)
            (to_u8 (Z.land (to_u8 (Z.lor (Z.lor f F_B) F_5)) F_PHYSICAL) =? f)
          = true) as H.
  { revert f Hf Hb. intros f Hf _. revert f Hf.
    apply bytes_forall. vm_compute. reflexivity. }
  rewrite Hb in H. simpl in H. apply Z.eqb_eq in H. exact H.
Qed.

(** X15.  PHP then PLP: when the opcode after a PHP is PLP, the two steps
    return and leave the flags, A, X, Y and SP as they were, for flags that
    are a byte with bits 5 and B clear; PC advances by two. *)
Theorem php_plp_round_trip (s s1 : machine) :
  0 <= cpu_sp s < 256 -> 0 <= cpu_flags s < 256 -> stack_bits_clear s ->
  opcode_at s = 0x08 -> cpu_execute s = Some s1 -> opcode_at s1 = 0x28 ->
  exists s2,
    cpu_execute s1 = Some s2 /\
    data_regs s2 = data_regs s /\
    cpu_pc s2 = to_u16 (cpu_pc s + 2).
Proof.
  intros Hsp Hf Hclear Hat E1 Hat1.
  destruct (sp_arith (cpu_sp s) Hsp) as (B1 & _).
  rewrite (step_push s 0x08 PHP
             (fun t => Z.lor (Z.lor (cpu_flags t) F_B) F_5)
             Hsp Hat eq_refl (fun t => eq_refl)) in E1.
  injection E1 as <-.
  eexists. split.
  - apply (step_pull_value _ 0x28 PLP
             (fun v => set_flags (Z.land v F_PHYSICAL)));
      [ cbn [cpu_sp]; apply to_u8_range | exact Hat1 | reflexivity
      | intros t; reflexivity ].
  - unfold data_regs.
    cbn [snd set_flags cpu_a cpu_x cpu_y cpu_flags cpu_sp cpu_pc mem
         after_fetch].
    rewrite B1, upd_same, (php_plp_flags _ Hf Hclear).
    split; [reflexivity|].
    rewrite to_u16_add_l. f_equal. lia.
Qed.

Lemma php_plp_round_trip_witness :
  let s :=
    machine_of 0 0 0 0xCF 0xFD 0x8000 [(0x8000, 0x08); (0x8001, 0x28)] in
  0 <= cpu_sp s < 256 /\ 0 <= cpu_flags s < 256 /\ stack_bits_clear s /\
  opcode_at s = 0x08 /\
  exists s1 s2,
    cpu_execute s = Some s1 /\ opcode_at s1 = 0x28 /\
    cpu_execute s1 = Some s2 /\ data_regs s2 = data_regs s.
Proof.
  cbv zeta. split; [simpl; lia|]. split; [simpl; lia|].
  split; [reflexivity|]. split; [reflexivity|].
  eexists.
  destruct (php_plp_round_trip
              (machine_of 0 0 0 0xCF 0xFD 0x8000
                 [(0x8000, 0x08); (0x8001, 0x28)])
              _ ltac:(simpl; lia) ltac:(simpl; lia) eq_refl
              eq_refl eq_refl eq_refl)
    as (s2 & E2 & Hr & _).
  exists s2. repeat split; assumption.
Defined.
(** ** Calls and interrupts, one step each *)

(** A 16-bit value pushed as two bytes and joined again, the way RTS
    ([|]) and RTI ([+]) join them; checked on the 65536 values. *)
Lemma word_split_join p :
  0 <= p < 65536 ->
  to_u16 (Z.lor (to_u16 (to_u8 (Z.land p 0xFF)))
                (Z.shiftl (to_u8 (Z.shiftr p 8)) 8)) = p /\
  to_u16 (to_u16 (to_u8 (Z.land p 0xFF))
          + Z.shiftl (to_u8 (Z.shiftr p 8)) 8) = p.
Proof.
  intros Hp.
  assert (forall h l, 0 <= h < 256 -> 0 <= l < 256 ->
          (to_u16 (Z.lor (to_u16 (to_u8 (Z.land (256 * h + l) 0xFF)))
                         (Z.shiftl (to_u8 (Z.shiftr (256 * h + l) 8)) 8))
           =? 256 * h + l)
          && (to_u16 (to_u16 (to_u8 (Z.land (256 * h + l) 0xFF))
                      + Z.shiftl (to_u8 (Z.shiftr (256 * h + l) 8)) 8)
              =? 256 * h + l) = true) as Hall.
  { apply bytes2_forall. vm_compute. reflexivity. }
  pose proof (Z.div_mod p 256 ltac:(lia)) as Hd.
  pose proof (Z.mod_pos_bound p 256 ltac:(lia)) as Hm.
  assert (0 <= p / 256 < 256) as Hh
    by (split; [apply Z.div_pos; lia | apply Z.div_lt_upper_bound; lia]).
  specialize (Hall (p / 256) (p mod 256) Hh Hm).
  rewrite <- Hd in Hall.
  apply andb_true_iff in Hall. destruct Hall as [H1 H2].
  apply Z.eqb_eq in H1. apply Z.eqb_eq in H2. split; assumption.
Qed.

Lemma some_eq {A} (a b : A) : Some a = Some b -> a = b.
Proof. intros H. injection H as ->. reflexivity. Qed.

(** What JSR (0x20) leaves: the address of its last byte on the stack, high
    byte first, SP two lower, the other registers as they were. *)
Lemma step_JSR s s1 :
  0 <= cpu_sp s < 256 ->
  opcode_at s = 0x20 -> cpu_execute s = Some s1 ->
  let ret_addr := to_u16 (cpu_pc s + 2) in
  (cpu_a s1, cpu_x s1, cpu_y s1, cpu_flags s1)
    = (cpu_a s, cpu_x s, cpu_y s, cpu_flags s) /\
  cpu_sp s1 = to_u8 (to_u8 (cpu_sp s - 1) - 1) /\
  mem s1 = upd (upd (mem s) (0x0100 + cpu_sp s) (to_u8 (Z.shiftr ret_addr 8)))
             (0x0100 + to_u8 (cpu_sp s - 1)) (to_u8 (Z.land ret_addr 0xFF)).
Proof.
  intros Hsp Hat E. cbv zeta.
  rewrite (cpu_execute_at s 0x20 JSR Hat eq_refl) in E.
  apply some_eq in E. subst s1.
  pose proof (to_u8_range (cpu_sp s - 1)) as R1.
  unfold JSR, cpu_fetch8, bind, reg, set_pc, rd8, rd8_from, after_fetch.
  cbn [snd fst cpu_a cpu_x cpu_y cpu_flags cpu_sp cpu_pc mem log].
  rewrite cpu_push8_unfold by (cbn [cpu_sp]; exact Hsp).
  cbn [snd fst cpu_a cpu_x cpu_y cpu_flags cpu_sp cpu_pc mem log].
  rewrite cpu_push8_unfold by (cbn [cpu_sp]; exact R1).
  cbn [snd fst cpu_a cpu_x cpu_y cpu_flags cpu_sp cpu_pc mem log].
  rewrite !to_u16_add_l.
  replace (cpu_pc s + 1 + 1) with (cpu_pc s + 2) by lia.
  repeat split.
Qed.

(** What RTS (0x60) does with the two bytes above the stack pointer. *)
Lemma step_RTS s :
  0 <= cpu_sp s < 256 -> opcode_at s = 0x60 ->
  let sp1 := to_u8 (cpu_sp s + 1) in
  let sp2 := to_u8 (sp1 + 1) in
  exists s',
    cpu_execute s = Some s' /\
    (cpu_a s', cpu_x s', cpu_y s', cpu_flags s')
      = (cpu_a s, cpu_x s, cpu_y s, cpu_flags s) /\
    cpu_sp s' = sp2 /\
    cpu_pc s' =
      to_u16 (to_u16 (Z.lor (to_u16 (mem s (0x0100 + sp1)))
                            (Z.shiftl (mem s (0x0100 + sp2)) 8)) + 1).
Proof.
  intros Hsp Hat. cbv zeta.
  rewrite (cpu_execute_at s 0x60 RTS Hat eq_refl).
  eexists. split; [reflexivity|].
  pose proof (to_u8_range (cpu_sp s + 1)) as R1.
  unfold RTS, bind, set_pc.
  rewrite cpu_pop8_unfold by (cbn [cpu_sp after_fetch]; exact Hsp).
  cbn [snd fst cpu_a cpu_x cpu_y cpu_flags cpu_sp cpu_pc mem log after_fetch].
  rewrite cpu_pop8_unfold by (cbn [cpu_sp]; exact R1).
  cbn [snd fst cpu_a cpu_x cpu_y cpu_flags cpu_sp cpu_pc mem log].
  repeat split.
Qed.

(** X16.  JSR then RTS: when the opcode at the target of a JSR is RTS, the
    two steps return, end at the instruction after the JSR (PC + 3 modulo
    2^16) and leave A, X, Y, the flags and SP as they were, at every stack
    pointer. *)
Theorem jsr_rts_round_trip (s s1 : machine) :
  0 <= cpu_sp s < 256 ->
  opcode_at s = 0x20 -> cpu_execute s = Some s1 -> opcode_at s1 = 0x60 ->
  exists s2,
    cpu_execute s1 = Some s2 /\
    data_regs s2 = data_regs s /\
    cpu_pc s2 = to_u16 (cpu_pc s + 3).
Proof.
  intros Hsp Hat E1 Hat1.
  destruct (step_JSR s s1 Hsp Hat E1) as (Hr1 & Hsp1 & Hm1).
  destruct (sp_arith (cpu_sp s) Hsp) as (B1 & B2 & _ & N1 & _ & N3).
  assert (0 <= cpu_sp s1 < 256) as Hs1 by (rewrite Hsp1; apply to_u8_range).
  destruct (step_RTS s1 Hs1 Hat1) as (s2 & E2 & Hr2 & Hsp2 & Hpc2).
  exists s2. split; [exact E2|].
  rewrite Hsp1, B2, B1 in Hsp2. rewrite Hsp1, B2, B1, Hm1 in Hpc2.
  rewrite upd_same in Hpc2.
  rewrite (upd_other _ _ _ (256 + cpu_sp s)) in Hpc2 by lia.
  rewrite upd_same in Hpc2.
  destruct (word_split_join (to_u16 (cpu_pc s + 2)) (to_u16_range _))
    as [Hj _].
  rewrite Hj, to_u16_add_l in Hpc2.
  split.
  - unfold data_regs. injection Hr2 as -> -> -> ->.
    injection Hr1 as -> -> -> ->. rewrite Hsp2. reflexivity.
  - rewrite Hpc2. f_equal. lia.
Qed.

Lemma jsr_rts_round_trip_witness :
  let s :=
    machine_of 0 0 0 0 0x00 0x8000
      [(0x8000, 0x20); (0x8001, 0x00); (0x8002, 0x90); (0x9000, 0x60)] in
  0 <= cpu_sp s < 256 /\ opcode_at s = 0x20 /\
  exists s1 s2,
    cpu_execute s = Some s1 /\ opcode_at s1 = 0x60 /\
    cpu_execute s1 = Some s2 /\ cpu_pc s2 = to_u16 (cpu_pc s + 3).
Proof.
  cbv zeta. split; [simpl; lia|]. split; [reflexivity|].
  eexists.
  destruct (jsr_rts_round_trip
              (machine_of 0 0 0 0 0x00 0x8000
                 [(0x8000, 0x20); (0x8001, 0x00); (0x8002, 0x90);
                  (0x9000, 0x60)])
              _ ltac:(simpl; lia) eq_refl eq_refl eq_refl)
    as (s2 & E2 & _ & Hpc).
  exists s2. repeat split; assumption.
Defined.

(** What BRK (0x00) leaves on the stack and in the registers. *)
Lemma step_BRK s s1 :
  0 <= cpu_sp s < 256 ->
  opcode_at s = 0x00 -> cpu_execute s = Some s1 ->
  (cpu_a s1, cpu_x s1, cpu_y s1) = (cpu_a s, cpu_x s, cpu_y s) /\
  cpu_sp s1 = to_u8 (to_u8 (to_u8 (cpu_sp s - 1) - 1) - 1) /\
  mem s1 (0x0100 + to_u8 (to_u8 (cpu_sp s - 1) - 1))
    = to_u8 (Z.lor (Z.lor (cpu_flags s) F_B) F_5).
Proof.
  intros Hsp Hat E.
  rewrite (cpu_execute_at s 0x00 BRK Hat eq_refl) in E.
  apply some_eq in E. subst s1.
  pose proof (to_u8_range (cpu_sp s - 1)) as R1.
  pose proof (to_u8_range (to_u8 (cpu_sp s - 1) - 1)) as R2.
  unfold BRK, raise_flag, bind, reg, set_pc, set_flags, rd8, rd8_from,
    after_fetch.
  cbn [snd fst cpu_a cpu_x cpu_y cpu_flags cpu_sp cpu_pc mem log].
  rewrite cpu_push8_unfold by (cbn [cpu_sp]; exact Hsp).
  cbn [snd fst cpu_a cpu_x cpu_y cpu_flags cpu_sp cpu_pc mem log].
  rewrite cpu_push8_unfold by (cbn [cpu_sp]; exact R1).
  cbn [snd fst cpu_a cpu_x cpu_y cpu_flags cpu_sp cpu_pc mem log].
  rewrite cpu_push8_unfold by (cbn [cpu_sp]; exact R2).
  cbn [snd fst cpu_a cpu_x cpu_y cpu_flags cpu_sp cpu_pc mem log].
  repeat split. apply upd_same.
Qed.

(** What RTI (0x40) does with the flag byte above the stack pointer. *)
Lemma step_RTI s :
  0 <= cpu_sp s < 256 -> opcode_at s = 0x40 ->
  exists s',
    cpu_execute s = Some s' /\
    (cpu_a s', cpu_x s', cpu_y s') = (cpu_a s, cpu_x s, cpu_y s) /\
    cpu_sp s' = to_u8 (to_u8 (to_u8 (cpu_sp s + 1) + 1) + 1) /\
    cpu_flags s'
      = to_u8 (Z.land (mem s (0x0100 + to_u8 (cpu_sp s + 1))) F_PHYSICAL).
Proof.
  intros Hsp Hat.
  rewrite (cpu_execute_at s 0x40 RTI Hat eq_refl).
  eexists. split; [reflexivity|].
  pose proof (to_u8_range (cpu_sp s + 1)) as R1.
  pose proof (to_u8_range (to_u8 (cpu_sp s + 1) + 1)) as R2.
  unfold RTI, bind, set_pc, set_flags.
  rewrite cpu_pop8_unfold by (cbn [cpu_sp after_fetch]; exact Hsp).
  cbn [snd fst cpu_a cpu_x cpu_y cpu_flags cpu_sp cpu_pc mem log after_fetch].
  rewrite cpu_pop8_unfold by (cbn [cpu_sp]; exact R1).
  cbn [snd fst cpu_a cpu_x cpu_y cpu_flags cpu_sp cpu_pc mem log].
  rewrite cpu_pop8_unfold by (cbn [cpu_sp]; exact R2).
  cbn [snd fst cpu_a cpu_x cpu_y cpu_flags cpu_sp cpu_pc mem log].
  repeat split.
Qed.

(** X17.  BRK then RTI: when the opcode at the BRK vector is RTI, the two
    steps return and leave the flags (the I flag included), A, X, Y and SP
    as they were before the BRK, for flags that are a byte with bits 5 and
    B clear. *)
Theorem brk_rti_restores_flags (s s1 : machine) :
  0 <= cpu_sp s < 256 -> 0 <= cpu_flags s < 256 -> stack_bits_clear s ->
  opcode_at s = 0x00 -> cpu_execute s = Some s1 -> opcode_at s1 = 0x40 ->
  exists s2, cpu_execute s1 = Some s2 /\ data_regs s2 = data_regs s.
Proof.
  intros Hsp Hf Hclear Hat E1 Hat1.
  destruct (step_BRK s s1 Hsp Hat E1) as (Hr1 & Hsp1 & Hm1).
  destruct (sp_arith (cpu_sp s) Hsp) as (B1 & B2 & B3 & _).
  assert (0 <= cpu_sp s1 < 256) as Hs1 by (rewrite Hsp1; apply to_u8_range).
  destruct (step_RTI s1 Hs1 Hat1) as (s2 & E2 & Hr2 & Hsp2 & Hf2).
  exists s2. split; [exact E2|].
  rewrite Hsp1, B3, B2, B1 in Hsp2.
  rewrite Hsp1, B3, Hm1, (php_plp_flags _ Hf Hclear) in Hf2.
  unfold data_regs. injection Hr2 as -> -> ->. injection Hr1 as -> -> ->.
  rewrite Hsp2, Hf2. reflexivity.
Qed.

Lemma brk_rti_restores_flags_witness :
  let s :=
    machine_of 0x11 0x22 0x33 0xC3 0x01 0x8000
      [(0x8000, 0x00); (0xFFFE, 0x00); (0xFFFF, 0x90); (0x9000, 0x40)] in
  0 <= cpu_sp s < 256 /\ 0 <= cpu_flags s < 256 /\ stack_bits_clear s /\
  opcode_at s = 0x00 /\
  exists s1 s2,
    cpu_execute s = Some s1 /\ opcode_at s1 = 0x40 /\
    cpu_execute s1 = Some s2 /\ data_regs s2 = data_regs s.
Proof.
  cbv zeta. split; [simpl; lia|]. split; [simpl; lia|].
  split; [reflexivity|]. split; [reflexivity|].
  eexists.
  destruct (brk_rti_restores_flags
              (machine_of 0x11 0x22 0x33 0xC3 0x01 0x8000
                 [(0x8000, 0x00); (0xFFFE, 0x00); (0xFFFF, 0x90);
                  (0x9000, 0x40)])
              _ ltac:(simpl; lia) ltac:(simpl; lia) eq_refl
              eq_refl eq_refl eq_refl)
    as (s2 & E2 & Hr).
  exists s2. repeat split; assumption.
Defined.
(** ** Operand fetches *)

(** Two bytes joined little-endian. *)
Lemma join_bytes lo hi :
  0 <= lo < 256 -> 0 <= hi < 256 ->
  to_u16 (to_u16 lo + Z.shiftl hi 8) = lo + 256 * hi.
Proof.
  intros Hl Hh. rewrite Z.shiftl_mul_pow2 by lia. change (2 ^ 8) with 256.
  rewrite (to_u16_small lo) by lia. rewrite to_u16_small by lia. lia.
Qed.

(** X18.  [cpu_fetch16] reads the byte at PC as the low half and the byte
    at PC + 1 as the high half, both addresses taken modulo 2^16 -- at
    PC = 0xFFFF the high half comes from address 0 -- and leaves PC two
    further, modulo 2^16; nothing else changes. *)
Theorem fetch16_is_little_endian (s : machine) :
  (forall addr, 0 <= mem s addr < 256) ->
  let lo_addr := to_u16 (cpu_pc s) in
  let hi_addr := to_u16 (cpu_pc s + 1) in
  let s' := snd (cpu_fetch16 s) in
  fst (cpu_fetch16 s) = mem s lo_addr + 256 * mem s hi_addr /\
  cpu_pc s' = to_u16 (cpu_pc s + 2) /\
  issued s s' [Rd Bus hi_addr; Rd Bus lo_addr] /\
  data_regs s' = data_regs s /\ mem s' = mem s.
Proof.
  intros Hm. cbv zeta.
  unfold cpu_fetch16, cpu_fetch8, bind, reg, set_pc, rd8, rd8_from, ret,
    issued, data_regs.
  cbn [snd fst cpu_a cpu_x cpu_y cpu_flags cpu_sp cpu_pc mem log].
  rewrite join_bytes by apply Hm.
  rewrite !to_u16_idem, !to_u16_add_l.
  replace (cpu_pc s + 1 + 1) with (cpu_pc s + 2) by lia.
  repeat split.
Qed.

Lemma fetch16_is_little_endian_witness :
  let s := machine_of 0 0 0 0 0xFD 0xFFFF [(0xFFFF, 0x34); (0x0000, 0x12)] in
  (forall addr, 0 <= mem s addr < 256) /\
  fst (cpu_fetch16 s) = 0x1234 /\ cpu_pc (snd (cpu_fetch16 s)) = 0x0001.
Proof.
  cbv zeta.
  assert (forall addr,
            0 <= mem (machine_of 0 0 0 0 0xFD 0xFFFF
                        [(0xFFFF, 0x34); (0x0000, 0x12)]) addr < 256) as Hm.
  { apply mem_of_bytes. repeat constructor; simpl; lia. }
  split; [exact Hm|].
  destruct (fetch16_is_little_endian _ Hm) as (Hv & Hpc & _).
  split; [rewrite Hv | rewrite Hpc]; reflexivity.
Defined.

(** X19.  The pointer of the indirect modes is read inside zero page and
    wraps there: [cpu_ind_x] reads its low byte at [(operand + X) mod 256]
    and its high byte at the next address modulo 256, [cpu_ind_y] at
    [operand] and [(operand + 1) mod 256], and adds Y modulo 2^16
    afterwards. *)
Theorem indirect_pointer_wraps_in_zero_page (s : machine) :
  (forall addr, 0 <= mem s addr < 256) ->
  0 <= cpu_x s < 256 ->
  let d := mem s (to_u16 (cpu_pc s)) in
  (let p0 := (d + cpu_x s) mod 256 in
   let p1 := (p0 + 1) mod 256 in
   fst (cpu_ind_x s) = mem s p0 + 256 * mem s p1 /\
   issued s (snd (cpu_ind_x s))
     [Rd Bus p1; Rd Bus p0; Rd Bus (to_u16 (cpu_pc s))] /\
   0 <= p0 < 256 /\ 0 <= p1 < 256) /\
  (let p1 := (d + 1) mod 256 in
   fst (cpu_ind_y s) = (mem s d + 256 * mem s p1 + cpu_y s) mod 65536 /\
   issued s (snd (cpu_ind_y s))
     [Rd Bus p1; Rd Bus d; Rd Bus (to_u16 (cpu_pc s))] /\
   0 <= d < 256 /\ 0 <= p1 < 256).
Proof.
  intros Hm Hx. cbv zeta.
  pose proof (Hm (to_u16 (cpu_pc s))) as Hd.
  set (d := mem s (to_u16 (cpu_pc s))) in *.
  pose proof (Z.mod_pos_bound (d + cpu_x s) 256 ltac:(lia)) as H0.
  pose proof (Z.mod_pos_bound ((d + cpu_x s) mod 256 + 1) 256 ltac:(lia)) as H1.
  pose proof (Z.mod_pos_bound (d + 1) 256 ltac:(lia)) as H2.
  split.
  - unfold cpu_ind_x, cpu_fetch8, bind, reg, set_pc, rd8, rd8_from, ret,
      issued.
    cbn [snd fst cpu_a cpu_x cpu_y cpu_flags cpu_sp cpu_pc mem log].
    fold d. rewrite land_0xFF.
    rewrite (to_u8_small (to_u8 (d + cpu_x s))) by apply to_u8_range.
    unfold to_u8.
    rewrite (to_u16_small ((d + cpu_x s) mod 256)) by lia.
    rewrite (to_u16_small (((d + cpu_x s) mod 256 + 1) mod 256)) by lia.
    rewrite join_bytes by apply Hm.
    repeat apply conj; try reflexivity; lia.
  - unfold cpu_ind_y, cpu_fetch8, bind, reg, set_pc, rd8, rd8_from, ret,
      issued.
    cbn [snd fst cpu_a cpu_x cpu_y cpu_flags cpu_sp cpu_pc mem log].
    fold d. rewrite (to_u8_small d) by lia. unfold to_u8.
    rewrite (to_u16_small d) by lia.
    rewrite (to_u16_small ((d + 1) mod 256)) by lia.
    rewrite join_bytes by apply Hm.
    repeat apply conj; try reflexivity; lia.
Qed.

Lemma indirect_pointer_wraps_in_zero_page_witness :
  let s :=
    machine_of 0 0x01 0 0 0xFD 0x8000
      [(0x8000, 0xFE); (0x00FF, 0x34); (0x0000, 0x12)] in
  (forall addr, 0 <= mem s addr < 256) /\ 0 <= cpu_x s < 256 /\
  fst (cpu_ind_x s) = 0x1234.
Proof.
  cbv zeta.
  assert (forall addr,
            0 <= mem (machine_of 0 0x01 0 0 0xFD 0x8000
                        [(0x8000, 0xFE); (0x00FF, 0x34); (0x0000, 0x12)])
                   addr < 256) as Hm.
  { apply mem_of_bytes. repeat constructor; simpl; lia. }
  split; [exact Hm|]. split; [simpl; lia|].
  destruct (indirect_pointer_wraps_in_zero_page _ Hm ltac:(simpl; lia))
    as ((Hv & _) & _).
  rewrite Hv. reflexivity.
Defined.

(** ** BIT *)

Lemma cpu_bit_unfold v s :
  cpu_bit v s =
  (tt, mkMachine (cpu_a s) (cpu_x s) (cpu_y s)
         (to_u8
            (Z.lor (Z.lor (Z.lor
               (Z.land (cpu_flags s) (Z.lnot (Z.lor (Z.lor F_N F_Z) F_V)))
               (sel (Z.land (to_u8 v) 0x80) F_N 0))
               (sel (Z.land (cpu_a s) (to_u8 v)) 0 F_Z))
               (sel (Z.land (to_u8 v) 0x40) F_V 0)))
         (cpu_sp s) (cpu_pc s) (mem s) (log s)).
Proof. reflexivity. Qed.

Lemma truthy_bit6 v : truthy (Z.land v 0x40) = Z.testbit v 6.
Proof. change 0x40 with (Z.shiftl 1 6). apply truthy_land_bit. lia. Qed.

(** X20.  [cpu_bit] copies bits 7 and 6 of the operand into N and V and
    sets Z exactly when A and the operand have no bit in common; A, the
    other registers, C, D, I and memory are untouched. *)
Theorem bit_tests_without_changing_a (s : machine) (v : Z) :
  0 <= v < 256 ->
  let s' := snd (cpu_bit v s) in
  flag F_N s' = Z.testbit v 7 /\
  flag F_V s' = Z.testbit v 6 /\
  flag F_Z s' = (Z.land (cpu_a s) v =? 0) /\
  flag F_C s' = flag F_C s /\ flag F_D s' = flag F_D s /\
  flag F_I s' = flag F_I s /\
  (cpu_a s', cpu_x s', cpu_y s', cpu_sp s', cpu_pc s', log s')
    = (cpu_a s, cpu_x s, cpu_y s, cpu_sp s, cpu_pc s, log s) /\
  mem s' = mem s.
Proof.
  intros Hv. cbv zeta. rewrite cpu_bit_unfold. simpl snd.
  rewrite (to_u8_small v) by lia.
  rewrite !(flag_bit F_C 0), (flag_bit F_V 6), (flag_bit F_N 7),
    (flag_bit F_Z 1), !(flag_bit F_D 3), !(flag_bit F_I 2)
    by (reflexivity || lia).
  simpl cpu_flags.
  rewrite <- (truthy_bit7 v), <- (truthy_bit6 v).
  repeat split; read_bit.
Qed.

Lemma bit_tests_without_changing_a_witness :
  let s := machine_of 0x0F 0 0 0 0xFD 0x8000 [] in
  0 <= 0xC0 < 256 /\ flag F_Z (snd (cpu_bit 0xC0 s)) = true.
Proof.
  cbv zeta. split; [lia|].
  destruct (bit_tests_without_changing_a
              (machine_of 0x0F 0 0 0 0xFD 0x8000 []) 0xC0 ltac:(lia))
    as (_ & _ & HZ & _).
  rewrite HZ. reflexivity.
Defined.

(** ** Branches on the flag they name *)

(** X21.  BPL, BMI, BVC, BCC, BCS, BNE and BEQ decode, leave the flags as
    they were and end with PC at the fall-through address PC + 2, plus the
    operand read as a signed byte when the flag they name has the value
    they test; all modulo 2^16. *)
Theorem branches_test_their_flag (s : machine) (op mask : Z) (want : bool) :
  In (op, mask, want)
     [(0x10, F_N, false); (0x30, F_N, true); (0x50, F_V, false);
      (0x90, F_C, false); (0xB0, F_C, true);
      (0xD0, F_Z, false); (0xF0, F_Z, true)] ->
  opcode_at s = op ->
  exists s',
    cpu_execute s = Some s' /\
    data_regs s' = data_regs s /\ mem s' = mem s /\
    cpu_pc s' =
      if Bool.eqb (flag mask s) want
      then to_u16 (cpu_pc s + 2 + to_s8 (mem s (to_u16 (cpu_pc s + 1))))
      else to_u16 (cpu_pc s + 2).
Proof.
  intros Hin Hat.
  assert (exec_op op = Some (branch mask want)) as Hb.
  { simpl in Hin.
    repeat (destruct Hin as [Hin|Hin];
            [injection Hin as <- <- <-; reflexivity | ]).
    contradiction. }
  exact (branch_step s op (branch mask want) mask want Hb
           (fun s1 => eq_refl) Hat).
Qed.

Lemma branches_test_their_flag_witness :
  let s :=
    machine_of 0 0 0 0 0xFD 0x8000 [(0x8000, 0xD0); (0x8001, 0xFE)] in
  In (0xD0, F_Z, false)
     [(0x10, F_N, false); (0x30, F_N, true); (0x50, F_V, false);
      (0x90, F_C, false); (0xB0, F_C, true);
      (0xD0, F_Z, false); (0xF0, F_Z, true)] /\
  opcode_at s = 0xD0 /\
  exists s', cpu_execute s = Some s' /\ cpu_pc s' = 0x8000.
Proof.
  cbv zeta.
  assert (In (0xD0, F_Z, false)
            [(0x10, F_N, false); (0x30, F_N, true); (0x50, F_V, false);
             (0x90, F_C, false); (0xB0, F_C, true);
             (0xD0, F_Z, false); (0xF0, F_Z, true)]) as Hin
    by (simpl; tauto).
  split; [exact Hin|]. split; [reflexivity|].
  destruct (branches_test_their_flag
              (machine_of 0 0 0 0 0xFD 0x8000 [(0x8000, 0xD0); (0x8001, 0xFE)])
              0xD0 F_Z false Hin eq_refl)
    as (s' & E & _ & _ & Hpc).
  exists s'. split; [exact E|]. rewrite Hpc. reflexivity.
Defined.

(** * Further properties of the disassembler *)

Lemma count_nl_app (a b : string) :
  count_nl (a ++ b) = (count_nl a + count_nl b)%nat.
Proof.
  induction a as [|c a IH]; simpl; [reflexivity|]. rewrite IH. lia.
Qed.

Lemma length_app (a b : string) :
  String.length (a ++ b) = (String.length a + String.length b)%nat.
Proof.
  induction a as [|c a IH]; simpl; [reflexivity|]. rewrite IH. reflexivity.
Qed.

Lemma hex_digit_not_nl d : Ascii.eqb (hex_digit d) "010" = false.
Proof.
  destruct d as [|p|p]; try reflexivity;
    do 4 (try destruct p as [p|p|]); reflexivity.
Qed.

Lemma count_nl_hex2 v : count_nl (hex2 v) = 0%nat.
Proof. unfold hex2. cbn [count_nl]. rewrite !hex_digit_not_nl. reflexivity. Qed.

Lemma count_nl_hex4 v : count_nl (hex4 v) = 0%nat.
Proof. unfold hex4. rewrite count_nl_app, !count_nl_hex2. reflexivity. Qed.

Lemma length_hex2 v : String.length (hex2 v) = 2%nat.
Proof. reflexivity. Qed.

(** No index into [mne_s] yields a newline. *)
Lemma mne_char_not_nl idx k : Ascii.eqb (mne_char idx k) "010" = false.
Proof.
  unfold mne_char. generalize (Z.to_nat (idx + k)). intros n.
  do 31 (destruct n as [|n]; [reflexivity|]). reflexivity.
Qed.

Lemma count_nl_mnemonic idx : count_nl (mnemonic idx) = 0%nat.
Proof.
  unfold mnemonic. cbn [count_nl]. rewrite !mne_char_not_nl. reflexivity.
Qed.

(** The operand text of every mode value: no newline, at most eleven
    characters. *)
Lemma operand_text am b1 word target :
  count_nl (operand am b1 word target) = 0%nat /\
  (String.length (operand am b1 word target) <= 11)%nat.
Proof.
  destruct am as [|p|p]; [ | do 4 (try destruct p as [p|p|]) | ];
    cbn [operand]; rewrite ?count_nl_app, ?length_app;
    cbn [count_nl String.length append];
    rewrite ?count_nl_app, ?length_app, ?count_nl_hex2, ?count_nl_hex4,
      ?hex4_length, ?length_hex2;
    cbn [count_nl String.length append]; split; (reflexivity || lia).
Qed.

(** X22.  Whatever three bytes and address it is given -- the opcode it
    marks illegal included -- [dis] writes exactly one line: the text holds
    one newline, it is the last character, and the line is at most 36
    characters long. *)
Theorem dis_writes_one_line (instr : list Z) (addr : Z) :
  count_nl (dis instr addr) = 1%nat /\
  (exists line, dis instr addr = (line ++ nl)%string /\
                count_nl line = 0%nat) /\
  (String.length (dis instr addr) <= 36)%nat.
Proof.
  unfold dis. cbv zeta.
  set (i0 := to_u8 (nth 0 instr 0)).
  set (i1 := to_u8 (nth 1 instr 0)).
  set (i2 := to_u8 (nth 2 instr 0)).
  set (word := to_u16 (Z.shiftl i2 8 + i1)).
  set (target := to_u16 (to_u16 addr + to_s16 (to_s8 i1))).
  destruct (operand_text (mode_of i0) i1 word target) as [Oc Ol].
  destruct (mne_idx i0 =? 0xFF).
  - split; [|split].
    + rewrite !count_nl_app, count_nl_hex4, count_nl_hex2. reflexivity.
    + exists (hex4 (to_u16 addr) ++ ":" ++ tab ++ tab ++ "DB" ++ tab ++ "$"
              ++ hex2 i0 ++ tab ++ "; illegal instruction")%string.
      split.
      * rewrite !append_assoc. reflexivity.
      * rewrite !count_nl_app, count_nl_hex4, count_nl_hex2. reflexivity.
    + rewrite !length_app, hex4_length, length_hex2. cbn [String.length tab nl].
      lia.
  - destruct (truthy (mode_of i0)).
    + split; [|split].
      * rewrite !count_nl_app, count_nl_hex4, count_nl_mnemonic, Oc.
        reflexivity.
      * exists (hex4 (to_u16 addr) ++ ":" ++ tab ++ tab ++ mnemonic (mne_idx i0)
                ++ tab ++ operand (mode_of i0) i1 word target)%string.
        split.
        -- rewrite !append_assoc. reflexivity.
        -- rewrite !count_nl_app, count_nl_hex4, count_nl_mnemonic, Oc.
           reflexivity.
      * rewrite !length_app, hex4_length, mnemonic_length.
        cbn [String.length tab nl]. lia.
    + split; [|split].
      * rewrite !count_nl_app, count_nl_hex4, count_nl_mnemonic, Oc.
        reflexivity.
      * exists (hex4 (to_u16 addr) ++ ":" ++ tab ++ tab ++ mnemonic (mne_idx i0)
                ++ operand (mode_of i0) i1 word target)%string.
        split.
        -- rewrite !append_assoc. reflexivity.
        -- rewrite !count_nl_app, count_nl_hex4, count_nl_mnemonic, Oc.
           reflexivity.
      * rewrite !length_app, hex4_length, mnemonic_length.
        cbn [String.length tab nl]. lia.
Qed.

(** * Further properties of the accumulator shifts *)

Lemma shift_a_reads_a_and_flags (body : M unit) s :
  body = ASL_A \/ body = LSR_A ->
  cpu_a (snd (body s))
  = cpu_a (snd (body (alu_state (cpu_a s) (cpu_flags s)))) /\
  cpu_flags (snd (body s))
  = cpu_flags (snd (body (alu_state (cpu_a s) (cpu_flags s)))).
Proof. intros [->| ->]; split; reflexivity. Qed.

Lemma ASL_A_checked f a :
  0 <= f < 256 -> 0 <= a < 256 ->
  (let s := alu_state a f in
   let s' := snd (ASL_A s) in
   (cpu_a s' + 256 * carry s' =? 2 * a)
   && Bool.eqb (flag F_N s') (Z.testbit (cpu_a s') 7)
   && Bool.eqb (flag F_Z s') (cpu_a s' =? 0)
   && Bool.eqb (flag F_V s') (flag F_V s)
   && Bool.eqb (flag F_D s') (flag F_D s)
   && Bool.eqb (flag F_I s') (flag F_I s)) = true.
Proof.
  revert f a. apply bytes2_forall. vm_compute. reflexivity.
Qed.

Lemma LSR_A_checked f a :
  0 <= f < 256 -> 0 <= a < 256 ->
  (let s := alu_state a f in
   let s' := snd (LSR_A s) in
   (2 * cpu_a s' + carry s' =? a)
   && Bool.eqb (flag F_N s') false
   && Bool.eqb (flag F_Z s') (cpu_a s' =? 0)
   && Bool.eqb (flag F_V s') (flag F_V s)
   && Bool.eqb (flag F_D s') (flag F_D s)
   && Bool.eqb (flag F_I s') (flag F_I s)) = true.
Proof.
  revert f a. apply bytes2_forall. vm_compute. reflexivity.
Qed.

(** X23.  ASL A doubles and LSR A halves: for a byte A, after ASL A the new
    A with the carry as bit 8 is 2 A, and after LSR A twice the new A plus
    the carry is A, with N clear.  Z (and N for ASL) describe the new A; V,
    D and I are untouched. *)
Theorem accumulator_shifts_double_and_halve (s : machine) :
  0 <= cpu_flags s < 256 -> 0 <= cpu_a s < 256 ->
  (let s' := snd (ASL_A s) in
   cpu_a s' + 256 * carry s' = 2 * cpu_a s /\
   flag F_N s' = Z.testbit (cpu_a s') 7 /\ flag F_Z s' = (cpu_a s' =? 0) /\
   flag F_V s' = flag F_V s /\ flag F_D s' = flag F_D s /\
   flag F_I s' = flag F_I s) /\
  (let s' := snd (LSR_A s) in
   2 * cpu_a s' + carry s' = cpu_a s /\
   flag F_N s' = false /\ flag F_Z s' = (cpu_a s' =? 0) /\
   flag F_V s' = flag F_V s /\ flag F_D s' = flag F_D s /\
   flag F_I s' = flag F_I s).
Proof.
  intros Hf Ha. cbv zeta. split.
  - pose proof (ASL_A_checked (cpu_flags s) (cpu_a s) Hf Ha) as H.
    destruct (shift_a_reads_a_and_flags ASL_A s (or_introl eq_refl))
      as [Ea Ef].
    rewrite (carry_flags_only (snd (ASL_A s))).
    rewrite !(flag_flags_only _ s), !(flag_flags_only _ (snd (ASL_A s))).
    rewrite Ea, Ef.
    unpack_checked H. repeat apply conj; assumption.
  - pose proof (LSR_A_checked (cpu_flags s) (cpu_a s) Hf Ha) as H.
    destruct (shift_a_reads_a_and_flags LSR_A s (or_intror eq_refl))
      as [Ea Ef].
    rewrite (carry_flags_only (snd (LSR_A s))).
    rewrite !(flag_flags_only _ s), !(flag_flags_only _ (snd (LSR_A s))).
    rewrite Ea, Ef.
    unpack_checked H. repeat apply conj; assumption.
Qed.

Lemma accumulator_shifts_double_and_halve_witness :
  let s := machine_of 0x81 0 0 F_C 0xFD 0x8000 [] in
  0 <= cpu_flags s < 256 /\ 0 <= cpu_a s < 256 /\
  cpu_a (snd (ASL_A s)) + 256 * carry (snd (ASL_A s)) = 2 * cpu_a s.
Proof.
  cbv zeta. split; [cbv; split; [discriminate | reflexivity]|].
  split; [cbv; split; [discriminate | reflexivity]|].
  apply (proj1 (accumulator_shifts_double_and_halve
                  (machine_of 0x81 0 0 F_C 0xFD 0x8000 [])
                  ltac:(cbv; split; [discriminate | reflexivity])
                  ltac:(cbv; split; [discriminate | reflexivity]))).
Defined.

(** * The generator and the disassembler agree on the packing *)

Lemma mode_of_unpacks op :
  mode_of op = unpack_mode (addrmode (Z.shiftr op 1)) op.
Proof. reflexivity. Qed.

(** Two nibbles packed into a byte and taken apart again, checked on the
    256 pairs. *)
Lemma nibbles_checked h l :
  0 <= h < 16 -> 0 <= l < 16 ->
  Z.shiftr (to_u8 (16 * h + l)) 4 = h /\
  Z.land (to_u8 (16 * h + l)) 0xF = l /\
  to_u8 (Z.shiftr (16 * h + l) 4) = h /\
  Z.land (16 * h + l) 0xF = l /\
  to_u8 h = h /\ to_u8 l = l.
Proof.
  intros Hh Hl.
  assert (forall h0 l0, 0 <= h0 < 256 -> 0 <= l0 < 256 ->
          implb ((h0 <? 16) && (l0 <? 16))
            ((Z.shiftr (to_u8 (16 * h0 + l0)) 4 =? h0)
             && (Z.land (to_u8 (16 * h0 + l0)) 0xF =? l0)
             && (to_u8 (Z.shiftr (16 * h0 + l0) 4) =? h0)
             && (Z.land (16 * h0 + l0) 0xF =? l0)
             && (to_u8 h0 =? h0) && (to_u8 l0 =? l0)) = true) as Hall.
  { apply bytes2_forall. vm_compute. reflexivity. }
  specialize (Hall h l ltac:(lia) ltac:(lia)).
  destruct (Z.ltb_spec h 16); [|lia]. destruct (Z.ltb_spec l 16); [|lia].
  simpl in Hall. unpack_checked Hall. repeat apply conj; assumption.
Qed.

(** X24.  For a mode table whose entries are nibbles, the literal the
    generator prints for entries [2 i] and [2 i + 1] is [0x] followed by
    the two hex digits of the byte [16 * addrmode[2 i] + addrmode[2 i + 1]],
    and the unpacking of [dis] applied to that byte gives back
    [addrmode[2 i]] for the even opcode [2 i] and [addrmode[2 i + 1]] for
    the odd opcode [2 i + 1]. *)
Theorem generator_packs_as_dis_unpacks (am : Z -> Z) (i : Z) :
  0 <= i < 128 ->
  0 <= am (2 * i) < 16 -> 0 <= am (2 * i + 1) < 16 ->
  let packed := 16 * am (2 * i) + am (2 * i + 1) in
  gen_addrmode_entry am i = ("0x" ++ hex2 packed ++ row_sep i)%string /\
  unpack_mode packed (2 * i) = am (2 * i) /\
  unpack_mode packed (2 * i + 1) = am (2 * i + 1).
Proof.
  intros Hi Hh Hl. cbv zeta.
  destruct (nibbles_checked _ _ Hh Hl) as (N1 & N2 & N3 & N4 & N5 & N6).
  split; [|split].
  - unfold gen_addrmode_entry, hexX, hex2. rewrite N1, N2, N5, N6.
    destruct (Z.ltb_spec (am (2 * i)) 16); [|lia].
    destruct (Z.ltb_spec (am (2 * i + 1)) 16); [|lia].
    reflexivity.
  - unfold unpack_mode.
    replace (Z.land (2 * i) 1) with 0; [exact N3|].
    change 1 with (Z.ones 1). rewrite Z.land_ones by lia.
    change (2 ^ 1) with 2. rewrite Z.mul_comm, Z.mod_mul by lia. reflexivity.
  - unfold unpack_mode.
    replace (Z.land (2 * i + 1) 1) with 1; [exact N4|].
    change (Z.land (2 * i + 1) 1) with (Z.land (2 * i + 1) (Z.ones 1)).
    rewrite Z.land_ones by lia. change (2 ^ 1) with 2.
    rewrite Z.add_comm, Z.mul_comm, Z.mod_add by lia. reflexivity.
Qed.

Lemma generator_packs_as_dis_unpacks_witness :
  0 <= 2 < 128 /\ 0 <= gen_addrmode (2 * 2) < 16 /\
  0 <= gen_addrmode (2 * 2 + 1) < 16 /\
  gen_addrmode_entry gen_addrmode 2 = ("0x04, ")%string.
Proof.
  split; [lia|]. split; [cbv; split; [discriminate | reflexivity]|].
  split; [cbv; split; [discriminate | reflexivity]|].
  apply (proj1 (generator_packs_as_dis_unpacks gen_addrmode 2
                  ltac:(lia)
                  ltac:(cbv; split; [discriminate | reflexivity])
                  ltac:(cbv; split; [discriminate | reflexivity]))).
Defined.
